(** * run_crawl.py: the fetch / classify / harvest / persist pipeline

    A shallow embedding of [run_crawl.py] and the properties its
    specification states about it.

    Conventions of the embedding.
    - A Python [str] is a [string]: a sequence of code points below 256
      (the Latin-1 repertoire, which contains every character of a URL and
      of a MIME type).  [str.lower], [str.strip] and [str.encode("utf-8")]
      are written out for that repertoire.
    - [bytes] is [list byte].
    - The render engine, the HTTP session, [re], [urllib.parse] and the file
      system are the environment, a record [Env] that every function of the
      pipeline takes; every effect the program performs is appended to a
      trace, whose length is the clock.
    - The run is modelled from the loaded frontier and the working seed list
      on: configuration loading and sitemap expansion come before. *)

From Stdlib Require Import ZArith Ascii String List Bool Lia.
From stdpp Require Import base gmap strings list.

Import ListNotations.
Local Open Scope string_scope.

(** ** Python string operations *)

Module PyStr.

Definition code (c : ascii) : N := N_of_ascii c.

(** [str.lower] on one code point: A-Z, and the Latin-1 capitals
    U+00C0..U+00DE without the multiplication sign U+00D7. *)
Definition lower_char (c : ascii) : ascii :=
  let n := code c in
  if ((65 <=? n) && (n <=? 90))%N then ascii_of_N (n + 32)
  else if ((192 <=? n) && (n <=? 222) && negb (n =? 215))%N
       then ascii_of_N (n + 32)
  else c.

Fixpoint lower (s : string) : string :=
  match s with
  | EmptyString => EmptyString
  | String c r => String (lower_char c) (lower r)
  end.

(** [str.isspace] on one code point. *)
Definition is_space (c : ascii) : bool :=
  let n := code c in
  (((9 <=? n) && (n <=? 13)) || ((28 <=? n) && (n <=? 32))
   || (n =? 133) || (n =? 160))%N.

Fixpoint lstrip (s : string) : string :=
  match s with
  | EmptyString => EmptyString
  | String c r => if is_space c then lstrip r else s
  end.

(** [rstrip]: a suffix made of white space only is dropped. *)
Fixpoint rstrip (s : string) : string :=
  match s with
  | EmptyString => EmptyString
  | String c r =>
      match rstrip r with
      | EmptyString => if is_space c then EmptyString else String c EmptyString
      | r' => String c r'
      end
  end.

Definition strip (s : string) : string := rstrip (lstrip s).

(** [s.startswith(p)] *)
Fixpoint startswith (p s : string) : bool :=
  match p, s with
  | EmptyString, _ => true
  | String a p', String b s' => if Ascii.eqb a b then startswith p' s' else false
  | String _ _, EmptyString => false
  end.

(** [sub in s] *)
Fixpoint contains (sub s : string) : bool :=
  startswith sub s ||
  match s with
  | EmptyString => false
  | String _ r => contains sub r
  end.

Fixpoint rev_acc (s acc : string) : string :=
  match s with
  | EmptyString => acc
  | String c r => rev_acc r (String c acc)
  end.

Definition rev (s : string) : string := rev_acc s EmptyString.

(** [s.endswith(p)] *)
Definition endswith (p s : string) : bool := startswith (rev p) (rev s).

(** Truth value of a string: non-empty. *)
Definition truthy (s : string) : bool :=
  match s with EmptyString => false | _ => true end.

End PyStr.

(** ** Content classifier: [pick_ext_by_ct] *)

Definition pick_ext_by_ct (content_type : option string) : string :=
  match content_type with
  | None => ".bin"
  | Some EmptyString => ".bin"
  | Some content_type =>
      let ct := PyStr.lower content_type in
      if PyStr.contains "pdf" ct then ".pdf"
      else if PyStr.contains "msword" ct
              || PyStr.contains "officedocument.wordprocessingml" ct then ".docx"
      else if PyStr.contains "html" ct then ".html"
      else if PyStr.contains "spreadsheet" ct || PyStr.contains "excel" ct then ".xlsx"
      else if PyStr.contains "presentation" ct || PyStr.contains "powerpoint" ct then ".pptx"
      else ".bin"
  end.

(** The classifier as the specification words it: the markers of each kind,
    tried in a fixed order on the lower-cased content type. *)
Definition ext_table : list (list string * string) :=
  [ (["pdf"], ".pdf");
    (["msword"; "officedocument.wordprocessingml"], ".docx");
    (["html"], ".html");
    (["spreadsheet"; "excel"], ".xlsx");
    (["presentation"; "powerpoint"], ".pptx") ].

Fixpoint first_ext (table : list (list string * string)) (ct : string) : string :=
  match table with
  | [] => ".bin"
  | (markers, ext) :: rest =>
      if existsb (fun m => PyStr.contains m ct) markers then ext
      else first_ext rest ct
  end.

Definition ext_by_priority (content_type : option string) : string :=
  match content_type with
  | None => ".bin"
  | Some s => if PyStr.truthy s then first_ext ext_table (PyStr.lower s) else ".bin"
  end.

(** ** SHA-1 ([hashlib.sha1]) and [safe_filename] *)

Module Sha1.
Local Open Scope Z_scope.

Definition wrap32 (x : Z) : Z := Z.land x 4294967295.
Definition add32 (x y : Z) : Z := wrap32 (x + y).
Definition rotl (n x : Z) : Z :=
  wrap32 (Z.lor (Z.shiftl x n) (Z.shiftr x (32 - n))).
Definition not32 (x : Z) : Z := Z.lxor x 4294967295.

(** [str.encode("utf-8")] for code points below 256. *)
Definition utf8_char (c : ascii) : list Z :=
  let n := Z.of_N (N_of_ascii c) in
  if n <? 128 then [n]
  else [Z.lor 192 (Z.shiftr n 6); Z.lor 128 (Z.land n 63)].

Fixpoint utf8 (s : string) : list Z :=
  match s with
  | EmptyString => []
  | String c r => (utf8_char c ++ utf8 r)%list
  end.

(** Big-endian bytes of [x], [n] of them. *)
Fixpoint be_bytes (n : nat) (x : Z) : list Z :=
  match n with
  | O => []
  | S k => (Z.land (Z.shiftr x (8 * Z.of_nat k)) 255 :: be_bytes k x)%list
  end.

(** Message padding: a one bit, zeros up to 56 modulo 64, the bit length
    on 8 bytes. *)
Definition pad (msg : list Z) : list Z :=
  let len := Z.of_nat (length msg) in
  let zeros := Z.to_nat ((55 - len) mod 64) in
  (msg ++ [128] ++ repeat 0 zeros ++ be_bytes 8 (8 * len))%list.

Fixpoint words (fuel : nat) (bs : list Z) : list Z :=
  match fuel, bs with
  | S k, b0 :: b1 :: b2 :: b3 :: rest =>
      (Z.lor (Z.shiftl b0 24) (Z.lor (Z.shiftl b1 16) (Z.lor (Z.shiftl b2 8) b3))
       :: words k rest)%list
  | _, _ => []
  end.

Definition f (t b c d : Z) : Z :=
  if t <? 20 then Z.lor (Z.land b c) (Z.land (not32 b) d)
  else if t <? 40 then Z.lxor b (Z.lxor c d)
  else if t <? 60 then Z.lor (Z.land b c) (Z.lor (Z.land b d) (Z.land c d))
  else Z.lxor b (Z.lxor c d).

Definition k (t : Z) : Z :=
  if t <? 20 then 1518500249
  else if t <? 40 then 1859775393
  else if t <? 60 then 2400959708
  else 3395469782.

Record hash := Hash { h0 : Z; h1 : Z; h2 : Z; h3 : Z; h4 : Z }.

Definition init : hash :=
  Hash 1732584193 4023233417 2562383102 271733878 3285377520.

Definition w_at (win : list Z) (i : nat) : Z := nth i win 0.

(** The 80 rounds on one block; [win] holds the sixteen schedule words
    w[t] .. w[t+15]. *)
Fixpoint rounds (n : nat) (t : Z) (win : list Z) (s : hash) : hash :=
  match n with
  | O => s
  | S m =>
      let temp :=
        add32 (add32 (add32 (add32 (rotl 5 (h0 s)) (f t (h1 s) (h2 s) (h3 s)))
                            (h4 s)) (k t)) (w_at win 0) in
      let w16 :=
        rotl 1 (Z.lxor (w_at win 13)
                       (Z.lxor (w_at win 8) (Z.lxor (w_at win 2) (w_at win 0)))) in
      rounds m (t + 1) (tl win ++ [w16])%list
             (Hash temp (h0 s) (rotl 30 (h1 s)) (h2 s) (h3 s))
  end.

Definition block (s : hash) (ws : list Z) : hash :=
  let r := rounds 80 0 ws s in
  Hash (add32 (h0 s) (h0 r)) (add32 (h1 s) (h1 r)) (add32 (h2 s) (h2 r))
       (add32 (h3 s) (h3 r)) (add32 (h4 s) (h4 r)).

Fixpoint blocks (fuel : nat) (s : hash) (ws : list Z) : hash :=
  match fuel with
  | O => s
  | S m =>
      match ws with
      | [] => s
      | _ => blocks m (block s (firstn 16 ws)) (skipn 16 ws)
      end
  end.

Definition digest (msg : list Z) : hash :=
  let p := pad msg in
  blocks (length p) init (words (length p) p).

Definition hex_digit (n : Z) : ascii :=
  match String.get (Z.to_nat n) "0123456789abcdef" with
  | Some c => c
  | None => "0"%char
  end.

Definition nib (w i : Z) : ascii := hex_digit (Z.land (Z.shiftr w (4 * i)) 15).

Definition hex8 (w : Z) (rest : string) : string :=
  String (nib w 7) (String (nib w 6) (String (nib w 5) (String (nib w 4)
  (String (nib w 3) (String (nib w 2) (String (nib w 1) (String (nib w 0) rest))))))).

(** [hashlib.sha1(data).hexdigest()] *)
Definition hexdigest (msg : list Z) : string :=
  let d := digest msg in
  hex8 (h0 d) (hex8 (h1 d) (hex8 (h2 d) (hex8 (h3 d) (hex8 (h4 d) EmptyString)))).


End Sha1.

(** [hashlib.sha1(url.encode("utf-8")).hexdigest()[:16]] *)
Definition url_hash (url : string) : string :=
  String.substring 0 16 (Sha1.hexdigest (Sha1.utf8 url)).

Definition safe_filename (url ext : string) : string :=
  url_hash url ++ ext.

(** ** Files and paths *)

Definition OUTPUT_HTML : string := "output_raw/html".
Definition OUTPUT_FILES : string := "output_raw/files".
Definition OUTPUT_META : string := "output_raw/meta".
Definition LOG_PATH : string := "logs/crawl.log".
Definition SEEN_PATH : string := "logs/seen.json".

(** [Path(dir) / name] for a relative [name]. *)
Definition path_join (dir name : string) : string := dir ++ "/" ++ name.

(** [PageMeta], the sidecar record ([fetched_at] is the clock reading). *)
Record PageMeta := mkPageMeta {
  m_url : string;
  m_fetched_at : nat;
  m_status : option Z;
  m_content_type : option string;
  m_file_path : option string;
  m_html_path : option string;
  m_out_links : list string;
  m_domain : option string;
  m_notes : option string
}.

(** What a file holds: text written by [write_text], bytes written by
    [write_bytes], or a sidecar ([model_dump_json] of a [PageMeta]). *)
Inductive content :=
| Text (s : string)
| Bytes (b : list Byte.byte)
| Json (m : PageMeta).

(** The directory tree as a map from path to content; a write replaces. *)
Definition fs_write (path : string) (c : content) (fs : gmap string content)
  : gmap string content := <[path := c]> fs.

(** ** Exceptions *)

(** The exceptions that the program can meet: of a write or an append, of
    [urllib.parse], of a value of the wrong type ([write_bytes] on a value
    that is not bytes-like, [list] on a value that is not iterable), and of
    [re] on a pattern that does not compile. *)
Inductive exn :=
| OSError (path : string)
| ValueError (url : string)
| TypeError
| ReError (pattern : string).

Inductive outcome (A : Type) :=
| Done (a : A)
| Raised (e : exn).
Arguments Done {A} a.
Arguments Raised {A} e.

(** ** Pages as the fetch stages return them *)

(** A text-bearing attribute ([html], [content], [markdown], ...): absent or
    [None], a [str], [bytes], a bytes-like object that is not [bytes]
    ([bytearray], [memoryview]), or an object of another kind, neither text
    nor bytes-like, with its truth value. *)
Inductive text_val :=
| TNone
| TStr (s : string)
| TBytes (b : list Byte.byte)
| TBuffer (b : list Byte.byte)
| TOther (truth : bool).

(** An element of a link-bearing attribute: a [str] or anything else. *)
Inductive link_item :=
| IStr (s : string)
| IOther.

(** A link-bearing attribute ([out_links], [links], ...): absent or [None],
    an iterable, given by the sequence [list(v)] of its elements, or an
    object that is not iterable, with its truth value. *)
Inductive link_val :=
| LNone
| LSeq (items : list link_item)
| LOther (truth : bool).

Record page := mkPage {
  p_url : option string;
  p_status : option Z;
  p_content_type : option string;
  p_mime_type : option string;
  p_domain : option string;
  p_text : list (string * text_val);
  p_links : list (string * link_val)
}.

Fixpoint assoc {A} (key : string) (l : list (string * A)) : option A :=
  match l with
  | [] => None
  | (k, v) :: r => if String.eqb k key then Some v else assoc key r
  end.

(** [getattr(page, attr, None)] on the two families of attributes. *)
Definition getattr_text (p : page) (attr : string) : text_val :=
  match assoc attr (p_text p) with Some v => v | None => TNone end.

Definition getattr_links (p : page) (attr : string) : link_val :=
  match assoc attr (p_links p) with Some v => v | None => LNone end.

(** [a or b] on optional strings. *)
Definition str_or (a b : option string) : option string :=
  match a with
  | Some s => if PyStr.truthy s then a else b
  | None => b
  end.

Definition page_content_type (p : page) : option string :=
  str_or (p_content_type p) (p_mime_type p).

Definition text_attrs : list string :=
  ["html"; "rendered_html"; "content_html"; "cleaned_html"; "content"; "text";
   "markdown"; "markdown_v2"].

Definition link_attrs : list string :=
  ["out_links"; "outgoing_urls"; "links"; "hrefs"; "urls"].

Definition newline : string := String (ascii_of_nat 10) EmptyString.

Section PageHelpers.
(** [bytes.decode("utf-8", "ignore")] *)
Variable decode : list Byte.byte -> string.

Fixpoint first_text (attrs : list string) (p : page) : option string :=
  match attrs with
  | [] => None
  | attr :: rest =>
      let val :=
        match getattr_text p attr with
        | TBytes b => TStr (decode b)
        | v => v
        end in
      match val with
      | TStr s =>
          if PyStr.truthy (PyStr.strip s) then
            if PyStr.startswith "markdown" attr
            then Some ("<pre>" ++ newline ++ s ++ newline ++ "</pre>")
            else Some s
          else first_text rest p
      | _ => first_text rest p
      end
  end.

Definition page_html_text (p : page) : option string := first_text text_attrs p.

Definition opt_truthy (o : option string) : bool :=
  match o with Some s => PyStr.truthy s | None => false end.

Definition page_is_html (p : page) : bool :=
  if opt_truthy (page_html_text p) then true
  else match page_content_type p with
       | Some ct => PyStr.truthy ct && PyStr.contains "html" (PyStr.lower ct)
       | None => false
       end.

(** *** The pattern scan of [page_links]: [href=] or [src=], a quote
    (double or single), one or more characters that are not quotes, a
    quote; the group is what stands between the quotes. *)

Definition is_quote (c : ascii) : bool :=
  Ascii.eqb c (ascii_of_nat 34) || Ascii.eqb c (ascii_of_nat 39).

(** The longest prefix without a quote, and what follows it. *)
Fixpoint span_unquoted (s : string) : string * string :=
  match s with
  | EmptyString => (EmptyString, EmptyString)
  | String c r =>
      if is_quote c then (EmptyString, s)
      else let (v, rest) := span_unquoted r in (String c v, rest)
  end.

Fixpoint drop (n : nat) (s : string) : string :=
  match n, s with
  | S k, String _ r => drop k r
  | _, _ => s
  end.

(** A match of the pattern at the head of [s]: the captured group and the
    text after the closing quote. *)
Definition match_attr (s : string) : option (string * string) :=
  let after_eq :=
    if PyStr.startswith "href=" s then Some (drop 5 s)
    else if PyStr.startswith "src=" s then Some (drop 4 s)
    else None in
  match after_eq with
  | Some (String q r) =>
      if is_quote q then
        match span_unquoted r with
        | (String c v, String _ rest) => Some (String c v, rest)
        | _ => None
        end
      else None
  | _ => None
  end.

(** [re.findall]: leftmost matches, each search resuming after the
    previous match. *)
Fixpoint findall_from (fuel : nat) (s : string) : list string :=
  match fuel with
  | O => []
  | S k =>
      match s with
      | EmptyString => []
      | String _ r =>
          match match_attr s with
          | Some (v, rest) => v :: findall_from k rest
          | None => findall_from k r
          end
      end
  end.

Definition findall_links (html : string) : list string :=
  findall_from (String.length html) html.

(** *** [page_links] *)

(** The first loop: every non-empty link-bearing attribute extends the
    candidates; [list(v)] raises [TypeError] on a true value that is not
    iterable. *)
Fixpoint attr_candidates (attrs : list string) (p : page) : outcome (list link_item) :=
  match attrs with
  | [] => Done []
  | attr :: rest =>
      match getattr_links p attr with
      | LSeq (i :: items) =>
          match attr_candidates rest p with
          | Done more => Done ((i :: items) ++ more)%list
          | Raised e => Raised e
          end
      | LOther true => Raised TypeError
      | _ => attr_candidates rest p
      end
  end.

(** The values that the pattern scan adds. *)
Definition scan_candidates (p : page) : list link_item :=
  match page_html_text p with
  | Some html => if PyStr.truthy html then map IStr (findall_links html) else []
  | None => []
  end.

Definition candidates (p : page) : outcome (list link_item) :=
  match attr_candidates link_attrs p with
  | Done cands => Done (cands ++ scan_candidates p)%list
  | Raised e => Raised e
  end.

(** The second loop, with its set [seen] and its output in order. *)
Fixpoint dedup_loop (cands : list link_item) (seen : gset string) : list string :=
  match cands with
  | [] => []
  | IOther :: rest => dedup_loop rest seen
  | IStr u :: rest =>
      let u := PyStr.strip u in
      if negb (PyStr.truthy u) || bool_decide (u ∈ seen) then dedup_loop rest seen
      else u :: dedup_loop rest ({[u]} ∪ seen)
  end.

Definition page_links (p : page) : outcome (list string) :=
  match candidates p with
  | Done cands => Done (dedup_loop cands ∅)
  | Raised e => Raised e
  end.

End PageHelpers.

(** ** The environment of a run *)

(** The value of a [pages] or [results] attribute under [list(...)]: no
    such attribute, a value that is not iterable, given by the name of its
    type, or the sequence of its elements. *)
Inductive attr_seq :=
| NoAttr
| NotIterable (type_name : string)
| Seq (pages : list page).

(** What [crawler.arun] may return, as [normalize_pages] tells the cases
    apart: [None], a list or tuple, or an object, which may carry a [pages]
    and a [results] attribute. *)
Inductive render_result :=
| ResNone
| ResSeq (pages : list page)
| ResObj (pages results : attr_seq) (self : page).

(** What the program meets outside itself.  Every operation that depends on
    the moment it is performed takes the clock, the number of effects
    performed so far. *)
Record Env := mkEnv {
  (** [re.search(p, s)] finds a match, for a pattern of the configuration;
      [None] when it raises [re.error] on a pattern that does not compile *)
  re_search : string -> string -> option bool;
  (** [urlparse(url).netloc]; [None] when [urlparse] raises [ValueError] *)
  urlparse_netloc : string -> option string;
  (** [urljoin(base, link)]; [None] when it raises [ValueError] *)
  urljoin : string -> string -> option string;
  (** [bytes.decode("utf-8", "ignore")] *)
  decode_utf8 : list Byte.byte -> string;
  (** [crawler.arun(seed, config)]: the message of the exception raised, or
      the result *)
  arun : nat -> string -> string + render_result;
  (** the GET of the fallback: status, Content-Type header and text, or
      [None] when it raises *)
  get_text : nat -> string -> option (Z * option string * string);
  (** the GET of a download: body, Content-Type header and status, or
      [None] when it raises *)
  get_bytes : nat -> string -> option (list Byte.byte * option string * Z);
  (** whether writing or appending to a path succeeds *)
  write_ok : nat -> string -> bool
}.

(** The scope policy of [crawl_config/domains.yaml]. *)
Record Config := mkConfig {
  include_patterns : list string;
  exclude_patterns : list string;
  allowed_domains : list string;
  file_exts : list string
}.

(** ** Policy evaluator *)

Section Policy.
Context (E : Env).

(** [any(re.search(p, url) for p in patterns)]: the patterns are tried in
    order up to the first match; one that does not compile raises. *)
Fixpoint any_search (patterns : list string) (url : string) : outcome bool :=
  match patterns with
  | [] => Done false
  | p :: rest =>
      match re_search E p url with
      | None => Raised (ReError p)
      | Some true => Done true
      | Some false => any_search rest url
      end
  end.

Definition is_allowed (url : string) (include exclude : list string) : outcome bool :=
  let ok :=
    match include with
    | [] => Done true
    | _ => any_search include url
    end in
  match ok with
  | Raised e => Raised e
  | Done ok =>
      let bad :=
        match exclude with
        | [] => Done false
        | _ => any_search exclude url
        end in
      match bad with
      | Raised e => Raised e
      | Done bad => Done (ok && negb bad)
      end
  end.

(** [host == d or host.endswith("." + d)] *)
Definition host_matches (host d : string) : bool :=
  String.eqb host d || PyStr.endswith ("." ++ d) host.

Definition allowed_by_domain (url : string) (allowed_domains : list string)
  : outcome bool :=
  match urlparse_netloc E url with
  | None => Raised (ValueError url)
  | Some netloc =>
      let host := PyStr.lower netloc in
      Done (existsb (host_matches host) allowed_domains)
  end.

(** The decision of [main]: [is_allowed], relaxed by the domain list. *)
Definition accepts (cfg : Config) (url : string) : outcome bool :=
  match is_allowed url (include_patterns cfg) (exclude_patterns cfg) with
  | Raised e => Raised e
  | Done true => Done true
  | Done false => allowed_by_domain url (allowed_domains cfg)
  end.

Definition looks_like_file (url : string) (extensions : list string) : bool :=
  let lower := PyStr.lower url in
  existsb (fun ext => PyStr.endswith ext lower) extensions.

End Policy.

(** *** A model of [urllib.parse] for concrete runs

    [netloc] follows [urlsplit]: an optional scheme, then after [//] the
    network location up to the first of [/], [?] and [#]. *)
Module Urllib.

Definition is_scheme_char (c : ascii) : bool :=
  let n := PyStr.code c in
  (((97 <=? n) && (n <=? 122)) || ((65 <=? n) && (n <=? 90))
   || ((48 <=? n) && (n <=? 57)) || (n =? 43) || (n =? 45) || (n =? 46))%N.

Definition is_alpha (c : ascii) : bool :=
  let n := PyStr.code c in
  (((97 <=? n) && (n <=? 122)) || ((65 <=? n) && (n <=? 90)))%N.

(** After a scheme: the text following the first colon, when all that
    precedes it is made of scheme characters. *)
Fixpoint after_scheme (s : string) : option string :=
  match s with
  | EmptyString => None
  | String c r =>
      if Ascii.eqb c ":"%char then Some r
      else if is_scheme_char c then after_scheme r
      else None
  end.

Definition strip_scheme (url : string) : string :=
  match url with
  | String c r =>
      if is_alpha c then
        match after_scheme r with Some rest => rest | None => url end
      else url
  | EmptyString => url
  end.

Definition is_delim (c : ascii) : bool :=
  Ascii.eqb c "/"%char || Ascii.eqb c "?"%char || Ascii.eqb c "#"%char.

Fixpoint until_delim (s : string) : string :=
  match s with
  | EmptyString => EmptyString
  | String c r => if is_delim c then EmptyString else String c (until_delim r)
  end.

(** The network location of a URL that [urlsplit] accepts. *)
Definition netloc (url : string) : string :=
  match strip_scheme url with
  | String a (String b r) =>
      if Ascii.eqb a "/"%char && Ascii.eqb b "/"%char then until_delim r
      else EmptyString
  | _ => EmptyString
  end.

(** [urljoin] on the two shapes used in the examples: a link with a
    scheme is kept, a link starting with [/] replaces the path of the
    base. *)
Fixpoint scheme_of (s : string) : string :=
  match s with
  | EmptyString => EmptyString
  | String c r => if Ascii.eqb c ":"%char then EmptyString else String c (scheme_of r)
  end.

Definition join (base link : string) : string :=
  if PyStr.contains "://" link then link
  else scheme_of base ++ "://" ++ netloc base ++ link.

End Urllib.

(** ** Effects and the state of a run *)

(** A line of [logs/crawl.log], without its time stamp. *)
Inductive log_line :=
| FileError (f_url : string)
| DirectFileError (url : string)
| Fetched (url : string) (status : option Z).

(** An effect performed while one page is processed. *)
Inductive io :=
| WriteHtml (path text : string)
| WriteFile (path : string) (body : list Byte.byte)
| WriteMeta (path : string) (meta : PageMeta)
| Download (f_url : string)
| Log (line : log_line).

(** The effects of a run; [EvPage url a] is the effect [a] performed while
    the page at [url] is processed. *)
Inductive event :=
| EvRender (seed : string)
| EvPlaywrightError (seed msg : string)
| EvFallback (seed : string)
| EvSeenAdd (url : string)
| EvPage (url : string) (a : io)
| EvPersistSeen (urls : gset string).

Record state := mkState {
  seen : gset string;
  fetched_count : nat;
  file_count : nat;
  html_count : nat;
  trace : list event
}.

Definition clock (st : state) : nat := length (trace st).

Definition M (A : Type) : Type := state -> outcome A * state.

Definition ret {A} (a : A) : M A := fun st => (Done a, st).

Definition raise {A} (e : exn) : M A := fun st => (Raised e, st).

Definition bind {A B} (m : M A) (k : A -> M B) : M B :=
  fun st =>
    match m st with
    | (Done a, st') => k a st'
    | (Raised e, st') => (Raised e, st')
    end.

Declare Scope crawl_scope.
Delimit Scope crawl_scope with crawl.
Notation "'let*' x ':=' m 'in' k" := (bind m (fun x => k))
  (at level 10, x name, m at level 100, k at level 200) : crawl_scope.
Notation "m '>>' k" := (bind m (fun _ => k))
  (at level 65, right associativity) : crawl_scope.

Definition lift {A} (o : outcome A) : M A := fun st => (o, st).

Definition get {A} (f : state -> A) : M A := fun st => (Done (f st), st).

(** The state after one more effect. *)
Definition push (e : event) (st : state) : state :=
  mkState (seen st) (fetched_count st) (file_count st) (html_count st)
          (trace st ++ [e]).

Definition emit (e : event) : M unit := fun st => (Done tt, push e st).

(** The state after [seen.add(url)] and [fetched_count += 1]. *)
Definition accept (url : string) (st : state) : state :=
  mkState ({[url]} ∪ seen st) (S (fetched_count st)) (file_count st)
          (html_count st) (trace st ++ [EvSeenAdd url]).

Definition seen_add (url : string) : M unit :=
  fun st => (Done tt, mkState ({[url]} ∪ seen st) (fetched_count st) (file_count st)
                              (html_count st) (trace st ++ [EvSeenAdd url])).

Definition incr_fetched : M unit :=
  fun st => (Done tt, mkState (seen st) (S (fetched_count st)) (file_count st)
                              (html_count st) (trace st)).

Definition incr_file : M unit :=
  fun st => (Done tt, mkState (seen st) (fetched_count st) (S (file_count st))
                              (html_count st) (trace st)).

Definition incr_html : M unit :=
  fun st => (Done tt, mkState (seen st) (fetched_count st) (file_count st)
                              (S (html_count st)) (trace st)).

(** [for x in xs: body(x)]; an exception leaves the loop. *)
Fixpoint for_each {A} (xs : list A) (body : A -> M unit) : M unit :=
  match xs with
  | [] => ret tt
  | x :: rest => bind (body x) (fun _ => for_each rest body)
  end.

Section Crawl.
Context (E : Env) (cfg : Config).
Local Open Scope crawl_scope.

(** A write or an append at [path]: the effect [e] when the file system
    allows it, [OSError] otherwise. *)
Definition write_at (path : string) (e : event) : M unit :=
  fun st =>
    if write_ok E (clock st) path then emit e st
    else (Raised (OSError path), st).

Definition write_text (url path text : string) : M unit :=
  write_at path (EvPage url (WriteHtml path text)).

Definition write_bytes (url path : string) (body : list Byte.byte) : M unit :=
  write_at path (EvPage url (WriteFile path body)).

Definition write_meta (url path : string) (meta : PageMeta) : M unit :=
  write_at path (EvPage url (WriteMeta path meta)).

Definition append_log (url : string) (line : log_line) : M unit :=
  write_at LOG_PATH (EvPage url (Log line)).

(** [download_file]: one GET; any exception gives the empty result. *)
Definition download_file (owner f_url : string)
  : M (list Byte.byte * option string * option Z) :=
  fun st =>
    let r :=
      match get_bytes E (clock st) f_url with
      | Some (body, ctype, status) => (body, ctype, Some status)
      | None => ([], None, None)
      end in
    match emit (EvPage owner (Download f_url)) st with
    | (_, st') => (Done r, st')
    end.

(** [SEEN_PATH.write_text(json.dumps(list(seen)))] inside [try] /
    [except Exception: pass]. *)
Definition persist_seen : M unit :=
  fun st =>
    if write_ok E (clock st) SEEN_PATH then emit (EvPersistSeen (seen st)) st
    else (Done tt, st).

Definition is_nil {A} (l : list A) : bool :=
  match l with [] => true | _ => false end.

(** The loop over the file links of a navigable page. *)
Definition download_link (url : string) (domain : option string)
    (raw_url : string) : M unit :=
  match urljoin E url raw_url with
  | None => raise (ValueError raw_url)
  | Some f_url =>
      let* r := download_file url f_url in
      let '(content, ctype, status) := r in
      if is_nil content then append_log url (FileError f_url)
      else
        let ext := pick_ext_by_ct ctype in
        let f_name := safe_filename f_url ext in
        let f_path := path_join OUTPUT_FILES f_name in
        write_bytes url f_path content >>
        let* now := get clock in
        let f_meta :=
          mkPageMeta f_url now status ctype (Some f_path) None [] domain
                     (Some ("discovered from " ++ url)) in
        write_meta url (path_join OUTPUT_META (f_name ++ ".json")) f_meta >>
        incr_file
  end.

Definition html_branch (url : string) (pg : page) : M unit :=
  let html_text :=
    match page_html_text (decode_utf8 E) pg with
    | Some s => if PyStr.truthy s then s else EmptyString
    | None => EmptyString
    end in
  let* html_path :=
    if PyStr.truthy html_text then
      let html_name := safe_filename url ".html" in
      let html_path := path_join OUTPUT_HTML html_name in
      write_text url html_path html_text >>
      incr_html >>
      ret (Some html_path)
    else ret None in
  let* out_links := lift (page_links (decode_utf8 E) pg) in
  let* now := get clock in
  let meta :=
    mkPageMeta url now (p_status pg) (page_content_type pg) None html_path
               out_links (p_domain pg) None in
  write_meta url (path_join OUTPUT_META (safe_filename url ".json")) meta >>
  let to_download :=
    List.filter (fun l => looks_like_file l (file_exts cfg)) out_links in
  for_each to_download (download_link url (p_domain pg)).

Definition text_val_truthy (v : text_val) : bool :=
  match v with
  | TNone => false
  | TStr s => PyStr.truthy s
  | TBytes b => negb (is_nil b)
  | TBuffer b => negb (is_nil b)
  | TOther t => t
  end.

(** The bytes of a value that [write_bytes] accepts. *)
Definition bytes_like (v : text_val) : option (list Byte.byte) :=
  match v with
  | TBytes b => Some b
  | TBuffer b => Some b
  | _ => None
  end.

(** The rest of the direct-file branch once a non-empty body is at hand. *)
Definition save_direct (url : string) (pg : page) (content : text_val)
    (ctype : option string) (status : option Z) : M unit :=
  let ext := pick_ext_by_ct ctype in
  let f_name := safe_filename url ext in
  let f_path := path_join OUTPUT_FILES f_name in
  match bytes_like content with
  | Some body =>
      write_bytes url f_path body >>
      let* now := get clock in
      let meta :=
        mkPageMeta url now status ctype (Some f_path) None [] (p_domain pg) None in
      write_meta url (path_join OUTPUT_META (f_name ++ ".json")) meta >>
      incr_file
  | None => raise TypeError
  end.

(** The direct-file branch when the page carries no body: a fresh
    download; [false] is the [continue] of the empty outcome. *)
Definition fetch_direct (url : string) (pg : page) : M bool :=
  let* r := download_file url url in
  let '(body, ctype, status) := r in
  if is_nil body then
    append_log url (DirectFileError url) >>
    let* now := get clock in
    let meta :=
      mkPageMeta url now status ctype None None [] (p_domain pg)
                 (Some "empty binary") in
    write_meta url (path_join OUTPUT_META (safe_filename url ".json")) meta >>
    ret false
  else
    save_direct url pg (TBytes body) ctype status >> ret true.

(** The direct-file branch. *)
Definition direct_branch (url : string) (pg : page) : M bool :=
  let content := getattr_text pg "content" in
  if text_val_truthy content then
    save_direct url pg content (page_content_type pg) (p_status pg) >> ret true
  else fetch_direct url pg.

(** The end of an iteration: the attempt-log line and the checkpoint. *)
Definition log_and_checkpoint (url : string) (pg : page) : M unit :=
  append_log url (Fetched url (p_status pg)) >>
  let* n := get fetched_count in
  if Nat.eqb (n mod 100) 0 then persist_seen else ret tt.

(** The classification stage and what follows it in the iteration. *)
Definition classify_and_persist (url : string) (pg : page) : M unit :=
  if page_is_html (decode_utf8 E) pg then
    html_branch url pg >> log_and_checkpoint url pg
  else
    let* finished := direct_branch url pg in
    if finished then log_and_checkpoint url pg else ret tt.

(** One iteration of [for page in pages]. *)
Definition process_page (pg : page) : M unit :=
  match p_url pg with
  | None => ret tt
  | Some url =>
      if negb (PyStr.truthy url) then ret tt
      else
        let* known := get (fun st => bool_decide (url ∈ seen st)) in
        if known then ret tt
        else
          let* allowed := lift (accepts E cfg url) in
          if negb allowed then ret tt
          else
            seen_add url >>
            incr_fetched >>
            classify_and_persist url pg
  end.

(** The message of the [TypeError] of [list(v)] on a value of type [t]. *)
Definition not_iterable (t : string) : string :=
  "'" ++ t ++ "' object is not iterable".

(** [normalize_pages]; [inl] is the message of the exception that
    [list(...)] raises on a value that is not iterable. *)
Definition normalize_pages (res : render_result) : string + list page :=
  match res with
  | ResNone => inr []
  | ResSeq pages => inr pages
  | ResObj (Seq pages) _ _ => inr pages
  | ResObj (NotIterable t) _ _ => inl (not_iterable t)
  | ResObj NoAttr (Seq pages) _ => inr pages
  | ResObj NoAttr (NotIterable t) _ => inl (not_iterable t)
  | ResObj NoAttr NoAttr self => inr [self]
  end.

(** [url.split("/")] *)
Fixpoint split_slash (s : string) : list string :=
  match s with
  | EmptyString => [EmptyString]
  | String c r =>
      if Ascii.eqb c "/"%char then EmptyString :: split_slash r
      else match split_slash r with
           | w :: ws => String c w :: ws
           | [] => [String c EmptyString]
           end
  end.

(** [_PseudoPage(url, status, headers, text)]; [None] is the [IndexError]
    of [url.split("/")[2]]. *)
Definition pseudo_page (url : string) (status : Z) (ctype : option string)
    (text : string) : option page :=
  match nth_error (split_slash url) 2 with
  | Some domain =>
      Some (mkPage (Some url) (Some status) ctype None (Some domain)
                   [("html", TStr text)] [])
  | None => None
  end.

(** [fetch_html_fallback]: one GET; [None] on any exception. *)
Definition fetch_html_fallback (url : string) : M (option page) :=
  fun st =>
    let r :=
      match get_text E (clock st) url with
      | Some (status, ctype, text) => pseudo_page url status ctype text
      | None => None
      end in
    match emit (EvFallback url) st with
    | (_, st') => (Done r, st')
    end.

(** The [try] around [crawler.arun] and [normalize_pages], with its
    handler. *)
Definition render_stage (seed : string) : M (list page) :=
  fun st =>
    let attempt :=
      match arun E (clock st) seed with
      | inl msg => inl msg
      | inr res => normalize_pages res
      end in
    match emit (EvRender seed) st with
    | (_, st1) =>
        match attempt with
        | inr pages => (Done pages, st1)
        | inl msg =>
            (write_at LOG_PATH (EvPlaywrightError seed msg) >> ret []) st1
        end
    end.

(** One iteration of [for seed in seeds]. *)
Definition process_seed (seed : string) : M unit :=
  let* pages := render_stage seed in
  let* pages :=
    if is_nil pages then
      let* fp := fetch_html_fallback seed in
      match fp with
      | Some p => ret [p]
      | None => ret pages
      end
    else ret pages in
  for_each pages process_page.

Definition crawl (seeds : list string) : M unit := for_each seeds process_seed.

(** [main] from the loaded frontier on: the crawl, then the frontier
    written once more.  An exception that leaves the crawl leaves [main]. *)
Definition main (seeds : list string) (seen0 : gset string) : outcome unit * state :=
  (crawl seeds >> persist_seen) (mkState seen0 0 0 0 []).

End Crawl.

(** ** The seed stage, case by case *)

(** What the [try] block of a seed gives: the message of the exception
    raised by [crawler.arun] or by [normalize_pages], or the pages. *)
Definition render_attempt (E : Env) (st : state) (seed : string) : string + list page :=
  match arun E (clock st) seed with
  | inl msg => inl msg
  | inr res => normalize_pages res
  end.

(** What the fallback gives: one page, or none when it fails. *)
Definition fallback_pages (E : Env) (st : state) (seed : string) : list page :=
  match get_text E (clock st) seed with
  | Some (status, ctype, text) =>
      match pseudo_page seed status ctype text with
      | Some p => [p]
      | None => []
      end
  | None => []
  end.

(** No link-bearing attribute holds a true value that is not iterable. *)
Definition iterable (v : link_val) : bool :=
  match v with LOther true => false | _ => true end.

Definition links_iterable (p : page) : bool :=
  forallb (fun attr => iterable (getattr_links p attr)) link_attrs.


(** ** Concrete environments for examples *)

Module Fixture.

(** A network on which every request fails and a file system on which
    every write succeeds; patterns without metacharacters, for which
    [re.search] is a substring test; URLs that [urllib.parse] accepts. *)
Definition offline : Env :=
  mkEnv (fun p s => Some (PyStr.contains p s))
        (fun url => Some (Urllib.netloc url))
        (fun base link => Some (Urllib.join base link))
        string_of_list_byte
        (fun _ _ => inl "net::ERR_FAILED") (fun _ _ => None) (fun _ _ => None)
        (fun _ _ => true).

Definition with_arun (f : nat -> string -> string + render_result) (E : Env) : Env :=
  mkEnv (re_search E) (urlparse_netloc E) (urljoin E) (decode_utf8 E)
        f (get_text E) (get_bytes E) (write_ok E).

Definition with_get_bytes
    (f : nat -> string -> option (list Byte.byte * option string * Z))
    (E : Env) : Env :=
  mkEnv (re_search E) (urlparse_netloc E) (urljoin E) (decode_utf8 E)
        (arun E) (get_text E) f (write_ok E).

Definition with_write_ok (f : nat -> string -> bool) (E : Env) : Env :=
  mkEnv (re_search E) (urlparse_netloc E) (urljoin E) (decode_utf8 E)
        (arun E) (get_text E) (get_bytes E) f.

Definition open_policy : Config := mkConfig [] [] [] [".pdf"; ".doc"; ".docx"].


Definition html_page (url html : string) : page :=
  mkPage (Some url) (Some 200%Z) (Some "text/html") None (Some "h")
         [("html", TStr html)] [].

(** A page without text, content type or body: a direct file. *)
Definition bare_page (url : string) : page :=
  mkPage (Some url) None None None None [] [].

(** A site of two pages that link the same file, one by a relative and
    one by an absolute link; every download brings one byte of PDF. *)
Definition page_a : page := html_page "https://h/a" "<a href='/f.pdf'>f</a>".
Definition page_b : page := html_page "https://h/b" "<a href='https://h/f.pdf'>f</a>".

Definition two_pages : Env :=
  with_get_bytes (fun _ _ => Some ([Byte.x25], Some "application/pdf", 200%Z))
    (with_arun (fun _ seed =>
                  if String.eqb seed "https://h/" then inr (ResSeq [page_a; page_b])
                  else inl "net::ERR_FAILED")
               offline).

(** The state in which [main] enters the crawl with an empty frontier. *)
Definition start : state := mkState ∅ 0 0 0 [].



(** Pages for the link harvester. *)
Definition two_fields : page :=
  mkPage (Some "https://h/x/y") (Some 200%Z) None None None []
         [("out_links", LSeq [IStr "a"]); ("links", LSeq [IStr "b"])].

Definition relative_link : page :=
  mkPage (Some "https://h/x/y") (Some 200%Z) None None None
         [("html", TStr "<a href='/a/b.pdf'>b</a>")] [].

(** A disk where the attempt log cannot be written. *)
Definition no_log : Env :=
  with_write_ok (fun _ path => negb (String.eqb path LOG_PATH)) offline.




(** A navigable page that links one file by two different links. *)
Definition page_twice : page :=
  html_page "https://h/a" "<a href='/f.pdf'>f</a> <a href='https://h/f.pdf'>f</a>".

(** The site of the two pages on a server that answers the download of the
    file with a PDF at first and with an HTML page later. *)
Definition retyped : Env :=
  with_get_bytes
    (fun n _ => if Nat.ltb n 5 then Some ([Byte.x25], Some "application/pdf", 200%Z)
                else Some ([Byte.x25], Some "text/html", 200%Z))
    two_pages.

End Fixture.

(** ** The link harvester as the specification words it *)

Module LinkSpec.

Definition items (v : link_val) : list link_item :=
  match v with LSeq l => l | _ => [] end.

(** The candidates of every link-bearing attribute, in priority order. *)
Definition all_fields (p : page) : list link_item :=
  concat (map (fun attr => items (getattr_links p attr)) link_attrs).

(** The candidates of the first non-empty link-bearing attribute only. *)
Definition first_nonempty_field (p : page) : list link_item :=
  match List.filter (fun l => negb (is_nil l))
                    (map (fun attr => items (getattr_links p attr)) link_attrs) with
  | l :: _ => l
  | [] => []
  end.

(** The attribute values found by the pattern scan of the HTML text. *)
Definition scanned (decode : list Byte.byte -> string) (p : page) : list link_item :=
  match page_html_text decode p with
  | Some html => map IStr (findall_links html)
  | None => []
  end.

(** Entries that are strings, trimmed, without those left empty. *)
Fixpoint trimmed (cands : list link_item) : list string :=
  match cands with
  | [] => []
  | IOther :: rest => trimmed rest
  | IStr u :: rest =>
      if PyStr.truthy (PyStr.strip u) then PyStr.strip u :: trimmed rest
      else trimmed rest
  end.

(** Deduplication that keeps the first occurrence of every string, in the
    order of these first occurrences. *)
Fixpoint first_seen (l : list string) : list string :=
  match l with
  | [] => []
  | x :: rest => x :: List.filter (fun y => negb (String.eqb y x)) (first_seen rest)
  end.

(** The harvested links, by the words of the specification. *)
Definition specified_links (decode : list Byte.byte -> string) (p : page) : list string :=
  first_seen (trimmed (first_nonempty_field p ++ scanned decode p)).

(** The harvested links, with every non-empty attribute contributing. *)
Definition harvested (decode : list Byte.byte -> string) (p : page) : list string :=
  first_seen (trimmed (all_fields p ++ scanned decode p)).

End LinkSpec.

(** ** Reading a trace *)

(** Effects that belong to the processing of the page at [u]; the
    checkpoint of the frontier comes with them. *)
Definition page_event (u : string) (e : event) : Prop :=
  match e with
  | EvPage u' _ => u' = u
  | EvPersistSeen _ => True
  | _ => False
  end.

(** Effects that do not touch [u]: neither an effect of processing the page
    at [u] nor the insertion of [u] in the frontier. *)
Definition not_about (u : string) (e : event) : Prop :=
  match e with
  | EvPage u' _ => u' <> u
  | EvSeenAdd u' => u' <> u
  | _ => True
  end.

(** The sidecar of a file link carries the note of its provenance. *)
Definition is_discovered (notes : option string) : bool :=
  match notes with
  | Some n => PyStr.startswith "discovered from " n
  | None => false
  end.

(** The sidecars written for the page at [u] itself. *)
Fixpoint page_sidecars (u : string) (evs : list event) : list PageMeta :=
  match evs with
  | [] => []
  | EvPage u' (WriteMeta _ m) :: rest =>
      if String.eqb u' u && String.eqb (m_url m) u && negb (is_discovered (m_notes m))
      then m :: page_sidecars u rest
      else page_sidecars u rest
  | _ :: rest => page_sidecars u rest
  end.

(** The paths of the HTML bodies and binary files written. *)
Fixpoint files_written (evs : list event) : list string :=
  match evs with
  | [] => []
  | EvPage _ (WriteHtml path _) :: rest => path :: files_written rest
  | EvPage _ (WriteFile path _) :: rest => path :: files_written rest
  | _ :: rest => files_written rest
  end.

(** The URLs requested by [download_file], in order. *)
Fixpoint downloads (evs : list event) : list string :=
  match evs with
  | [] => []
  | EvPage _ (Download f_url) :: rest => f_url :: downloads rest
  | _ :: rest => downloads rest
  end.

(** The seeds handed to the render stage, in order. *)
Fixpoint rendered (evs : list event) : list string :=
  match evs with
  | [] => []
  | EvRender seed :: rest => seed :: rendered rest
  | _ :: rest => rendered rest
  end.

(** The seeds handed to the fallback fetcher, in order. *)
Fixpoint fallbacks (evs : list event) : list string :=
  match evs with
  | [] => []
  | EvFallback seed :: rest => seed :: fallbacks rest
  | _ :: rest => fallbacks rest
  end.

(** The lines appended to the attempt log, by the URL they are about. *)
Fixpoint log_lines (evs : list event) : list string :=
  match evs with
  | [] => []
  | EvPlaywrightError seed _ :: rest => seed :: log_lines rest
  | EvPage u (Log _) :: rest => u :: log_lines rest
  | _ :: rest => log_lines rest
  end.

(** The directory tree after the writes of a trace. *)
Fixpoint fs_after (evs : list event) (fs : gmap string content) : gmap string content :=
  match evs with
  | [] => fs
  | EvPage _ (WriteHtml path text) :: rest => fs_after rest (fs_write path (Text text) fs)
  | EvPage _ (WriteFile path body) :: rest => fs_after rest (fs_write path (Bytes body) fs)
  | EvPage _ (WriteMeta path m) :: rest => fs_after rest (fs_write path (Json m) fs)
  | _ :: rest => fs_after rest fs
  end.

(** The URLs that the sidecars written record, in order. *)
Fixpoint sidecar_urls (evs : list event) : list string :=
  match evs with
  | [] => []
  | EvPage _ (WriteMeta _ m) :: rest => m_url m :: sidecar_urls rest
  | _ :: rest => sidecar_urls rest
  end.

(** A sidecar written while the page at [u] is processed is the page's own
    or the record of a file discovered from it. *)
Definition own_or_discovered (u : string) (e : event) : Prop :=
  match e with
  | EvPage _ (WriteMeta _ m) =>
      (m_url m = u /\ is_discovered (m_notes m) = false)
      \/ m_notes m = Some ("discovered from " ++ u)
  | _ => True
  end.

(** A sidecar is the own one of the page being processed or the record of a
    file discovered from that page. *)
Definition sidecar_provenance (e : event) : Prop :=
  match e with
  | EvPage u (WriteMeta _ _) => own_or_discovered u e
  | _ => True
  end.

(** A sidecar that records [U] is the record of a file link, written while
    another page is processed. *)
Definition only_as_file_link (U : string) (e : event) : Prop :=
  match e with
  | EvPage u (WriteMeta _ m) =>
      m_url m = U -> u <> U /\ m_notes m = Some ("discovered from " ++ u)
  | _ => True
  end.



(** A summary of a trace that is read effect by effect. *)
Definition summary {X} (h : list event -> list X) : Prop :=
  h [] = [] /\ forall e1 e2, h (e1 ++ e2)%list = (h e1 ++ h e2)%list.

(** The file links of a page as the loop of [main] resolves them. *)
Definition resolved_links (E : Env) (url : string) (links : list string) : list string :=
  flat_map (fun raw => match urljoin E url raw with Some f => [f] | None => [] end)
           links.

(** Each effect of processing a page comes after the insertion of the
    page's URL in the frontier. *)
Definition seen_first (tr : list event) : Prop :=
  forall i u a, tr !! i = Some (EvPage u a) ->
    exists j, j < i /\ tr !! j = Some (EvSeenAdd u).

(** A string that a set does not hold yet. *)
Definition fresh (seen : gset string) (y : string) : bool :=
  negb (bool_decide (y ∈ seen)).

(** ** Judgements on computations *)

(** Whatever the outcome, [m] only adds effects satisfying [Q] and leaves
    the frontier as it is. *)
Definition emits {A} (Q : event -> Prop) (m : M A) : Prop :=
  forall st, exists evs,
    trace (snd (m st)) = (trace st ++ evs)%list /\ Forall Q evs
    /\ seen (snd (m st)) = seen st.

(** [m] ends normally, leaves the frontier and the page counter as they
    are, and its result and effects satisfy [P]. *)
Definition yields {A} (P : A -> list event -> Prop) (m : M A) : Prop :=
  forall st, exists a st' evs,
    m st = (Done a, st') /\ trace st' = (trace st ++ evs)%list
    /\ seen st' = seen st /\ fetched_count st' = fetched_count st /\ P a evs.

(** ** Conditions under which a page is processed to the end *)

(** Every write other than that of the frontier file succeeds. *)
Definition artifact_writes_ok (E : Env) : Prop :=
  forall n path, path <> SEEN_PATH -> write_ok E n path = true.


(** The links of a navigable page can be followed: its link-bearing
    attributes are iterable and [urljoin] accepts each of its file links. *)
Definition links_followable (E : Env) (cfg : Config) (u : string) (pg : page) : Prop :=
  exists links,
    page_links (decode_utf8 E) pg = Done links
    /\ forall raw, In raw links -> looks_like_file raw (file_exts cfg) = true ->
         urljoin E u raw <> None.





(** ** Notions used by the further properties *)

(** The text that a text-bearing attribute offers to [page_html_text]: its
    value when that is a [str], or [bytes] once decoded, holding a character
    that is not white space. *)
Definition text_of (decode : list Byte.byte -> string) (v : text_val) : option string :=
  match v with
  | TStr s => if PyStr.truthy (PyStr.strip s) then Some s else None
  | TBytes b =>
      if PyStr.truthy (PyStr.strip (decode b)) then Some (decode b) else None
  | _ => None
  end.

(** The preformatted shell put around a markdown rendering. *)
Definition wrap_markdown (attr s : string) : string :=
  if PyStr.startswith "markdown" attr
  then "<pre>" ++ newline ++ s ++ newline ++ "</pre>"
  else s.

(** [v] stands in [s] as the value of an [href=] or [src=] attribute,
    between two quotes. *)
Definition attr_value_in (v s : string) : Prop :=
  exists pre name q1 q2 post,
    s = pre ++ name ++ String q1 (v ++ String q2 post)
    /\ (name = "href=" \/ name = "src=")
    /\ is_quote q1 = true /\ is_quote q2 = true.

(** A string without a quote. *)
Definition unquoted (v : string) : Prop :=
  forall c, In c (list_ascii_of_string v) -> is_quote c = false.

(** The number of slashes of a string. *)
Fixpoint count_slash (s : string) : nat :=
  match s with
  | EmptyString => 0
  | String c r => (if Ascii.eqb c "/"%char then 1 else 0) + count_slash r
  end.

(** The URLs inserted in the frontier, in order. *)
Fixpoint insertions (evs : list event) : list string :=
  match evs with
  | [] => []
  | EvSeenAdd u :: rest => u :: insertions rest
  | _ :: rest => insertions rest
  end.

(** The number of HTML bodies written. *)
Fixpoint html_writes (evs : list event) : nat :=
  match evs with
  | [] => 0
  | EvPage _ (WriteHtml _ _) :: rest => S (html_writes rest)
  | _ :: rest => html_writes rest
  end.

(** The number of sidecars written that record a saved file. *)
Fixpoint file_sidecars (evs : list event) : nat :=
  match evs with
  | [] => 0
  | EvPage _ (WriteMeta _ m) :: rest =>
      match m_file_path m with
      | Some _ => S (file_sidecars rest)
      | None => file_sidecars rest
      end
  | _ :: rest => file_sidecars rest
  end.

(** [m] keeps the property [I] of states, whatever its outcome. *)
Definition preserves {A} (I : state -> Prop) (m : M A) : Prop :=
  forall st, I st -> I (snd (m st)).

(** Effects other than an insertion in the frontier and a write of the
    frontier file. *)
Definition plain (e : event) : Prop :=
  match e with
  | EvSeenAdd _ | EvPersistSeen _ => False
  | _ => True
  end.

(** A property of states that does not look at the counters and that is
    stable under every effect the pipeline can perform: a plain effect, a
    write of the current frontier, the insertion of a URL that the frontier
    does not hold. *)
Definition stable (I : state -> Prop) : Prop :=
  (forall e st, plain e -> I st -> I (push e st))
  /\ (forall st, I st -> I (push (EvPersistSeen (seen st)) st))
  /\ (forall u st, I st -> u ∉ seen st ->
        I (mkState ({[u]} ∪ seen st) (fetched_count st) (file_count st)
                   (html_count st) (trace st ++ [EvSeenAdd u])))
  /\ (forall st f c h, I st -> I (mkState (seen st) f c h (trace st))).

(** The frontier is the loaded one and the URLs inserted since, each
    inserted once and none of them loaded. *)
Definition frontier_grows (seen0 : gset string) (st : state) : Prop :=
  seen st = seen0 ∪ list_to_set (insertions (trace st))
  /\ NoDup (insertions (trace st))
  /\ (forall u, In u (insertions (trace st)) -> u ∉ seen0).

(** Every write of the frontier file holds the loaded frontier and the URLs
    inserted before it. *)
Definition checkpoints_exact (seen0 : gset string) (st : state) : Prop :=
  seen st = seen0 ∪ list_to_set (insertions (trace st))
  /\ forall i s, trace st !! i = Some (EvPersistSeen s) ->
       s = seen0 ∪ list_to_set (insertions (take i (trace st))).

(** The printed counters agree with the effects performed. *)
Definition counters_agree (st : state) : Prop :=
  fetched_count st = length (insertions (trace st))
  /\ html_count st = html_writes (trace st)
  /\ file_count st = file_sidecars (trace st).

(** Effects that no counter counts. *)
Definition uncounted (e : event) : Prop :=
  match e with
  | EvSeenAdd _ => False
  | EvPage _ (WriteHtml _ _) => False
  | EvPage _ (WriteMeta _ m) => m_file_path m = None
  | _ => True
  end.

(** The frontier sets written to the frontier file, in order. *)
Fixpoint checkpoints (evs : list event) : list (gset string) :=
  match evs with
  | [] => []
  | EvPersistSeen s :: rest => s :: checkpoints rest
  | _ :: rest => checkpoints rest
  end.

(** The page counter is the number of insertions, and every write of the
    frontier file so far came when that number was a positive multiple of
    one hundred. *)
Definition on_schedule (st : state) : Prop :=
  fetched_count st = length (insertions (trace st))
  /\ forall i s, trace st !! i = Some (EvPersistSeen s) ->
       0 < length (insertions (take i (trace st)))
       /\ length (insertions (take i (trace st))) mod 100 = 0.

(** Inside an iteration that has passed the insertion. *)
Definition counted (st : state) : Prop := on_schedule st /\ 0 < fetched_count st.

(** A URL of [k] letters after a fixed prefix, and a site of [n] pages at
    such URLs, navigable and without text. *)
Definition numbered_url (k : nat) : string :=
  "https://h/" ++ string_of_list_ascii (repeat "a"%char k).

Definition numbered_site (n : nat) : Env :=
  Fixture.with_arun
    (fun _ _ => inr (ResSeq (map (fun k => Fixture.html_page (numbered_url k) EmptyString)
                                 (seq 0 n))))
    Fixture.offline.

(** The URLs whose status line was appended to the attempt log. *)
Fixpoint fetched_lines (evs : list event) : list string :=
  match evs with
  | [] => []
  | EvPage _ (Log (Fetched u _)) :: rest => u :: fetched_lines rest
  | _ :: rest => fetched_lines rest
  end.

(** Every sidecar of a directory tree that names a saved file or a saved
    HTML body names a path of the directory of its kind, and the tree holds
    content of that kind there. *)
Definition sidecars_resolve (fs : gmap string content) : Prop :=
  forall path m, fs !! path = Some (Json m) ->
    (forall p, m_file_path m = Some p ->
       PyStr.startswith "output_raw/files/" p = true
       /\ exists body, fs !! p = Some (Bytes body))
    /\ (forall p, m_html_path m = Some p ->
       PyStr.startswith "output_raw/html/" p = true
       /\ exists text, fs !! p = Some (Text text)).

(** The tree as the effects so far have left it, from the tree [fs0] at
    the start. *)
Definition tree (fs0 : gmap string content) (st : state) : gmap string content :=
  fs_after (trace st) fs0.

Definition kept (fs0 : gmap string content) (st : state) : Prop :=
  sidecars_resolve (tree fs0 st).

(** Effects that write nothing in the three output directories. *)
Definition off_tree (e : event) : Prop :=
  match e with
  | EvPage _ (WriteHtml _ _) | EvPage _ (WriteFile _ _) | EvPage _ (WriteMeta _ _) => False
  | _ => True
  end.

(** ** The run configuration: [make_run_config] *)

(** The values of the crawler configuration and of the keyword arguments:
    [None], booleans, integers, strings, lists of strings, and
    [CacheMode.BYPASS]. *)
Inductive pyval :=
| VNone
| VBool (b : bool)
| VInt (z : Z)
| VStr (s : string)
| VList (l : list string)
| VCacheBypass.

(** [d.get(key, dflt)] *)
Definition dict_get (d : gmap string pyval) (key : string) (dflt : pyval) : pyval :=
  default dflt (d !! key).

Definition DEFAULT_USER_AGENT : string :=
  "Mozilla/5.0 (Windows NT 10.0; Win64; x64) AppleWebKit/537.36 "
  ++ "(KHTML, like Gecko) Chrome/126.0 Safari/537.36".

(** [if a1 in params: kv[a1] = v elif a2 in params: kv[a2] = v ...] *)
Fixpoint put_first (params : gset string) (aliases : list string) (v : pyval)
    (kv : gmap string pyval) : gmap string pyval :=
  match aliases with
  | [] => kv
  | a :: rest =>
      if bool_decide (a ∈ params) then <[a := v]> kv
      else put_first params rest v kv
  end.

(** [make_run_config]: the keyword arguments [kv] handed to
    [CrawlerRunConfig], given the parameter names [params] of its
    signature. *)
Definition make_run_config (params : gset string) (crawler_cfg : gmap string pyval)
    (allowed_domains_list : list string) : gmap string pyval :=
  let max_pages_val := dict_get crawler_cfg "max_pages" (VInt 150) in
  let depth_val := dict_get crawler_cfg "max_depth" (VInt 3) in
  let conc_val := dict_get crawler_cfg "concurrency" (VInt 3) in
  let to_val := dict_get crawler_cfg "timeout_ms" (VInt 30000) in
  let kv := ∅ in
  let kv := put_first params ["max_pages"; "max_visits"; "max_requests"] max_pages_val kv in
  let kv := put_first params ["max_depth"; "depth"] depth_val kv in
  let kv :=
    put_first params ["concurrency"; "max_concurrency"; "concurrent_tasks"] conc_val kv in
  let kv := put_first params ["timeout"; "timeout_ms"; "request_timeout"] to_val kv in
  let kv :=
    put_first params ["render_js"] (dict_get crawler_cfg "render_js" (VBool true)) kv in
  let kv :=
    put_first params ["obey_robots_txt"]
      (dict_get crawler_cfg "obey_robots_txt" (VBool true)) kv in
  let kv :=
    put_first params ["follow_sitemaps"]
      (dict_get crawler_cfg "follow_sitemaps" (VBool true)) kv in
  let kv :=
    put_first params ["respect_crawl_delay"]
      (dict_get crawler_cfg "respect_crawl_delay" (VBool true)) kv in
  let kv := put_first params ["cache_mode"] VCacheBypass kv in
  let kv :=
    put_first params ["user_agent"]
      (dict_get crawler_cfg "user_agent" (VStr DEFAULT_USER_AGENT)) kv in
  let kv :=
    put_first params ["allowed_domains"]
      (if is_nil allowed_domains_list then VNone else VList allowed_domains_list) kv in
  let kv :=
    put_first params ["extract_links"]
      (dict_get crawler_cfg "extract_links" (VBool true)) kv in
  let kv :=
    put_first params ["save_html"] (dict_get crawler_cfg "save_html" (VBool true)) kv in
  kv.

(** The first of [aliases] that the signature has. *)
Definition first_supported (params : gset string) (aliases : list string) : option string :=
  List.find (fun a => bool_decide (a ∈ params)) aliases.

(** ** Seeds from the sitemaps: [expand_seeds_via_sitemap] *)

(** [s.rstrip("/")] *)
Fixpoint rstrip_slash (s : string) : string :=
  match s with
  | EmptyString => EmptyString
  | String c r =>
      match rstrip_slash r with
      | EmptyString => if Ascii.eqb c "/"%char then EmptyString else String c EmptyString
      | r' => String c r'
      end
  end.

(** [list(dict.fromkeys(l))]: the keys in the order of their first
    insertion. *)
Definition dict_fromkeys (l : list string) : list string :=
  fold_left (fun keys k => if existsb (String.eqb k) keys then keys else (keys ++ [k])%list)
            l [].

Definition try_paths : list string :=
  ["/sitemap.xml"; "/sitemap_index.xml"; "/sitemap-index.xml"; "/sitemap"].

Section Sitemap.
Context (E : Env).
(** The GET of the sitemap session, by the number of requests sent before
    it: status, [Content-Type] header and text, or [None] when the request
    or the reading of the text raises. *)
Context (sitemap_get : nat -> string -> option (Z * option string * string)).
(** [re.findall] with the pattern of the [loc] elements. *)
Context (findall_loc : string -> list string).
Context (allowed_domains : list string).

(** The inner function [ok]. *)
Definition ok (u : string) : outcome bool :=
  match urlparse_netloc E u with
  | None => Raised (ValueError u)
  | Some netloc =>
      let host := PyStr.lower netloc in
      Done (existsb (fun d => String.eqb host d || PyStr.endswith ("." ++ d) host)
                    allowed_domains)
  end.

(** The body of the inner loop: what one candidate sitemap adds. *)
Definition sitemap_locs (n : nat) (url : string) : list string :=
  match sitemap_get n url with
  | Some (status, ctype, xml) =>
      if (status =? 200)%Z
         && PyStr.contains "xml" (PyStr.lower (default EmptyString ctype))
      then findall_loc xml
      else []
  | None => []
  end.

Fixpoint scan_paths (n : nat) (root : string) (paths : list string) : list string :=
  match paths with
  | [] => []
  | path :: rest =>
      (sitemap_locs n (rstrip_slash root ++ path) ++ scan_paths (S n) root rest)%list
  end.

Fixpoint scan_roots (n : nat) (roots : list string) : list string :=
  match roots with
  | [] => []
  | root :: rest =>
      (scan_paths n root try_paths ++ scan_roots (n + length try_paths) rest)%list
  end.

(** [[u.strip() for u in extra if ok(u)]]; the exception of [ok] leaves
    the comprehension. *)
Fixpoint keep_ok (extra : list string) : outcome (list string) :=
  match extra with
  | [] => Done []
  | u :: rest =>
      match ok u with
      | Raised e => Raised e
      | Done b =>
          match keep_ok rest with
          | Raised e => Raised e
          | Done l => Done (if b then PyStr.strip u :: l else l)
          end
      end
  end.

Definition expand_seeds_via_sitemap (seeds : list string) : outcome (list string) :=
  let extra := scan_roots 0 seeds in
  match keep_ok extra with
  | Raised e => Raised e
  | Done extra => Done (dict_fromkeys (seeds ++ extra))
  end.

End Sitemap.

(** A sitemap server for examples: the first request is answered with a
    sitemap, the others fail. *)
Definition one_sitemap (n : nat) (url : string) : option (Z * option string * string) :=
  match n with
  | 0 => Some (200%Z, Some "application/XML", url)
  | _ => None
  end.

Definition two_locs (xml : string) : list string :=
  ["https://www.uit.edu.vn/a"; "https://example.org/b"; "https://uit.edu.vn/"].

(** * Properties *)

(** ** Content classifier *)

Example pick_ext_pdf : pick_ext_by_ct (Some "application/pdf") = ".pdf".
Proof. reflexivity. Qed.

Example pick_ext_html : pick_ext_by_ct (Some "text/html; charset=utf-8") = ".html".
Proof. reflexivity. Qed.

Example pick_ext_upper : pick_ext_by_ct (Some "Application/PDF") = ".pdf".
Proof. reflexivity. Qed.

Example pick_ext_word_html :
  pick_ext_by_ct (Some "application/msword+html") = ".docx".
Proof. reflexivity. Qed.

(** C9.  The extension chosen for a content type is the one of the first
    matching marker group in the order pdf, Word, html, spreadsheet/Excel,
    presentation/PowerPoint, with [.bin] when none matches and when the
    content type is missing or empty; [application/pdf] gives [.pdf] and
    [text/html; charset=utf-8] gives [.html]. *)
Theorem pick_ext_by_ct_priority :
  (forall ct, pick_ext_by_ct ct = ext_by_priority ct)
  /\ pick_ext_by_ct None = ".bin"
  /\ pick_ext_by_ct (Some "") = ".bin"
  /\ pick_ext_by_ct (Some "application/pdf") = ".pdf"
  /\ pick_ext_by_ct (Some "text/html; charset=utf-8") = ".html".
Proof.
  split; [| repeat split].
  intros [[| c s] |]; try reflexivity.
  unfold pick_ext_by_ct, ext_by_priority, ext_table, first_ext, existsb.
  cbn [PyStr.truthy].
  repeat rewrite orb_false_r.
  reflexivity.
Qed.

(** ** Content addressing *)

Example sha1_abc :
  Sha1.hexdigest (Sha1.utf8 "abc") = "a9993e364706816aba3e25717850c26c9cd0d89d".
Proof. vm_compute. reflexivity. Qed.

Example sha1_empty :
  Sha1.hexdigest [] = "da39a3ee5e6b4b0d3255bfef95601890afd80709".
Proof. vm_compute. reflexivity. Qed.

Example sha1_two_blocks :
  Sha1.hexdigest (Sha1.utf8 "abcdbcdecdefdefgefghfghighijhijkijkljklmklmnlmnomnopnopq")
  = "84983e441c3bd26ebaae4aa1f95129e5e54670f1".
Proof. vm_compute. reflexivity. Qed.

Example safe_filename_x_edu :
  safe_filename "https://x.edu/a" ".html" = "7c13194e385a3ef1.html".
Proof. vm_compute. reflexivity. Qed.


Lemma url_hash_unfold (url : string) :
  let d := Sha1.digest (Sha1.utf8 url) in
  url_hash url = Sha1.hex8 (Sha1.h0 d) (Sha1.hex8 (Sha1.h1 d) EmptyString).
Proof. reflexivity. Qed.

Lemma url_hash_length (url : string) : String.length (url_hash url) = 16.
Proof. rewrite url_hash_unfold. reflexivity. Qed.


(** ** URL parsing in the examples *)

Example netloc_uit :
  Urllib.netloc "https://uit.edu.vn/docs/archive/y" = "uit.edu.vn".
Proof. reflexivity. Qed.

Example join_relative :
  Urllib.join "https://h/x/y" "/a/b.pdf" = "https://h/a/b.pdf".
Proof. reflexivity. Qed.

(** ** Strings *)

Lemma append_cons (c : ascii) (p s : string) :
  String c p ++ s = String c (p ++ s).
Proof. reflexivity. Qed.

Lemma append_assoc (a b c : string) : (a ++ b) ++ c = a ++ (b ++ c).
Proof.
  induction a as [| x a IH]; [reflexivity |].
  rewrite !append_cons, IH. reflexivity.
Qed.

Lemma startswith_app (p s : string) : PyStr.startswith p (p ++ s) = true.
Proof.
  induction p as [| c p IH]; [reflexivity |].
  rewrite append_cons. cbn [PyStr.startswith]. rewrite Ascii.eqb_refl. exact IH.
Qed.

Lemma rev_acc_app (a b acc : string) :
  PyStr.rev_acc (a ++ b) acc = PyStr.rev_acc b (PyStr.rev_acc a acc).
Proof.
  revert acc. induction a as [| c a IH]; intros acc; [reflexivity |].
  rewrite append_cons. cbn [PyStr.rev_acc]. apply IH.
Qed.

Lemma rev_acc_spec (a acc : string) :
  PyStr.rev_acc a acc = PyStr.rev_acc a EmptyString ++ acc.
Proof.
  revert acc. induction a as [| c a IH]; intros acc; [reflexivity |].
  cbn [PyStr.rev_acc]. rewrite IH, (IH (String c EmptyString)).
  rewrite append_assoc. reflexivity.
Qed.

Lemma endswith_app (pre p : string) : PyStr.endswith p (pre ++ p) = true.
Proof.
  unfold PyStr.endswith, PyStr.rev.
  rewrite rev_acc_app, (rev_acc_spec p (PyStr.rev_acc pre EmptyString)).
  apply startswith_app.
Qed.

(** ** Link harvester *)

Lemma span_unquoted_length (s : string) :
  String.length (fst (span_unquoted s)) + String.length (snd (span_unquoted s))
  = String.length s.
Proof.
  induction s as [| c s IH]; [reflexivity |].
  cbn [span_unquoted]. destruct (is_quote c); [reflexivity |].
  destruct (span_unquoted s) as [v rest]. cbn in IH |- *. lia.
Qed.

Lemma drop_length (n : nat) (s : string) : String.length (drop n s) <= String.length s.
Proof.
  revert s. induction n as [| n IH]; intros [| c s]; cbn; try lia.
  specialize (IH s). lia.
Qed.

Lemma match_attr_shorter (s v rest : string) :
  match_attr s = Some (v, rest) -> String.length rest < String.length s.
Proof.
  unfold match_attr.
  assert (H : forall n, match drop n s with
                        | String q r =>
                            if is_quote q then
                              match span_unquoted r with
                              | (String c v0, String _ rest0) => Some (String c v0, rest0)
                              | _ => None
                              end
                            else None
                        | EmptyString => None
                        end = Some (v, rest) -> String.length rest < String.length s).
  { intros n. pose proof (drop_length n s) as Hd.
    destruct (drop n s) as [| q r]; [discriminate |].
    destruct (is_quote q); [| discriminate].
    pose proof (span_unquoted_length r) as Hs.
    destruct (span_unquoted r) as [[| c v0] [| c' rest0]]; try discriminate.
    intros Heq. injection Heq as _ <-. cbn in Hd, Hs. lia. }
  destruct (PyStr.startswith "href=" s); [apply H |].
  destruct (PyStr.startswith "src=" s); [apply H | discriminate].
Qed.

(** The fuel of the scan never runs out: any amount at least the length of
    the text gives the same matches. *)
Lemma findall_fuel_enough (n m : nat) (s : string) :
  String.length s <= n -> String.length s <= m ->
  findall_from n s = findall_from m s.
Proof.
  revert m s. induction n as [| n IH]; intros m s Hn Hm.
  - destruct s; [| cbn in Hn; lia]. destruct m; reflexivity.
  - destruct m as [| m]; [destruct s; [reflexivity | cbn in Hm; lia] |].
    cbn [findall_from]. destruct s as [| c r]; [reflexivity |].
    cbn in Hn, Hm.
    destruct (match_attr (String c r)) as [[v rest] |] eqn:Hma.
    + apply match_attr_shorter in Hma. cbn in Hma.
      f_equal. apply IH; lia.
    + apply IH; lia.
Qed.

Example findall_links_scan :
  findall_links "<a href='/a/b.pdf'>b</a> <img src='x.png'> <a href=''> href='open"
  = ["/a/b.pdf"; "x.png"].
Proof. reflexivity. Qed.

Lemma filter_filter_impl {A} (f g : A -> bool) (l : list A) :
  (forall x, f x = true -> g x = true) ->
  List.filter f (List.filter g l) = List.filter f l.
Proof.
  intros Himp. induction l as [| x l IH]; [reflexivity |].
  cbn [List.filter]. destruct (g x) eqn:Hg.
  - cbn [List.filter]. destruct (f x); rewrite IH; reflexivity.
  - destruct (f x) eqn:Hf; [| exact IH].
    rewrite (Himp x Hf) in Hg. discriminate.
Qed.

Lemma filter_filter_ext {A} (f g h : A -> bool) (l : list A) :
  (forall x, h x = f x && g x) ->
  List.filter f (List.filter g l) = List.filter h l.
Proof.
  intros Hh. induction l as [| x l IH]; [reflexivity |].
  cbn [List.filter]. rewrite Hh. destruct (g x).
  - cbn [List.filter]. destruct (f x); cbn [andb]; rewrite IH; reflexivity.
  - rewrite andb_false_r. exact IH.
Qed.

Lemma dedup_loop_first_seen (cands : list link_item) (seen : gset string) :
  dedup_loop cands seen = List.filter (fresh seen) (LinkSpec.first_seen (LinkSpec.trimmed cands)).
Proof.
  revert seen. induction cands as [| c cands IH]; intros seen; [reflexivity |].
  destruct c as [u |]; cbn [dedup_loop LinkSpec.trimmed]; [| apply IH].
  destruct (PyStr.truthy (PyStr.strip u)) eqn:Hne; cbn [negb orb]; [| apply IH].
  cbn [LinkSpec.first_seen List.filter]. unfold fresh at 1.
  destruct (bool_decide (PyStr.strip u ∈ seen)) eqn:Hin; cbn [negb].
  - rewrite IH. symmetry. apply filter_filter_impl.
    intros x Hx. apply negb_true_iff, String.eqb_neq. intros ->.
    unfold fresh in Hx. rewrite Hin in Hx. discriminate.
  - f_equal. rewrite IH. symmetry. apply filter_filter_ext.
    intros x. unfold fresh.
    destruct (String.eqb_spec x (PyStr.strip u)) as [-> | Hneq].
    + rewrite bool_decide_eq_true_2 by set_solver. rewrite andb_false_r. reflexivity.
    + rewrite andb_true_r. f_equal. apply bool_decide_ext.
      rewrite elem_of_union, elem_of_singleton. tauto.
Qed.

Lemma filter_fresh_empty (l : list string) : List.filter (fresh ∅) l = l.
Proof.
  induction l as [| x l IH]; [reflexivity |].
  cbn [List.filter]. unfold fresh at 1.
  rewrite bool_decide_eq_false_2 by set_solver. cbn [negb]. rewrite IH. reflexivity.
Qed.

Lemma attr_candidates_concat (attrs : list string) (p : page) :
  attr_candidates attrs p
  = if forallb (fun attr => iterable (getattr_links p attr)) attrs
    then Done (concat (map (fun attr => LinkSpec.items (getattr_links p attr)) attrs))
    else Raised TypeError.
Proof.
  induction attrs as [| a attrs IH]; [reflexivity |].
  cbn [attr_candidates map concat forallb]. rewrite IH.
  destruct (getattr_links p a) as [| [| i l] | [|]]; cbn [iterable andb LinkSpec.items app];
    try reflexivity.
  destruct (forallb _ attrs); reflexivity.
Qed.

Lemma first_text_nonempty decode (attrs : list string) (p : page) (s : string) :
  first_text decode attrs p = Some s -> PyStr.truthy s = true.
Proof.
  induction attrs as [| a attrs IH]; [discriminate |].
  cbn [first_text].
  assert (Hs : forall t, PyStr.truthy (PyStr.strip t) = true -> PyStr.truthy t = true).
  { intros [| c t]; [discriminate | reflexivity]. }
  destruct (getattr_text p a) as [| t | b | b | o]; try exact IH.
  - destruct (PyStr.truthy (PyStr.strip t)) eqn:Ht; [| exact IH].
    destruct (PyStr.startswith "markdown" a); intros Heq; injection Heq as <-;
      [reflexivity | auto].
  - destruct (PyStr.truthy (PyStr.strip (decode b))) eqn:Ht; [| exact IH].
    destruct (PyStr.startswith "markdown" a); intros Heq; injection Heq as <-;
      [reflexivity | auto].
Qed.

Lemma scan_candidates_scanned decode (p : page) :
  scan_candidates decode p = LinkSpec.scanned decode p.
Proof.
  unfold scan_candidates, LinkSpec.scanned.
  destruct (page_html_text decode p) as [html |] eqn:Hh; [| reflexivity].
  rewrite (first_text_nonempty _ _ _ _ Hh). reflexivity.
Qed.

Lemma candidates_all_fields decode (p : page) :
  candidates decode p
  = if links_iterable p
    then Done (LinkSpec.all_fields p ++ LinkSpec.scanned decode p)%list
    else Raised TypeError.
Proof.
  unfold candidates, LinkSpec.all_fields, links_iterable.
  rewrite attr_candidates_concat, scan_candidates_scanned.
  destruct (forallb _ link_attrs); reflexivity.
Qed.

Lemma page_links_first_seen decode (p : page) :
  page_links decode p
  = if links_iterable p
    then Done (LinkSpec.first_seen
                 (LinkSpec.trimmed (LinkSpec.all_fields p ++ LinkSpec.scanned decode p)))
    else Raised TypeError.
Proof.
  unfold page_links. rewrite candidates_all_fields.
  destruct (links_iterable p); [| reflexivity].
  rewrite dedup_loop_first_seen, filter_fresh_empty. reflexivity.
Qed.

(** C7, as the code has it.  The harvested links are the string entries of
    every non-empty link-bearing attribute, in priority order, followed by
    the [href=] and [src=] values scanned from the HTML text, each trimmed,
    those left empty dropped, and duplicates removed keeping first
    occurrences in order; a relative link is returned as it stands.  This
    is the result whenever the link-bearing attributes are iterable; a true
    value that is not raises the [TypeError] of [list]. *)
Theorem page_links_harvested (decode : list Byte.byte -> string) (p : page) :
  page_links decode p
  = (if links_iterable p then Done (LinkSpec.harvested decode p) else Raised TypeError)
  /\ page_links string_of_list_byte Fixture.relative_link = Done ["/a/b.pdf"].
Proof.
  split; [| vm_compute; reflexivity].
  rewrite page_links_first_seen. reflexivity.
Qed.

(** C7, as the specification words it, fails: with [out_links = ["a"]] and
    [links = ["b"]] the first non-empty attribute alone gives ["a"], and
    [page_links] returns both entries. *)
Lemma page_links_not_first_field_only :
  page_links string_of_list_byte Fixture.two_fields = Done ["a"; "b"]
  /\ LinkSpec.specified_links string_of_list_byte Fixture.two_fields = ["a"]
  /\ ~ (forall decode p, page_links decode p = Done (LinkSpec.specified_links decode p)).
Proof.
  split; [vm_compute; reflexivity |].
  split; [vm_compute; reflexivity |].
  intros H. specialize (H string_of_list_byte Fixture.two_fields).
  vm_compute in H. discriminate H.
Qed.

(** ** Rules of the judgement [emits] *)

Section EmitsRules.
Context {Q : event -> Prop}.

Lemma emits_ret {A} (a : A) : emits Q (ret a).
Proof. intros st. exists []. cbn. rewrite app_nil_r. auto. Qed.

Lemma emits_raise {A} (e : exn) : emits Q (@raise A e).
Proof. intros st. exists []. cbn. rewrite app_nil_r. auto. Qed.

Lemma emits_lift {A} (o : outcome A) : emits Q (lift o).
Proof. intros st. exists []. cbn. rewrite app_nil_r. auto. Qed.

Lemma emits_get {A} (f : state -> A) : emits Q (get f).
Proof. intros st. exists []. cbn. rewrite app_nil_r. auto. Qed.

Lemma emits_incr_file : emits Q incr_file.
Proof. intros st. exists []. cbn. rewrite app_nil_r. auto. Qed.

Lemma emits_incr_html : emits Q incr_html.
Proof. intros st. exists []. cbn. rewrite app_nil_r. auto. Qed.

Lemma emits_incr_fetched : emits Q incr_fetched.
Proof. intros st. exists []. cbn. rewrite app_nil_r. auto. Qed.

Lemma emits_emit (e : event) : Q e -> emits Q (emit e).
Proof. intros He st. exists [e]. cbn. auto. Qed.

Lemma emits_bind {A B} (m : M A) (k : A -> M B) :
  emits Q m -> (forall a, emits Q (k a)) -> emits Q (bind m k).
Proof.
  intros Hm Hk st. unfold bind.
  destruct (Hm st) as (evs1 & Ht1 & Hq1 & Hs1).
  destruct (m st) as [[a | e] st1]; cbn in Ht1, Hs1.
  - destruct (Hk a st1) as (evs2 & Ht2 & Hq2 & Hs2).
    exists (evs1 ++ evs2)%list. rewrite Ht2, Ht1, Hs2, Hs1, app_assoc.
    split; [reflexivity |]. split; [apply Forall_app; auto | reflexivity].
  - exists evs1. cbn. auto.
Qed.

Lemma emits_for_each {A} (xs : list A) (body : A -> M unit) :
  (forall x, emits Q (body x)) -> emits Q (for_each xs body).
Proof.
  intros Hb. induction xs as [| x xs IH]; cbn [for_each].
  - apply emits_ret.
  - apply emits_bind; [apply Hb | intros _; exact IH].
Qed.

Lemma emits_write_at (E : Env) (path : string) (e : event) :
  Q e -> emits Q (write_at E path e).
Proof.
  intros He st. unfold write_at.
  destruct (write_ok E (clock st) path).
  - apply (emits_emit e He).
  - exists []. cbn. rewrite app_nil_r. auto.
Qed.

Lemma emits_download_file (E : Env) (owner f_url : string) :
  Q (EvPage owner (Download f_url)) -> emits Q (download_file E owner f_url).
Proof. intros He st. exists [EvPage owner (Download f_url)]. cbn. auto. Qed.

Lemma emits_persist_seen (E : Env) :
  (forall s, Q (EvPersistSeen s)) -> emits Q (persist_seen E).
Proof.
  intros He st. unfold persist_seen.
  destruct (write_ok E (clock st) SEEN_PATH).
  - apply (emits_emit _ (He _)).
  - exists []. cbn. rewrite app_nil_r. auto.
Qed.

End EmitsRules.

Ltac emits_step :=
  lazymatch goal with
  | |- emits _ (bind _ _) => apply emits_bind; [| intros ?]
  | |- emits _ (ret _) => apply emits_ret
  | |- emits _ (raise _) => apply emits_raise
  | |- emits _ (lift _) => apply emits_lift
  | |- emits _ (get _) => apply emits_get
  | |- emits _ incr_file => apply emits_incr_file
  | |- emits _ incr_html => apply emits_incr_html
  | |- emits _ incr_fetched => apply emits_incr_fetched
  | |- emits _ (for_each _ _) => apply emits_for_each; intros ?
  | |- emits _ (write_text _ _ _ _) => apply emits_write_at; cbn; auto
  | |- emits _ (write_bytes _ _ _ _) => apply emits_write_at; cbn; auto
  | |- emits _ (write_meta _ _ _ _) => apply emits_write_at; cbn; auto
  | |- emits _ (append_log _ _ _) => apply emits_write_at; cbn; auto
  | |- emits _ (download_file _ _ _) => apply emits_download_file; cbn; auto
  | |- emits _ (persist_seen _) => apply emits_persist_seen; cbn; auto
  | |- emits _ (match ?x with _ => _ end) => destruct x
  end.

Section Footprints.
Context (E : Env) (cfg : Config).

Lemma emits_download_link (u : string) (dom : option string) (raw : string) :
  emits (page_event u) (download_link E u dom raw).
Proof. unfold download_link. repeat emits_step. Qed.

Lemma emits_html_branch (u : string) (pg : page) :
  emits (page_event u) (html_branch E cfg u pg).
Proof.
  unfold html_branch. repeat emits_step.
  apply emits_download_link.
Qed.

Lemma emits_save_direct (u : string) (pg : page) content ctype status :
  emits (page_event u) (save_direct E u pg content ctype status).
Proof. unfold save_direct. repeat emits_step. Qed.

Lemma emits_direct_branch (u : string) (pg : page) :
  emits (page_event u) (direct_branch E u pg).
Proof.
  unfold direct_branch, fetch_direct.
  repeat (first [apply emits_save_direct | emits_step]).
Qed.

Lemma emits_log_and_checkpoint (u : string) (pg : page) :
  emits (page_event u) (log_and_checkpoint E u pg).
Proof. unfold log_and_checkpoint. repeat emits_step. Qed.

End Footprints.

Section PageFootprint.
Context (E : Env) (cfg : Config).

Lemma emits_classify_and_persist (u : string) (pg : page) :
  emits (page_event u) (classify_and_persist E cfg u pg).
Proof.
  unfold classify_and_persist.
  repeat (first [ apply emits_html_branch | apply emits_direct_branch
                | apply emits_log_and_checkpoint | emits_step ]).
Qed.

(** The iteration, case by case. *)
Lemma process_page_unfold (pg : page) (st : state) :
  process_page E cfg pg st =
  match p_url pg with
  | None => (Done tt, st)
  | Some u =>
      if negb (PyStr.truthy u) then (Done tt, st)
      else if bool_decide (u ∈ seen st) then (Done tt, st)
      else match accepts E cfg u with
           | Done true => classify_and_persist E cfg u pg (accept u st)
           | Done false => (Done tt, st)
           | Raised e => (Raised e, st)
           end
  end.
Proof.
  unfold process_page.
  destruct (p_url pg) as [u |]; [| reflexivity].
  destruct (PyStr.truthy u); cbn [negb]; [| reflexivity].
  unfold bind at 1, get.
  destruct (bool_decide (u ∈ seen st)); [reflexivity |].
  unfold bind at 1, lift.
  destruct (accepts E cfg u) as [[|] | e]; reflexivity.
Qed.

(** A page is either skipped without a trace, or accepted: its URL enters
    the frontier first, and every later effect belongs to that page. *)
Lemma page_footprint (pg : page) (st : state) :
  snd (process_page E cfg pg st) = st
  \/ exists u evs,
       p_url pg = Some u /\ PyStr.truthy u = true /\ (u ∉ seen st)
       /\ accepts E cfg u = Done true
       /\ trace (snd (process_page E cfg pg st)) = (trace st ++ EvSeenAdd u :: evs)%list
       /\ Forall (page_event u) evs
       /\ seen (snd (process_page E cfg pg st)) = {[u]} ∪ seen st.
Proof.
  rewrite process_page_unfold.
  destruct (p_url pg) as [u |]; [| left; reflexivity].
  destruct (PyStr.truthy u) eqn:Hu; cbn [negb]; [| left; reflexivity].
  destruct (bool_decide_reflect (u ∈ seen st)) as [Hin | Hnin]; [left; reflexivity |].
  destruct (accepts E cfg u) as [[|] | e] eqn:Hacc;
    [| left; reflexivity | left; reflexivity].
  right. exists u.
  destruct (emits_classify_and_persist u pg (accept u st)) as (evs & Ht & Hq & Hs).
  exists evs. cbn [trace seen accept] in Ht, Hs.
  rewrite Ht, Hs, <- app_assoc. cbn [app]. auto 10.
Qed.

(** A page whose URL is in the frontier is skipped before anything else is
    looked at. *)
Lemma process_page_seen (pg : page) (st : state) (u : string) :
  p_url pg = Some u -> u ∈ seen st -> process_page E cfg pg st = (Done tt, st).
Proof.
  intros Hu Hin. rewrite process_page_unfold, Hu.
  destruct (PyStr.truthy u); cbn [negb]; [| reflexivity].
  rewrite bool_decide_eq_true_2 by exact Hin. reflexivity.
Qed.

Lemma process_seed_unfold (seed : string) (st : state) :
  process_seed E cfg seed st =
  let st1 := push (EvRender seed) st in
  match render_attempt E st seed with
  | inl msg =>
      if write_ok E (clock st1) LOG_PATH then
        let st2 := push (EvPlaywrightError seed msg) st1 in
        for_each (fallback_pages E st2 seed) (process_page E cfg)
                 (push (EvFallback seed) st2)
      else (Raised (OSError LOG_PATH), st1)
  | inr [] =>
      for_each (fallback_pages E st1 seed) (process_page E cfg)
               (push (EvFallback seed) st1)
  | inr pages => for_each pages (process_page E cfg) st1
  end.
Proof.
  unfold process_seed, render_stage, render_attempt, fetch_html_fallback,
    fallback_pages, write_at, bind, emit, ret.
  cbv zeta.
  destruct (match arun E (clock st) seed with
            | inl msg => inl msg
            | inr res => normalize_pages res
            end) as [msg | [| pg pages]]; cbn [is_nil].
  - destruct (write_ok E (clock (push (EvRender seed) st)) LOG_PATH); [| reflexivity].
    cbn [is_nil].
    destruct (get_text E _ seed) as [[[status ctype] text] |]; [| reflexivity].
    destruct (pseudo_page seed status ctype text); reflexivity.
  - destruct (get_text E _ seed) as [[[status ctype] text] |]; [| reflexivity].
    destruct (pseudo_page seed status ctype text); reflexivity.
  - reflexivity.
Qed.

(** An invariant of the states that the seed stage and every page preserve
    holds along the crawl and at the end of [main]. *)
Lemma crawl_invariant (I : state -> Prop) :
  (forall seed st, I st -> I (push (EvRender seed) st)) ->
  (forall seed msg st, I st -> I (push (EvPlaywrightError seed msg) st)) ->
  (forall seed st, I st -> I (push (EvFallback seed) st)) ->
  (forall pg st, I st -> I (snd (process_page E cfg pg st))) ->
  forall seeds st, I st -> I (snd (crawl E cfg seeds st)).
Proof.
  intros Hrender Herror Hfallback Hpage.
  assert (Hpages : forall pages st, I st -> I (snd (for_each pages (process_page E cfg) st))).
  { induction pages as [| pg pages IH]; intros st Hst; [exact Hst |].
    cbn [for_each]. unfold bind. specialize (Hpage pg st Hst).
    destruct (process_page E cfg pg st) as [[[] | e] st1]; cbn in Hpage |- *; auto. }
  assert (Hseed : forall seed st, I st -> I (snd (process_seed E cfg seed st))).
  { intros seed st Hst. rewrite process_seed_unfold. cbv zeta.
    destruct (render_attempt E st seed) as [msg | [| pg pages]].
    - destruct (write_ok E _ LOG_PATH); cbn [snd]; auto.
    - auto.
    - auto. }
  induction seeds as [| seed seeds IH]; intros st Hst; [exact Hst |].
  unfold crawl. cbn [for_each]. unfold bind. specialize (Hseed seed st Hst).
  destruct (process_seed E cfg seed st) as [[[] | e] st1]; cbn in Hseed |- *; auto.
  apply IH. exact Hseed.
Qed.

Lemma main_invariant (I : state -> Prop) :
  (forall seed st, I st -> I (push (EvRender seed) st)) ->
  (forall seed msg st, I st -> I (push (EvPlaywrightError seed msg) st)) ->
  (forall seed st, I st -> I (push (EvFallback seed) st)) ->
  (forall s st, I st -> I (push (EvPersistSeen s) st)) ->
  (forall pg st, I st -> I (snd (process_page E cfg pg st))) ->
  forall seeds seen0, I (mkState seen0 0 0 0 []) -> I (snd (main E cfg seeds seen0)).
Proof.
  intros Hrender Herror Hfallback Hpersist Hpage seeds seen0 H0.
  unfold main, bind.
  pose proof (crawl_invariant I Hrender Herror Hfallback Hpage seeds _ H0) as Hc.
  destruct (crawl E cfg seeds _) as [[[] | e] st1]; cbn in Hc |- *; [| exact Hc].
  unfold persist_seen. destruct (write_ok E (clock st1) SEEN_PATH); [| exact Hc].
  apply Hpersist. exact Hc.
Qed.

End PageFootprint.

Section SidecarKinds.
Context (E : Env) (cfg : Config).

Ltac kind_step :=
  lazymatch goal with
  | |- emits _ (bind _ _) => apply emits_bind; [| intros ?]
  | |- emits _ (ret _) => apply emits_ret
  | |- emits _ (raise _) => apply emits_raise
  | |- emits _ (lift _) => apply emits_lift
  | |- emits _ (get _) => apply emits_get
  | |- emits _ incr_file => apply emits_incr_file
  | |- emits _ incr_html => apply emits_incr_html
  | |- emits _ (for_each _ _) => apply emits_for_each; intros ?
  | |- emits _ (write_text _ _ _ _) => apply emits_write_at; exact I
  | |- emits _ (write_bytes _ _ _ _) => apply emits_write_at; exact I
  | |- emits _ (write_meta _ _ _ _) =>
      apply emits_write_at;
      first [ left; split; reflexivity | right; reflexivity ]
  | |- emits _ (append_log _ _ _) => apply emits_write_at; exact I
  | |- emits _ (download_file _ _ _) => apply emits_download_file; exact I
  | |- emits _ (persist_seen _) => apply emits_persist_seen; intros ?; exact I
  | |- emits _ (match ?x with _ => _ end) => destruct x
  end.

(** The sidecars written while a page is processed. *)
Lemma classify_sidecar_kinds (u : string) (pg : page) :
  emits (own_or_discovered u) (classify_and_persist E cfg u pg).
Proof.
  unfold classify_and_persist, html_branch, direct_branch, fetch_direct, save_direct,
    log_and_checkpoint, download_link.
  repeat kind_step.
Qed.

End SidecarKinds.

Lemma emits_and {A} (Q1 Q2 : event -> Prop) (m : M A) :
  emits Q1 m -> emits Q2 m -> emits (fun e => Q1 e /\ Q2 e) m.
Proof.
  intros H1 H2 st.
  destruct (H1 st) as (evs & Htr & Hq1 & Hs).
  destruct (H2 st) as (evs' & Htr' & Hq2 & _).
  rewrite Htr in Htr'. apply app_inv_head in Htr'. subst evs'.
  exists evs. split; [exact Htr |]. split; [| exact Hs].
  apply Forall_forall. intros e He. rewrite Forall_forall in Hq1, Hq2. auto.
Qed.

(** Every sidecar of a run is the own one of the page being processed or
    the record of a file discovered from that page. *)
Lemma process_page_provenance (E : Env) (cfg : Config) (pg : page) (st : state) :
  Forall sidecar_provenance (trace st) ->
  Forall sidecar_provenance (trace (snd (process_page E cfg pg st))).
Proof.
  intros H. rewrite process_page_unfold.
  destruct (p_url pg) as [u |]; [| exact H].
  destruct (PyStr.truthy u); cbn [negb]; [| exact H].
  destruct (bool_decide (u ∈ seen st)); [exact H |].
  destruct (accepts E cfg u) as [[|] | e]; [| exact H | exact H].
  destruct (emits_and _ _ _ (emits_classify_and_persist E cfg u pg)
              (classify_sidecar_kinds E cfg u pg) (accept u st)) as (evs & Htr & Hq & _).
  rewrite Htr. cbn [accept trace]. rewrite <- app_assoc.
  apply Forall_app. split; [exact H |]. constructor; [exact I |].
  apply (Forall_impl _ _ _ Hq).
  intros [| | | | u' [] |] [H1 H2]; try exact I.
  cbn in H1. subst u'. exact H2.
Qed.

Lemma main_provenance (E : Env) (cfg : Config) (seeds : list string) (seen0 : gset string) :
  Forall sidecar_provenance (trace (snd (main E cfg seeds seen0))).
Proof.
  apply (main_invariant E cfg (fun st => Forall sidecar_provenance (trace st))).
  - intros seed st H. cbn. apply Forall_app. split; [exact H | repeat constructor].
  - intros seed msg st H. cbn. apply Forall_app. split; [exact H | repeat constructor].
  - intros seed st H. cbn. apply Forall_app. split; [exact H | repeat constructor].
  - intros x st H. cbn. apply Forall_app. split; [exact H | repeat constructor].
  - intros pg st. apply process_page_provenance.
  - constructor.
Qed.

(** ** The frontier along a run *)

Lemma not_about_sidecars (u : string) (evs : list event) :
  Forall (not_about u) evs -> page_sidecars u evs = [] /\ ~ In (EvSeenAdd u) evs.
Proof.
  induction 1 as [| e evs He _ [IH1 IH2]]; [split; [reflexivity | intros []] |].
  split.
  - destruct e as [| | | | u' [] |]; cbn [page_sidecars]; try exact IH1.
    cbn [not_about] in He. apply String.eqb_neq in He. rewrite He. exact IH1.
  - intros [-> | Hin]; [cbn in He; congruence | exact (IH2 Hin)].
Qed.

Lemma page_event_not_about (u v : string) (evs : list event) :
  u <> v -> Forall (page_event u) evs -> Forall (not_about v) evs.
Proof.
  intros Hne Hq. apply (Forall_impl _ _ _ Hq).
  intros [| | | | u' a |]; cbn; try tauto.
  intros ->. exact Hne.
Qed.

(** C1, as the code has it.  A URL that the frontier holds at startup stays
    in it, and the run performs no effect for a page at that URL: no
    sidecar, HTML body or binary file is written while such a page is
    processed and the URL is not inserted again.  A page with such a URL is
    skipped whatever the policy would say of it, for every environment and
    configuration: the membership test comes first.  The only sidecars of
    the run that record the URL are records of a file link, written while
    another page is processed, with the note of that page. *)
Theorem frontier_idempotence (E : Env) (cfg : Config) (seeds : list string)
    (seen0 : gset string) (U : string) :
  U ∈ seen0 ->
  U ∈ seen (snd (main E cfg seeds seen0))
  /\ Forall (not_about U) (trace (snd (main E cfg seeds seen0)))
  /\ page_sidecars U (trace (snd (main E cfg seeds seen0))) = []
  /\ (forall E' cfg' pg st,
        p_url pg = Some U -> U ∈ seen st ->
        process_page E' cfg' pg st = (Done tt, st))
  /\ Forall (only_as_file_link U) (trace (snd (main E cfg seeds seen0))).
Proof.
  intros HU.
  assert (Hinv : U ∈ seen (snd (main E cfg seeds seen0))
                 /\ Forall (not_about U) (trace (snd (main E cfg seeds seen0)))).
  { apply (main_invariant E cfg
             (fun st => U ∈ seen st /\ Forall (not_about U) (trace st))).
    - intros seed st [Hs Ht]. cbn. split; [exact Hs |].
      apply Forall_app. split; [exact Ht | repeat constructor].
    - intros seed msg st [Hs Ht]. cbn. split; [exact Hs |].
      apply Forall_app. split; [exact Ht | repeat constructor].
    - intros seed st [Hs Ht]. cbn. split; [exact Hs |].
      apply Forall_app. split; [exact Ht | repeat constructor].
    - intros s st [Hs Ht]. cbn. split; [exact Hs |].
      apply Forall_app. split; [exact Ht | repeat constructor].
    - intros pg st [Hs Ht].
      destruct (page_footprint E cfg pg st)
        as [-> | (u & evs & _ & _ & Hnew & _ & Htr & Hq & Hseen)]; [auto |].
      rewrite Htr, Hseen. split; [apply elem_of_union; right; exact Hs |].
      assert (Hne : u <> U) by (intros ->; exact (Hnew Hs)).
      apply Forall_app. split; [exact Ht |].
      constructor; [exact Hne | exact (page_event_not_about u U evs Hne Hq)].
    - cbn. split; [exact HU | constructor]. }
  destruct Hinv as [Hs Ht].
  split; [exact Hs |]. split; [exact Ht |].
  split; [exact (proj1 (not_about_sidecars U _ Ht)) |].
  split; [intros E' cfg' pg st; apply process_page_seen |].
  pose proof (main_provenance E cfg seeds seen0) as Hp.
  apply Forall_forall. intros e He.
  rewrite Forall_forall in Ht, Hp. specialize (Ht e He). specialize (Hp e He).
  destruct e as [| | | | u [| | path m | |] |]; try exact I.
  cbn in Ht, Hp |- *. intros Hm.
  split; [exact Ht |].
  destruct Hp as [[Hown _] | Hnote]; [congruence | exact Hnote].
Qed.

(** C1, as the specification words it, fails: the loop over the file links
    never looks at the frontier.  With the URL of the file in the loaded
    frontier, the two pages that link it are processed, the file is
    requested and written again for each of them, and so is the sidecar
    that records its URL. *)
Lemma frontier_does_not_cover_file_links :
  "https://h/f.pdf" ∈ ({["https://h/f.pdf"]} : gset string)
  /\ downloads (trace (snd (main Fixture.two_pages Fixture.open_policy
                             ["https://h/"] {["https://h/f.pdf"]})))
     = ["https://h/f.pdf"; "https://h/f.pdf"]
  /\ files_written (trace (snd (main Fixture.two_pages Fixture.open_policy
                                  ["https://h/"] {["https://h/f.pdf"]})))
     = ["output_raw/html/d5b703e6c974c0bd.html";
        "output_raw/files/e212b9ac9509cba9.pdf";
        "output_raw/html/5f76731468d275b2.html";
        "output_raw/files/e212b9ac9509cba9.pdf"]
  /\ sidecar_urls (trace (snd (main Fixture.two_pages Fixture.open_policy
                                 ["https://h/"] {["https://h/f.pdf"]})))
     = ["https://h/a"; "https://h/f.pdf"; "https://h/b"; "https://h/f.pdf"].
Proof.
  split; [apply elem_of_singleton; reflexivity |].
  vm_compute. repeat split; reflexivity.
Qed.

Lemma seen_first_app (l evs : list event) :
  seen_first l -> seen_first evs -> seen_first (l ++ evs).
Proof.
  intros Hl He i u a Hi.
  apply lookup_app_Some in Hi as [Hi | [Hlen Hi]].
  - destruct (Hl i u a Hi) as (j & Hj & Hjl).
    exists j. split; [exact Hj |]. apply lookup_app_l_Some. exact Hjl.
  - destruct (He _ u a Hi) as (j & Hj & Hjl).
    exists (length l + j). split; [lia |].
    rewrite lookup_app_r by lia.
    replace (length l + j - length l) with j by lia. exact Hjl.
Qed.

Lemma seen_first_page (u : string) (evs : list event) :
  Forall (page_event u) evs -> seen_first (EvSeenAdd u :: evs).
Proof.
  intros Hq [| i] u' a Hi; [discriminate |].
  cbn in Hi. exists 0. split; [lia |].
  rewrite Forall_lookup in Hq. specialize (Hq i _ Hi). cbn in Hq. subst u'.
  reflexivity.
Qed.

Lemma seen_first_other (e : event) :
  (forall u a, e <> EvPage u a) -> seen_first [e].
Proof.
  intros He [| i] u a Hi; cbn in Hi; [| discriminate].
  injection Hi as ->. exfalso. exact (He u a eq_refl).
Qed.

(** C2.  In the trace of a run, every effect of processing a page (HTML
    body, binary file, sidecar, download, attempt-log line) comes after the
    insertion of that page's URL in the frontier; for an accepted page the
    insertion is the first effect of its processing, whatever happens
    afterwards. *)
Theorem seen_before_side_effects (E : Env) (cfg : Config) (seeds : list string)
    (seen0 : gset string) :
  seen_first (trace (snd (main E cfg seeds seen0)))
  /\ (forall pg st u,
        p_url pg = Some u -> PyStr.truthy u = true -> u ∉ seen st ->
        accepts E cfg u = Done true ->
        exists evs,
          trace (snd (process_page E cfg pg st)) = (trace st ++ EvSeenAdd u :: evs)%list
          /\ Forall (page_event u) evs
          /\ u ∈ seen (snd (process_page E cfg pg st))).
Proof.
  split.
  - apply (main_invariant E cfg (fun st => seen_first (trace st))).
    + intros seed st H. cbn. apply seen_first_app; [exact H |].
      apply seen_first_other. discriminate.
    + intros seed msg st H. cbn. apply seen_first_app; [exact H |].
      apply seen_first_other. discriminate.
    + intros seed st H. cbn. apply seen_first_app; [exact H |].
      apply seen_first_other. discriminate.
    + intros s st H. cbn. apply seen_first_app; [exact H |].
      apply seen_first_other. discriminate.
    + intros pg st H.
      destruct (page_footprint E cfg pg st)
        as [-> | (u & evs & _ & _ & _ & _ & Htr & Hq & _)]; [exact H |].
      rewrite Htr. apply seen_first_app; [exact H |].
      apply seen_first_page. exact Hq.
    + intros i u a Hi. discriminate.
  - intros pg st u Hu Ht Hnew Hacc.
    rewrite process_page_unfold, Hu, Ht. cbn [negb].
    rewrite bool_decide_eq_false_2 by exact Hnew. rewrite Hacc.
    destruct (emits_classify_and_persist E cfg u pg (accept u st))
      as (evs & Htr & Hq & Hs).
    exists evs. cbn [trace seen accept] in Htr, Hs.
    rewrite Htr, Hs, <- app_assoc. cbn [app].
    split; [reflexivity |]. split; [exact Hq |].
    apply elem_of_union. left. apply elem_of_singleton. reflexivity.
Qed.

(** ** Rules of the judgement [yields] *)

Lemma log_path_not_seen : LOG_PATH <> SEEN_PATH.
Proof. discriminate. Qed.

Lemma artifact_path_not_seen (name : string) :
  path_join OUTPUT_HTML name <> SEEN_PATH
  /\ path_join OUTPUT_FILES name <> SEEN_PATH
  /\ path_join OUTPUT_META name <> SEEN_PATH.
Proof. repeat split; intros H; cbv in H; discriminate H. Qed.

Section YieldsRules.

Lemma yields_ret {A} (P : A -> list event -> Prop) (a : A) :
  P a [] -> yields P (ret a).
Proof.
  intros Hp st. exists a, st, []. rewrite app_nil_r. auto.
Qed.

Lemma yields_get {A} (P : A -> list event -> Prop) (f : state -> A) :
  (forall a, P a []) -> yields P (get f).
Proof.
  intros Hp st. exists (f st), st, []. rewrite app_nil_r. auto.
Qed.

Lemma yields_incr_file (P : unit -> list event -> Prop) :
  P tt [] -> yields P incr_file.
Proof.
  intros Hp st. eexists tt, _, []. split; [reflexivity |].
  cbn. rewrite app_nil_r. auto.
Qed.

Lemma yields_incr_html (P : unit -> list event -> Prop) :
  P tt [] -> yields P incr_html.
Proof.
  intros Hp st. eexists tt, _, []. split; [reflexivity |].
  cbn. rewrite app_nil_r. auto.
Qed.

Lemma yields_emit (P : unit -> list event -> Prop) (e : event) :
  P tt [e] -> yields P (emit e).
Proof.
  intros Hp st. eexists tt, _, [e]. split; [reflexivity |]. cbn. auto.
Qed.

Lemma yields_bind {A B} (P1 : A -> list event -> Prop)
    (P2 : A -> B -> list event -> Prop) (P : B -> list event -> Prop)
    (m : M A) (k : A -> M B) :
  yields P1 m -> (forall a, yields (P2 a) (k a)) ->
  (forall a b e1 e2, P1 a e1 -> P2 a b e2 -> P b (e1 ++ e2)%list) ->
  yields P (bind m k).
Proof.
  intros Hm Hk Hp st. unfold bind.
  destruct (Hm st) as (a & st1 & e1 & -> & Ht1 & Hs1 & Hf1 & Hp1).
  destruct (Hk a st1) as (b & st2 & e2 & -> & Ht2 & Hs2 & Hf2 & Hp2).
  exists b, st2, (e1 ++ e2)%list.
  rewrite Ht2, Ht1, Hs2, Hs1, Hf2, Hf1, app_assoc. eauto 10.
Qed.

Lemma yields_weaken {A} (P P' : A -> list event -> Prop) (m : M A) :
  yields P m -> (forall a evs, P a evs -> P' a evs) -> yields P' m.
Proof.
  intros Hm Himp st.
  destruct (Hm st) as (a & st1 & e1 & Heq & Ht1 & Hs1 & Hf1 & Hp1).
  exists a, st1, e1. auto 10.
Qed.

(** A loop whose iterations each contribute [g x] to a summary [h] of the
    effects contributes the concatenation. *)
Lemma yields_for_each {A X} (h : list event -> list X) (g : A -> list X)
    (xs : list A) (body : A -> M unit) :
  h [] = [] -> (forall e1 e2, h (e1 ++ e2) = h e1 ++ h e2)%list ->
  (forall x, In x xs -> yields (fun _ evs => h evs = g x) (body x)) ->
  yields (fun _ evs => h evs = flat_map g xs) (for_each xs body).
Proof.
  intros Hnil Happ Hb. induction xs as [| x xs IH]; cbn [for_each flat_map].
  - apply yields_ret. exact Hnil.
  - apply (yields_bind (fun _ evs => h evs = g x)
                       (fun _ _ evs => h evs = flat_map g xs)).
    + apply Hb. left. reflexivity.
    + intros _. apply IH. intros y Hy. apply Hb. right. exact Hy.
    + intros _ _ e1 e2 H1 H2. rewrite Happ, H1, H2. reflexivity.
Qed.

Lemma yields_lift {A} (P : A -> list event -> Prop) (a : A) :
  P a [] -> yields P (lift (Done a)).
Proof.
  intros Hp st. exists a, st, []. rewrite app_nil_r. auto.
Qed.

Lemma yields_lift_bind {A B} (P : B -> list event -> Prop) (a : A) (k : A -> M B) :
  yields P (k a) -> yields P (bind (lift (Done a)) k).
Proof. intros H st. exact (H st). Qed.

Context (E : Env).
Hypothesis Hwrites : artifact_writes_ok E.

Lemma yields_write_at (P : unit -> list event -> Prop) (path : string) (e : event) :
  path <> SEEN_PATH -> P tt [e] -> yields P (write_at E path e).
Proof using Hwrites.
  intros Hpath Hp st. unfold write_at. rewrite (Hwrites _ _ Hpath).
  apply (yields_emit P e Hp).
Qed.

Lemma yields_download_file
    (P : list Byte.byte * option string * option Z -> list event -> Prop)
    (owner f_url : string) :
  (forall r, P r [EvPage owner (Download f_url)]) ->
  yields P (download_file E owner f_url).
Proof.
  intros Hp st. unfold download_file. cbn [emit].
  eexists _, _, [EvPage owner (Download f_url)].
  split; [reflexivity |]. cbn. auto.
Qed.

Lemma yields_persist_seen (P : unit -> list event -> Prop) :
  P tt [] -> (forall s, P tt [EvPersistSeen s]) -> yields P (persist_seen E).
Proof.
  intros Hnil Hp st. unfold persist_seen.
  destruct (write_ok E (clock st) SEEN_PATH).
  - apply (yields_emit P _ (Hp _)).
  - exists tt, st, []. rewrite app_nil_r. auto.
Qed.

End YieldsRules.

(** ** Summaries of the effects of a page *)


Lemma downloads_summary : summary downloads.
Proof.
  split; [reflexivity |]. intros e1 e2.
  induction e1 as [| e e1 IH]; [reflexivity |].
  destruct e as [| | | | u' [] |]; cbn [downloads app]; try exact IH.
  f_equal. exact IH.
Qed.

Lemma yields_seq {A B X} (h : list event -> list X) (x1 x2 : list X)
    (m : M A) (k : A -> M B) :
  summary h ->
  yields (fun _ evs => h evs = x1) m ->
  (forall a, yields (fun _ evs => h evs = x2) (k a)) ->
  yields (fun _ evs => h evs = x1 ++ x2)%list (bind m k).
Proof.
  intros [_ Happ] Hm Hk.
  apply (yields_bind (fun _ evs => h evs = x1) (fun _ _ evs => h evs = x2));
    [exact Hm | exact Hk |].
  intros _ _ e1 e2 H1 H2. rewrite Happ, H1, H2. reflexivity.
Qed.

Lemma yields_seq_silent {A B X} (h : list event -> list X) (m : M A) (k : A -> M B) :
  summary h ->
  yields (fun _ evs => h evs = []) m ->
  (forall a, yields (fun _ evs => h evs = []) (k a)) ->
  yields (fun _ evs => h evs = []) (bind m k).
Proof. intros Hh Hm Hk. exact (yields_seq h [] [] m k Hh Hm Hk). Qed.

Lemma flat_map_nil {A X} (xs : list A) : flat_map (fun _ : A => @nil X) xs = [].
Proof. induction xs; [reflexivity | assumption]. Qed.


Section PageYields.
Context (E : Env) (cfg : Config).
Hypothesis Hwrites : artifact_writes_ok E.


(** One file link: one request, for the resolved URL. *)
Lemma download_link_downloads (u : string) (dom : option string) (raw : string) :
  urljoin E u raw <> None ->
  yields (fun _ evs => downloads evs = resolved_links E u [raw])
         (download_link E u dom raw).
Proof using Hwrites.
  pose proof downloads_summary as Hh.
  intros Hjoin. unfold download_link, resolved_links. cbn [flat_map]. rewrite app_nil_r.
  destruct (urljoin E u raw) as [f |]; [| destruct (Hjoin eq_refl)].
  apply (yields_seq downloads [f] []); [exact Hh | |].
  - apply yields_download_file. reflexivity.
  - intros [[content ctype] status].
    destruct (is_nil content).
    + apply yields_write_at; [exact Hwrites | exact log_path_not_seen | reflexivity].
    + apply yields_seq_silent; [exact Hh | |].
      * apply yields_write_at; [exact Hwrites | | reflexivity].
        apply artifact_path_not_seen.
      * intros _. apply yields_seq_silent; [exact Hh | |].
        -- apply yields_get. reflexivity.
        -- intros now. apply yields_seq_silent; [exact Hh | |].
           ++ apply yields_write_at; [exact Hwrites | | reflexivity].
              apply artifact_path_not_seen.
           ++ intros _. apply yields_incr_file. reflexivity.
Qed.

End PageYields.



(** Steps that contribute nothing to a summary. *)
Ltac silent_step Hh :=
  first
    [ apply yields_seq_silent; [exact Hh | | intros ?]
    | apply yields_write_at;
        [ assumption
        | first [exact log_path_not_seen | apply artifact_path_not_seen]
        | reflexivity ]
    | apply yields_get; reflexivity
    | apply yields_ret; reflexivity
    | apply yields_lift; reflexivity
    | apply yields_incr_file; reflexivity
    | apply yields_incr_html; reflexivity
    | apply yields_download_file; reflexivity
    | apply yields_persist_seen; reflexivity ].

Lemma file_links_In (cfg : Config) (links : list string) (raw : string) :
  In raw (List.filter (fun l => looks_like_file l (file_exts cfg)) links) ->
  In raw links /\ looks_like_file raw (file_exts cfg) = true.
Proof. intros H. apply List.filter_In in H. exact H. Qed.

Section BranchYields.
Context (E : Env) (cfg : Config).
Hypothesis Hwrites : artifact_writes_ok E.



(** The navigable branch requests each file link of the page once, in the
    order of the harvested links. *)
Lemma html_branch_downloads (u : string) (pg : page) (links : list string) :
  page_links (decode_utf8 E) pg = Done links ->
  (forall raw, In raw links -> looks_like_file raw (file_exts cfg) = true ->
               urljoin E u raw <> None) ->
  yields (fun _ evs =>
            downloads evs
            = resolved_links E u
                (List.filter (fun l => looks_like_file l (file_exts cfg)) links))
         (html_branch E cfg u pg).
Proof using Hwrites.
  pose proof downloads_summary as Hh.
  intros Hpl Hjoin. unfold html_branch. rewrite Hpl.
  apply (yields_seq downloads [] _); [exact Hh | |].
  - destruct (PyStr.truthy _); repeat silent_step Hh.
  - intros html_path. apply yields_lift_bind.
    apply (yields_seq downloads [] _); [exact Hh | silent_step Hh |].
    intros now.
    apply (yields_seq downloads [] _); [exact Hh | silent_step Hh |].
    intros _. unfold resolved_links.
    apply yields_for_each; [exact (proj1 Hh) | exact (proj2 Hh) |].
    intros raw Hraw. apply file_links_In in Hraw as [Hin Hfile].
    apply (yields_weaken _ _ _
             (download_link_downloads E Hwrites u _ raw (Hjoin raw Hin Hfile))).
    intros _ evs ->. unfold resolved_links. cbn [flat_map]. apply app_nil_r.
Qed.

End BranchYields.

Section DirectYields.
Context (E : Env).
Hypothesis Hwrites : artifact_writes_ok E.

Lemma write_at_ok (path : string) (e : event) (st : state) :
  path <> SEEN_PATH -> write_at E path e st = (Done tt, push e st).
Proof using Hwrites.
  intros Hpath. unfold write_at. rewrite (Hwrites _ _ Hpath). reflexivity.
Qed.


(** The outcome of the fresh download decides: an empty body leaves a line
    in the log and a sidecar noting it, and no file. *)
Lemma fetch_direct_empty (u : string) (pg : page) (st : state) :
  (forall body ctype status,
     get_bytes E (clock st) u = Some (body, ctype, status) -> body = []) ->
  exists m,
    fetch_direct E u pg st
    = (Done false,
       push (EvPage u (WriteMeta (path_join OUTPUT_META (safe_filename u ".json")) m))
         (push (EvPage u (Log (DirectFileError u)))
            (push (EvPage u (Download u)) st)))
    /\ m_url m = u /\ m_notes m = Some "empty binary" /\ m_file_path m = None.
Proof using Hwrites.
  intros Hempty. unfold fetch_direct, bind, download_file. cbn [emit].
  destruct (get_bytes E (clock st) u) as [[[body ctype] status] |] eqn:Hget.
  - rewrite (Hempty _ _ _ eq_refl). cbn [is_nil]. unfold append_log, write_meta.
    rewrite write_at_ok by exact log_path_not_seen.
    unfold get at 1. rewrite write_at_ok by apply artifact_path_not_seen.
    eexists. split; [reflexivity |]. cbn. auto.
  - cbn [is_nil]. unfold append_log, write_meta.
    rewrite write_at_ok by exact log_path_not_seen.
    unfold get at 1. rewrite write_at_ok by apply artifact_path_not_seen.
    eexists. split; [reflexivity |]. cbn. auto.
Qed.



End DirectYields.

Section ClassifyYields.
Context (E : Env) (cfg : Config).
Hypothesis Hwrites : artifact_writes_ok E.




End ClassifyYields.


Lemma process_page_accepted (E : Env) (cfg : Config) (pg : page) (u : string)
    (st : state) :
  p_url pg = Some u -> PyStr.truthy u = true -> u ∉ seen st ->
  accepts E cfg u = Done true ->
  process_page E cfg pg st = classify_and_persist E cfg u pg (accept u st).
Proof.
  intros Hu Ht Hnew Hacc. rewrite process_page_unfold, Hu, Ht. cbn [negb].
  rewrite bool_decide_eq_false_2 by exact Hnew. rewrite Hacc. reflexivity.
Qed.





(** ** How the artifacts are named *)


Section Naming.
Context (E : Env) (cfg : Config).




End Naming.



(** ** The fallback *)

Lemma page_event_fallbacks (u : string) (evs : list event) :
  Forall (page_event u) evs -> fallbacks evs = [].
Proof.
  intros Hq.
  induction Hq as [| e evs He _ IH]; [reflexivity |].
  destruct e; cbn in He |- *; try contradiction; exact IH.
Qed.

Lemma page_event_rendered (u : string) (evs : list event) :
  Forall (page_event u) evs -> rendered evs = [].
Proof.
  intros Hq. induction Hq as [| e evs He _ IH]; [reflexivity |].
  destruct e; cbn in He |- *; try contradiction; exact IH.
Qed.

(** A page is processed without a call to the render stage or to the
    fallback. *)
Lemma process_page_fallbacks (E : Env) (cfg : Config) (pg : page) (st : state) :
  exists evs,
    trace (snd (process_page E cfg pg st)) = (trace st ++ evs)%list
    /\ fallbacks evs = [] /\ rendered evs = [].
Proof.
  destruct (page_footprint E cfg pg st)
    as [-> | (u & evs & _ & _ & _ & _ & Htr & Hq & _)].
  - exists []. rewrite app_nil_r. auto.
  - exists (EvSeenAdd u :: evs). split; [exact Htr |].
    cbn [fallbacks rendered].
    split; [exact (page_event_fallbacks u evs Hq) | exact (page_event_rendered u evs Hq)].
Qed.

(** C6, as the code has it.  When the render stage raises for a seed, the
    line recording it is appended to the log before anything else.  If that
    append succeeds, the render stage has been called once and the fallback
    fetcher is called exactly once for that seed; when the fallback fails
    too, the seed ends there: no page is processed, the frontier is as
    before, and the log has gained exactly one line, the one recording the
    failure.  If the append fails, its [OSError] leaves the loop and the
    fallback fetcher is not called. *)
Theorem fallback_invoked_once (E : Env) (cfg : Config) (seed msg : string)
    (st : state) :
  render_attempt E st seed = inl msg ->
  if write_ok E (clock (push (EvRender seed) st)) LOG_PATH then
    exists evs,
      trace (snd (process_seed E cfg seed st)) = (trace st ++ evs)%list
      /\ rendered evs = [seed]
      /\ fallbacks evs = [seed]
      /\ (fallback_pages E (push (EvPlaywrightError seed msg) (push (EvRender seed) st))
            seed = [] ->
          fst (process_seed E cfg seed st) = Done tt
          /\ evs = [EvRender seed; EvPlaywrightError seed msg; EvFallback seed]
          /\ log_lines evs = [seed]
          /\ fetched_count (snd (process_seed E cfg seed st)) = fetched_count st
          /\ seen (snd (process_seed E cfg seed st)) = seen st)
  else
    process_seed E cfg seed st = (Raised (OSError LOG_PATH), push (EvRender seed) st)
    /\ fallbacks [EvRender seed] = [].
Proof.
  intros Hrender. rewrite process_seed_unfold. cbv zeta.
  rewrite Hrender.
  destruct (write_ok E (clock (push (EvRender seed) st)) LOG_PATH);
    [| split; reflexivity].
  set (st2 := push (EvPlaywrightError seed msg) (push (EvRender seed) st)).
  destruct (fallback_pages E st2 seed) as [| pg pages] eqn:Hfb.
  - exists [EvRender seed; EvPlaywrightError seed msg; EvFallback seed].
    cbn. rewrite <- !app_assoc. auto 10.
  - assert (pages = []) as ->.
    { unfold fallback_pages in Hfb.
      destruct (get_text E (clock st2) seed) as [[[status ctype] text] |];
        [| discriminate].
      destruct (pseudo_page seed status ctype text); [| discriminate].
      injection Hfb as _ <-. reflexivity. }
    cbn [for_each]. unfold bind.
    destruct (process_page_fallbacks E cfg pg (push (EvFallback seed) st2))
      as (evs & Htr & Hnone & Hquiet).
    exists ([EvRender seed; EvPlaywrightError seed msg; EvFallback seed] ++ evs)%list.
    split; [| split; [| split; [| discriminate]]].
    + destruct (process_page E cfg pg (push (EvFallback seed) st2)) as [[[] | e] st3];
        cbn [snd ret] in Htr |- *; rewrite Htr; cbn; rewrite <- !app_assoc; reflexivity.
    + cbn [rendered app]. rewrite Hquiet. reflexivity.
    + cbn [fallbacks app]. rewrite Hnone. reflexivity.
Qed.

(** C6, as the specification words it, fails: on a disk where the attempt
    log cannot be written, the render stage raises for the seed, the
    [OSError] of the append leaves the loop, and the fallback fetcher is
    not called for the seed. *)
Lemma log_failure_skips_fallback :
  render_attempt Fixture.no_log Fixture.start "https://h/" = inl "net::ERR_FAILED"
  /\ process_seed Fixture.no_log Fixture.open_policy "https://h/" Fixture.start
     = (Raised (OSError LOG_PATH), push (EvRender "https://h/") Fixture.start)
  /\ fallbacks (trace (snd (process_seed Fixture.no_log Fixture.open_policy
                              "https://h/" Fixture.start))) = []
  /\ main Fixture.no_log Fixture.open_policy ["https://h/"] ∅
     = (Raised (OSError LOG_PATH), mkState ∅ 0 0 0 [EvRender "https://h/"]).
Proof. vm_compute. repeat split; reflexivity. Qed.

(** ** What enters the frontier *)

Lemma page_event_no_insertion (u x : string) (evs : list event) :
  Forall (page_event u) evs -> ~ In (EvSeenAdd x) evs.
Proof.
  intros Hq Hin. rewrite Forall_forall in Hq.
  apply list_elem_of_In in Hin. exact (Hq _ Hin).
Qed.

Lemma in_push (e e' : event) (st : state) :
  e <> e' -> In e (trace (push e' st)) <-> In e (trace st).
Proof.
  intros Hne. cbn. rewrite in_app_iff. cbn. intuition congruence.
Qed.

(** One file link whose download brings a body: the request, the file, its
    sidecar, and the counter. *)
Lemma download_link_saved (E : Env) (u : string) (dom : option string)
    (raw f : string) (b : Byte.byte) (body : list Byte.byte) (ctype : option string)
    (status : Z) (st : state) :
  artifact_writes_ok E ->
  urljoin E u raw = Some f ->
  get_bytes E (clock st) f = Some (b :: body, ctype, status) ->
  let path := path_join OUTPUT_FILES (safe_filename f (pick_ext_by_ct ctype)) in
  let meta :=
    mkPageMeta f (S (S (clock st))) (Some status) ctype (Some path) None [] dom
               (Some ("discovered from " ++ u)) in
  download_link E u dom raw st
  = (Done tt,
     mkState (seen st) (fetched_count st) (S (file_count st)) (html_count st)
       (trace st ++ [EvPage u (Download f);
                     EvPage u (WriteFile path (b :: body));
                     EvPage u (WriteMeta
                                 (path_join OUTPUT_META
                                    (safe_filename f (pick_ext_by_ct ctype) ++ ".json"))
                                 meta)])).
Proof.
  intros Hw Hj Hg. cbv zeta. unfold download_link. rewrite Hj.
  unfold bind, download_file. cbn [emit]. rewrite Hg. cbn [is_nil].
  unfold write_bytes, write_meta, get.
  rewrite (write_at_ok E Hw) by apply artifact_path_not_seen.
  rewrite (write_at_ok E Hw) by apply artifact_path_not_seen.
  unfold incr_file, push, clock. cbn [seen fetched_count file_count html_count trace].
  rewrite !length_app. cbn [length]. rewrite <- !app_assoc. cbn [app].
  replace (length (trace st) + 1 + 1) with (S (S (length (trace st)))) by lia.
  reflexivity.
Qed.

(** C10, as the code has it.  Only the URL of an accepted page enters the
    frontier: a page leaves the frontier as it is or adds its own URL after
    passing both checks, so the frontier at the end of a run is the initial
    one plus the URLs inserted for accepted pages.  The loop over the file
    links of a navigable page requests the resolved form of every harvested
    link that looks like a file, one request for each such link, whatever
    the frontier holds, and leaves the frontier unchanged.  A body that is
    not empty is written under the hash of the resolved URL followed by the
    extension chosen for the Content-Type of that response, and its sidecar
    records the page it was discovered from. *)
Theorem file_links_bypass_frontier (E : Env) (cfg : Config) :
  (forall pg st,
     seen (snd (process_page E cfg pg st)) = seen st
     \/ exists u, p_url pg = Some u /\ (u ∉ seen st) /\ accepts E cfg u = Done true
                  /\ seen (snd (process_page E cfg pg st)) = {[u]} ∪ seen st)
  /\ (forall seeds seen0 x,
        x ∈ seen (snd (main E cfg seeds seen0))
        <-> x ∈ seen0 \/ In (EvSeenAdd x) (trace (snd (main E cfg seeds seen0))))
  /\ (forall u pg st links,
        artifact_writes_ok E ->
        page_links (decode_utf8 E) pg = Done links ->
        (forall raw, In raw links -> looks_like_file raw (file_exts cfg) = true ->
                     urljoin E u raw <> None) ->
        exists st' evs,
          html_branch E cfg u pg st = (Done tt, st')
          /\ trace st' = (trace st ++ evs)%list
          /\ seen st' = seen st
          /\ downloads evs
             = resolved_links E u
                 (List.filter (fun l => looks_like_file l (file_exts cfg)) links))
  /\ (forall u pg st,
        seen (snd (html_branch E cfg u pg st)) = seen st
        /\ forall x, ~ In (EvSeenAdd x)
                       (skipn (length (trace st)) (trace (snd (html_branch E cfg u pg st)))))
  /\ (forall u dom raw f b body ctype status st,
        artifact_writes_ok E ->
        urljoin E u raw = Some f ->
        get_bytes E (clock st) f = Some (b :: body, ctype, status) ->
        download_link E u dom raw st
        = (Done tt,
           mkState (seen st) (fetched_count st) (S (file_count st)) (html_count st)
             (trace st
              ++ [EvPage u (Download f);
                  EvPage u (WriteFile
                              (path_join OUTPUT_FILES (url_hash f ++ pick_ext_by_ct ctype))
                              (b :: body));
                  EvPage u (WriteMeta
                              (path_join OUTPUT_META
                                 ((url_hash f ++ pick_ext_by_ct ctype) ++ ".json"))
                              (mkPageMeta f (S (S (clock st))) (Some status) ctype
                                 (Some (path_join OUTPUT_FILES
                                          (url_hash f ++ pick_ext_by_ct ctype)))
                                 None [] dom (Some ("discovered from " ++ u))))]))).
Proof.
  split; [| split; [| split; [| split]]].
  5: { intros u dom raw f b body ctype status st Hw Hj Hg.
       exact (download_link_saved E u dom raw f b body ctype status st Hw Hj Hg). }
  - intros pg st.
    destruct (page_footprint E cfg pg st)
      as [-> | (u & evs & Hu & _ & Hnew & Hacc & _ & _ & Hseen)]; [left; reflexivity |].
    right. exists u. auto.
  - intros seeds seen0.
    apply (main_invariant E cfg
             (fun st => forall x, x ∈ seen st <-> x ∈ seen0 \/ In (EvSeenAdd x) (trace st))).
    + intros seed st H x. rewrite in_push by discriminate. apply H.
    + intros seed msg st H x. rewrite in_push by discriminate. apply H.
    + intros seed st H x. rewrite in_push by discriminate. apply H.
    + intros s st H x. rewrite in_push by discriminate. apply H.
    + intros pg st H x.
      destruct (page_footprint E cfg pg st)
        as [-> | (u & evs & _ & _ & _ & _ & Htr & Hq & Hseen)]; [apply H |].
      rewrite Htr, Hseen, elem_of_union, elem_of_singleton, H, in_app_iff.
      cbn [In]. pose proof (page_event_no_insertion u x evs Hq).
      intuition congruence.
    + intros x. cbn. tauto.
  - intros u pg st links Hwrites Hpl Hjoin.
    destruct (html_branch_downloads E cfg Hwrites u pg links Hpl Hjoin st)
      as ([] & st' & evs & Heq & Htr & Hseen & _ & Hd).
    exists st', evs. auto.
  - intros u pg st.
    destruct (emits_html_branch E cfg u pg st) as (evs & Htr & Hq & Hs).
    split; [exact Hs |]. intros x. rewrite Htr.
    rewrite List.skipn_app, List.skipn_all, Nat.sub_diag. cbn [skipn app].
    exact (page_event_no_insertion u x evs Hq).
Qed.

(** C10, as the specification words it, fails where it counts the requests
    and names the path.  The links are deduplicated as they stand in the
    page, before they are resolved, and the extension comes from the
    Content-Type of each response: a page that holds a relative and an
    absolute link to one file requests that file twice, and when the server
    answers with a PDF and then with an HTML page the two bodies land on
    two paths. *)
Lemma file_link_fetched_twice_by_one_page :
  page_links (decode_utf8 Fixture.retyped) Fixture.page_twice
  = Done ["/f.pdf"; "https://h/f.pdf"]
  /\ downloads (trace (snd (process_page Fixture.retyped Fixture.open_policy
                             Fixture.page_twice Fixture.start)))
     = ["https://h/f.pdf"; "https://h/f.pdf"]
  /\ files_written (trace (snd (process_page Fixture.retyped Fixture.open_policy
                                  Fixture.page_twice Fixture.start)))
     = ["output_raw/html/d5b703e6c974c0bd.html";
        "output_raw/files/e212b9ac9509cba9.pdf";
        "output_raw/files/e212b9ac9509cba9.html"].
Proof. vm_compute. repeat split; reflexivity. Qed.

(** The run over two pages that link one file: the file is requested and
    written once for each page, and its URL is not in the frontier
    afterwards. *)
Example two_pages_one_file :
  let st := snd (main Fixture.two_pages Fixture.open_policy ["https://h/"] ∅) in
  downloads (trace st) = ["https://h/f.pdf"; "https://h/f.pdf"]
  /\ files_written (trace st)
     = ["output_raw/html/d5b703e6c974c0bd.html";
        "output_raw/files/e212b9ac9509cba9.pdf";
        "output_raw/html/5f76731468d275b2.html";
        "output_raw/files/e212b9ac9509cba9.pdf"]
  /\ elements (seen st) = ["https://h/a"; "https://h/b"]
  /\ fs_after (trace st) ∅ !! "output_raw/files/e212b9ac9509cba9.pdf"
     = Some (Bytes [Byte.x25])
  /\ size (fs_after (trace st) ∅) = 6.
Proof. vm_compute. auto. Qed.

(** ** What ends a run *)




Section RunsToTheEnd.
Context (E : Env) (cfg : Config).
Hypothesis Hwrites : artifact_writes_ok E.





End RunsToTheEnd.






(** ** The theorems at concrete runs *)

Lemma frontier_idempotence_witness :
  "https://h/a" ∈ seen (snd (main Fixture.two_pages Fixture.open_policy
                               ["https://h/"] {["https://h/a"]}))
  /\ Forall (not_about "https://h/a")
       (trace (snd (main Fixture.two_pages Fixture.open_policy
                      ["https://h/"] {["https://h/a"]})))
  /\ page_sidecars "https://h/a"
       (trace (snd (main Fixture.two_pages Fixture.open_policy
                      ["https://h/"] {["https://h/a"]}))) = []
  /\ (forall E' cfg' pg st,
        p_url pg = Some "https://h/a" -> "https://h/a" ∈ seen st ->
        process_page E' cfg' pg st = (Done tt, st))
  /\ Forall (only_as_file_link "https://h/a")
       (trace (snd (main Fixture.two_pages Fixture.open_policy
                      ["https://h/"] {["https://h/a"]}))).
Proof.
  apply frontier_idempotence. apply elem_of_singleton. reflexivity.
Defined.

Lemma seen_before_side_effects_witness :
  exists evs,
    trace (snd (process_page Fixture.two_pages Fixture.open_policy Fixture.page_a
                  Fixture.start))
    = (trace Fixture.start ++ EvSeenAdd "https://h/a" :: evs)%list
    /\ Forall (page_event "https://h/a") evs
    /\ "https://h/a" ∈ seen (snd (process_page Fixture.two_pages Fixture.open_policy
                                    Fixture.page_a Fixture.start)).
Proof.
  apply (proj2 (seen_before_side_effects Fixture.two_pages Fixture.open_policy [] ∅)).
  - reflexivity.
  - reflexivity.
  - apply not_elem_of_empty.
  - reflexivity.
Defined.

Lemma offline_writes_ok : artifact_writes_ok Fixture.offline.
Proof. intros n path _. reflexivity. Defined.


Lemma fallback_invoked_once_witness :
  exists evs,
    trace (snd (process_seed Fixture.offline Fixture.open_policy "https://h/" Fixture.start))
    = (trace Fixture.start ++ evs)%list
    /\ rendered evs = ["https://h/"]
    /\ fallbacks evs = ["https://h/"]
    /\ (fallback_pages Fixture.offline
          (push (EvPlaywrightError "https://h/" "net::ERR_FAILED")
                (push (EvRender "https://h/") Fixture.start)) "https://h/" = [] ->
        fst (process_seed Fixture.offline Fixture.open_policy "https://h/" Fixture.start)
        = Done tt
        /\ evs = [EvRender "https://h/"; EvPlaywrightError "https://h/" "net::ERR_FAILED";
                  EvFallback "https://h/"]
        /\ log_lines evs = ["https://h/"]
        /\ fetched_count (snd (process_seed Fixture.offline Fixture.open_policy
                                 "https://h/" Fixture.start))
           = fetched_count Fixture.start
        /\ seen (snd (process_seed Fixture.offline Fixture.open_policy
                        "https://h/" Fixture.start))
           = seen Fixture.start).
Proof.
  exact (fallback_invoked_once Fixture.offline Fixture.open_policy "https://h/"
           "net::ERR_FAILED" Fixture.start eq_refl).
Defined.

Lemma file_links_bypass_frontier_witness :
  exists st' evs,
    html_branch Fixture.two_pages Fixture.open_policy "https://h/a" Fixture.page_a
                (mkState {["https://h/f.pdf"]} 0 0 0 []) = (Done tt, st')
    /\ trace st' = ([] ++ evs)%list
    /\ seen st' = {["https://h/f.pdf"]}
    /\ downloads evs
       = resolved_links Fixture.two_pages "https://h/a"
           (List.filter (fun l => looks_like_file l (file_exts Fixture.open_policy))
                        ["/f.pdf"]).
Proof.
  apply (proj1 (proj2 (proj2 (file_links_bypass_frontier Fixture.two_pages
                                Fixture.open_policy)))).
  - intros n path _. reflexivity.
  - reflexivity.
  - intros raw _ _. discriminate.
Defined.

(** * Further properties of the pipeline *)

(** ** Strings, continued *)

Lemma startswith_inv (p s : string) :
  PyStr.startswith p s = true -> exists r, s = p ++ r.
Proof.
  revert s. induction p as [| a p IH]; intros s H.
  - exists s. reflexivity.
  - destruct s as [| b s]; [discriminate |]. cbn [PyStr.startswith] in H.
    destruct (Ascii.eqb_spec a b) as [<- | _]; [| discriminate].
    destruct (IH s H) as [r ->]. exists r. reflexivity.
Qed.

Lemma rev_acc_rev_acc (a b c : string) :
  PyStr.rev_acc (PyStr.rev_acc a b) c = PyStr.rev_acc b (a ++ c).
Proof.
  revert b c. induction a as [| x a IH]; intros b c; [reflexivity |].
  cbn [PyStr.rev_acc]. rewrite IH. reflexivity.
Qed.

Lemma rev_involutive (s : string) : PyStr.rev (PyStr.rev s) = s.
Proof.
  unfold PyStr.rev. rewrite rev_acc_rev_acc. cbn [PyStr.rev_acc].
  induction s as [| c s IH]; [reflexivity |]. rewrite append_cons, IH. reflexivity.
Qed.

Lemma rev_app (a b : string) : PyStr.rev (a ++ b) = PyStr.rev b ++ PyStr.rev a.
Proof.
  unfold PyStr.rev. rewrite rev_acc_app. apply rev_acc_spec.
Qed.

Lemma endswith_inv (p s : string) :
  PyStr.endswith p s = true -> exists pre, s = pre ++ p.
Proof.
  unfold PyStr.endswith. intros H.
  destruct (startswith_inv _ _ H) as [r Hr].
  exists (PyStr.rev r).
  rewrite <- (rev_involutive s), Hr, rev_app, rev_involutive. reflexivity.
Qed.

Lemma endswith_iff (p s : string) :
  PyStr.endswith p s = true <-> exists pre, s = pre ++ p.
Proof.
  split; [apply endswith_inv |]. intros [pre ->]. apply endswith_app.
Qed.

Lemma lower_char_idem (c : ascii) :
  PyStr.lower_char (PyStr.lower_char c) = PyStr.lower_char c.
Proof. destruct c as [[] [] [] [] [] [] [] []]; reflexivity. Qed.

Lemma lower_idem (s : string) : PyStr.lower (PyStr.lower s) = PyStr.lower s.
Proof.
  induction s as [| c s IH]; [reflexivity |].
  cbn [PyStr.lower]. rewrite lower_char_idem, IH. reflexivity.
Qed.

Lemma lower_app (a b : string) :
  PyStr.lower (a ++ b) = PyStr.lower a ++ PyStr.lower b.
Proof.
  induction a as [| c a IH]; [reflexivity |].
  rewrite !append_cons. cbn [PyStr.lower]. rewrite IH, append_cons. reflexivity.
Qed.

(** A suffix of a lower-cased string is lower-cased. *)
Lemma lower_suffix (s pre d : string) :
  PyStr.lower s = pre ++ d -> PyStr.lower d = d.
Proof.
  intros H. pose proof (lower_idem s) as Hi. rewrite H, lower_app in Hi.
  clear H. revert Hi. induction pre as [| c pre IH]; [auto |].
  cbn [PyStr.lower]. rewrite !append_cons. intros Hi. injection Hi as _ Hi. auto.
Qed.

(** ** Policy, continued *)

Lemma host_matches_iff (host d : string) :
  host_matches host d = true <-> host = d \/ exists sub, host = sub ++ "." ++ d.
Proof.
  unfold host_matches. rewrite orb_true_iff, String.eqb_eq, endswith_iff. reflexivity.
Qed.

Lemma host_matches_lowered (netloc d : string) :
  PyStr.lower d <> d -> host_matches (PyStr.lower netloc) d = false.
Proof.
  intros Hd. apply not_true_is_false. rewrite host_matches_iff.
  intros [H | [sub H]]; apply Hd.
  - rewrite <- H. apply lower_idem.
  - rewrite <- append_assoc in H. exact (lower_suffix _ _ _ H).
Qed.







(** X1.  [allowed_by_domain] parses the URL before it looks at the list, so
    it raises on a URL that [urlparse] rejects even when the list is empty.
    Otherwise it answers true exactly when the lower-cased host is an entry
    or ends with a dot followed by an entry.  The entries are compared as
    written: one that holds a capital letter matches no URL. *)
Theorem allowed_by_domain_exact (E : Env) (url : string) (ds : list string) :
  match urlparse_netloc E url with
  | None => allowed_by_domain E url ds = Raised (ValueError url)
  | Some netloc =>
      (allowed_by_domain E url ds = Done true
       <-> exists d, In d ds
                     /\ (PyStr.lower netloc = d
                         \/ exists sub, PyStr.lower netloc = sub ++ "." ++ d))
      /\ (forall d, PyStr.lower d <> d -> allowed_by_domain E url [d] = Done false)
  end.
Proof.
  unfold allowed_by_domain.
  destruct (urlparse_netloc E url) as [netloc |]; [| reflexivity].
  split.
  - split.
    + intros H. injection H as H. apply existsb_exists in H as (d & Hin & Hm).
      exists d. split; [exact Hin |]. apply host_matches_iff. exact Hm.
    + intros (d & Hin & Hm). f_equal. apply existsb_exists.
      exists d. split; [exact Hin |]. apply host_matches_iff. exact Hm.
  - intros d Hd. cbn [existsb]. rewrite (host_matches_lowered netloc d Hd). reflexivity.
Qed.

(** X2.  A URL looks like a file exactly when its lower-cased form ends with
    one of the configured extensions; the extensions are compared as
    written, so one configured with a capital letter matches no URL. *)
Theorem looks_like_file_exact (url : string) (exts : list string) :
  (looks_like_file url exts = true
   <-> exists ext, In ext exts /\ exists pre, PyStr.lower url = pre ++ ext)
  /\ (forall ext, PyStr.lower ext <> ext -> looks_like_file url [ext] = false).
Proof.
  unfold looks_like_file. split.
  - rewrite existsb_exists. split.
    + intros (ext & Hin & H). exists ext. split; [exact Hin |].
      apply endswith_iff. exact H.
    + intros (ext & Hin & H). exists ext. split; [exact Hin |].
      apply endswith_iff. exact H.
  - intros ext Hext. cbn [existsb]. rewrite orb_false_r.
    apply not_true_is_false. rewrite endswith_iff. intros [pre H].
    apply Hext. exact (lower_suffix _ _ _ H).
Qed.

(** ** Content classifier, continued *)

Lemma pick_ext_by_ct_lower (s : string) :
  pick_ext_by_ct (Some s) = pick_ext_by_ct (Some (PyStr.lower s)).
Proof.
  destruct s as [| c s]; [reflexivity |].
  unfold pick_ext_by_ct. cbn [PyStr.lower].
  rewrite lower_char_idem, lower_idem. reflexivity.
Qed.

Lemma pick_ext_by_ct_range (ct : option string) :
  In (pick_ext_by_ct ct) [".pdf"; ".docx"; ".html"; ".xlsx"; ".pptx"; ".bin"].
Proof.
  destruct ct as [[| c r] |]; cbn [pick_ext_by_ct In]; auto 10.
  repeat match goal with |- context [if ?b then _ else _] => destruct b end;
    auto 10.
Qed.

(** X3.  The extension depends on the content type through its lower-cased
    form only: two content types that differ by case get the same extension;
    and it is always one of the six known ones. *)
Theorem pick_ext_by_ct_case_insensitive (s t : string) (ct : option string) :
  (PyStr.lower s = PyStr.lower t -> pick_ext_by_ct (Some s) = pick_ext_by_ct (Some t))
  /\ In (pick_ext_by_ct ct) [".pdf"; ".docx"; ".html"; ".xlsx"; ".pptx"; ".bin"].
Proof.
  split; [| apply pick_ext_by_ct_range].
  intros H. rewrite (pick_ext_by_ct_lower s), (pick_ext_by_ct_lower t), H. reflexivity.
Qed.

Lemma pick_ext_by_ct_case_insensitive_witness :
  pick_ext_by_ct (Some "Application/PDF") = pick_ext_by_ct (Some "application/pdf").
Proof.
  apply (proj1 (pick_ext_by_ct_case_insensitive "Application/PDF" "application/pdf" None)).
  reflexivity.
Defined.

(** ** Page normalizer *)

Lemma first_text_step (decode : list Byte.byte -> string) (attr : string)
    (rest : list string) (p : page) :
  first_text decode (attr :: rest) p
  = match text_of decode (getattr_text p attr) with
    | Some s => Some (wrap_markdown attr s)
    | None => first_text decode rest p
    end.
Proof.
  cbn [first_text]. unfold text_of, wrap_markdown.
  destruct (getattr_text p attr) as [| s | b | b | t]; try reflexivity.
  - destruct (PyStr.truthy (PyStr.strip s)); [| reflexivity].
    destruct (PyStr.startswith "markdown" attr); reflexivity.
  - destruct (PyStr.truthy (PyStr.strip (decode b))); [| reflexivity].
    destruct (PyStr.startswith "markdown" attr); reflexivity.
Qed.

Lemma first_text_none (decode : list Byte.byte -> string) (attrs : list string)
    (p : page) :
  first_text decode attrs p = None
  <-> forall attr, In attr attrs -> text_of decode (getattr_text p attr) = None.
Proof.
  induction attrs as [| a attrs IH]; [split; [intros _ attr [] | reflexivity] |].
  rewrite first_text_step.
  destruct (text_of decode (getattr_text p a)) as [s |] eqn:Ha.
  - split; [discriminate |]. intros H. rewrite (H a) in Ha by (left; reflexivity).
    discriminate.
  - rewrite IH. split.
    + intros H attr [<- | Hin]; auto.
    + intros H attr Hin. apply H. right. exact Hin.
Qed.

Lemma first_text_priority (decode : list Byte.byte -> string) (attrs : list string)
    (p : page) (i : nat) (attr s : string) :
  attrs !! i = Some attr ->
  text_of decode (getattr_text p attr) = Some s ->
  (forall j a, j < i -> attrs !! j = Some a ->
               text_of decode (getattr_text p a) = None) ->
  first_text decode attrs p = Some (wrap_markdown attr s).
Proof.
  revert i. induction attrs as [| a attrs IH]; intros i Hi Hs Hbefore; [discriminate |].
  rewrite first_text_step. destruct i as [| i].
  - injection Hi as ->. rewrite Hs. reflexivity.
  - rewrite (Hbefore 0 a) by (cbn; first [lia | reflexivity]).
    apply (IH i); [exact Hi | exact Hs |].
    intros j b Hj Hb. apply (Hbefore (S j) b); [lia | exact Hb].
Qed.

Lemma rstrip_head (c : ascii) (r : string) :
  PyStr.is_space c = false -> PyStr.truthy (PyStr.rstrip (String c r)) = true.
Proof.
  intros Hc. cbn [PyStr.rstrip]. destruct (PyStr.rstrip r); [rewrite Hc |]; reflexivity.
Qed.

Lemma wrap_markdown_not_blank (attr s : string) :
  PyStr.truthy (PyStr.strip s) = true ->
  PyStr.truthy (PyStr.strip (wrap_markdown attr s)) = true.
Proof.
  intros Hs. unfold wrap_markdown.
  destruct (PyStr.startswith "markdown" attr); [| exact Hs].
  change ("<pre>" ++ newline ++ s ++ newline ++ "</pre>")
    with (String "<"%char ("pre>" ++ newline ++ s ++ newline ++ "</pre>")).
  unfold PyStr.strip. cbn [PyStr.lstrip].
  change (PyStr.is_space "<"%char) with false. cbv iota.
  apply rstrip_head. reflexivity.
Qed.

Lemma text_of_not_blank (decode : list Byte.byte -> string) (v : text_val) (s : string) :
  text_of decode v = Some s -> PyStr.truthy (PyStr.strip s) = true.
Proof.
  destruct v as [| t | b | b | o]; cbn [text_of]; try discriminate.
  - destruct (PyStr.truthy (PyStr.strip t)) eqn:Ht; [| discriminate].
    intros H. injection H as <-. exact Ht.
  - destruct (PyStr.truthy (PyStr.strip (decode b))) eqn:Ht; [| discriminate].
    intros H. injection H as <-. exact Ht.
Qed.

Lemma first_text_not_blank (decode : list Byte.byte -> string) (attrs : list string)
    (p : page) (t : string) :
  first_text decode attrs p = Some t -> PyStr.truthy (PyStr.strip t) = true.
Proof.
  induction attrs as [| a attrs IH]; [discriminate |].
  rewrite first_text_step.
  destruct (text_of decode (getattr_text p a)) as [s |] eqn:Ha; [| exact IH].
  intros H. injection H as <-. apply wrap_markdown_not_blank.
  exact (text_of_not_blank decode _ s Ha).
Qed.

(** X4.  [page_html_text] finds no text exactly when none of the eight
    attributes offers a [str] or [bytes] value with a character that is not
    white space; otherwise it returns the offer of the first attribute of
    the list that has one, in the [pre] shell if that attribute is a
    markdown one and unchanged if not; what it returns is never blank. *)
Theorem page_html_text_first (decode : list Byte.byte -> string) (p : page) :
  (page_html_text decode p = None
   <-> forall attr, In attr text_attrs -> text_of decode (getattr_text p attr) = None)
  /\ (forall i attr s,
        text_attrs !! i = Some attr ->
        text_of decode (getattr_text p attr) = Some s ->
        (forall j a, j < i -> text_attrs !! j = Some a ->
                     text_of decode (getattr_text p a) = None) ->
        page_html_text decode p = Some (wrap_markdown attr s))
  /\ (forall t, page_html_text decode p = Some t ->
                PyStr.truthy (PyStr.strip t) = true).
Proof.
  split; [apply first_text_none |].
  split; [intros i attr s; apply first_text_priority |].
  intros t. apply first_text_not_blank.
Qed.

Lemma page_html_text_first_witness :
  page_html_text string_of_list_byte
    (mkPage None None None None None
            [("markdown", TStr "# title"); ("html", TStr "  ")] [])
  = Some (wrap_markdown "markdown" "# title").
Proof.
  apply (proj1 (proj2 (page_html_text_first string_of_list_byte _)) 6).
  - reflexivity.
  - reflexivity.
  - intros j a Hj Ha.
    do 6 (destruct j as [| j]; [injection Ha as <-; reflexivity |]). lia.
Defined.

(** X5.  A page is navigable exactly when [page_html_text] finds a text or
    the content type, lower-cased, holds [html].  Hence a page taken as a
    direct file has no text at all: in particular, when its [content] is
    [bytes], these decode to nothing but white space. *)
Theorem page_is_html_exact (decode : list Byte.byte -> string) (p : page) :
  (page_is_html decode p = true
   <-> page_html_text decode p <> None
       \/ exists ct, page_content_type p = Some ct
                     /\ PyStr.contains "html" (PyStr.lower ct) = true)
  /\ (page_is_html decode p = false ->
      forall attr, In attr text_attrs ->
        text_of decode (getattr_text p attr) = None)
  /\ (page_is_html decode p = false ->
      forall b, getattr_text p "content" = TBytes b ->
        PyStr.truthy (PyStr.strip (decode b)) = false).
Proof.
  assert (H1 : page_is_html decode p = true
               <-> page_html_text decode p <> None
                   \/ exists ct, page_content_type p = Some ct
                                 /\ PyStr.contains "html" (PyStr.lower ct) = true).
  { unfold page_is_html.
    destruct (page_html_text decode p) as [t |] eqn:Ht; cbn [opt_truthy].
    - rewrite (first_text_nonempty _ _ _ _ Ht). split; [left; discriminate | reflexivity].
    - destruct (page_content_type p) as [ct |].
      + split.
        * intros H. apply andb_true_iff in H as [_ H]. right. exists ct. auto.
        * intros [H | (ct' & Hct & H)]; [congruence |].
          injection Hct as <-. rewrite H, andb_true_r.
          destruct ct; [discriminate H | reflexivity].
      + split; [discriminate |]. intros [H | (ct & Hct & _)]; congruence. }
  assert (H2 : page_is_html decode p = false ->
               forall attr, In attr text_attrs ->
                 text_of decode (getattr_text p attr) = None).
  { intros Hf. apply first_text_none.
    destruct (page_html_text decode p) as [t |] eqn:Ht; [| exact Ht].
    assert (page_is_html decode p = true) by (apply H1; left; discriminate).
    congruence. }
  split; [exact H1 |]. split; [exact H2 |].
  intros Hf b Hb. specialize (H2 Hf "content").
  rewrite Hb in H2. cbn [text_of] in H2.
  destruct (PyStr.truthy (PyStr.strip (decode b))); [| reflexivity].
  discriminate H2. cbn. auto 10.
Qed.

Lemma page_is_html_exact_witness :
  PyStr.truthy (PyStr.strip (string_of_list_byte [Byte.x20; Byte.x0a])) = false.
Proof.
  apply (proj2 (proj2 (page_is_html_exact string_of_list_byte
                         (mkPage (Some "https://h/f.bin") None None None None
                                 [("content", TBytes [Byte.x20; Byte.x0a])] [])))
               eq_refl [Byte.x20; Byte.x0a] eq_refl).
Defined.

(** ** Link harvester, continued *)

Lemma lstrip_id (s : string) :
  match s with EmptyString => True | String c _ => PyStr.is_space c = false end ->
  PyStr.lstrip s = s.
Proof. destruct s as [| c r]; [reflexivity |]. cbn [PyStr.lstrip]. intros ->. reflexivity. Qed.

Lemma lstrip_head (s : string) :
  match PyStr.lstrip s with
  | EmptyString => True
  | String c _ => PyStr.is_space c = false
  end.
Proof.
  induction s as [| c r IH]; [exact I |].
  cbn [PyStr.lstrip]. destruct (PyStr.is_space c) eqn:Hc; [exact IH | exact Hc].
Qed.

Lemma rstrip_keeps_head (s : string) :
  match s with EmptyString => True | String c _ => PyStr.is_space c = false end ->
  match PyStr.rstrip s with
  | EmptyString => True
  | String c _ => PyStr.is_space c = false
  end.
Proof.
  destruct s as [| c r]; [intros _; exact I |].
  intros Hc. cbn [PyStr.rstrip]. destruct (PyStr.rstrip r); [rewrite Hc |]; exact Hc.
Qed.

Lemma rstrip_idem (s : string) : PyStr.rstrip (PyStr.rstrip s) = PyStr.rstrip s.
Proof.
  induction s as [| c r IH]; [reflexivity |].
  cbn [PyStr.rstrip]. destruct (PyStr.rstrip r) as [| d r'] eqn:Hr.
  - destruct (PyStr.is_space c) eqn:Hc; [reflexivity |].
    cbn [PyStr.rstrip]. rewrite Hc. reflexivity.
  - cbn [PyStr.rstrip] in IH |- *. rewrite IH. reflexivity.
Qed.

Lemma strip_idem (s : string) : PyStr.strip (PyStr.strip s) = PyStr.strip s.
Proof.
  unfold PyStr.strip.
  rewrite (lstrip_id (PyStr.rstrip (PyStr.lstrip s))).
  - apply rstrip_idem.
  - apply rstrip_keeps_head, lstrip_head.
Qed.

Lemma first_seen_In (l : list string) (x : string) :
  In x (LinkSpec.first_seen l) <-> In x l.
Proof.
  induction l as [| y l IH]; [reflexivity |].
  cbn [LinkSpec.first_seen In]. rewrite filter_In, IH, negb_true_iff, String.eqb_neq.
  destruct (String.eqb_spec y x) as [-> | Hne]; [tauto |].
  split; [tauto |]. intros [H | H]; [tauto |]. right. split; [exact H | congruence].
Qed.

Lemma first_seen_NoDup (l : list string) : NoDup (LinkSpec.first_seen l).
Proof.
  induction l as [| y l IH]; [constructor |].
  cbn [LinkSpec.first_seen]. constructor.
  - rewrite list_elem_of_In, filter_In, negb_true_iff, String.eqb_neq. tauto.
  - apply NoDup_ListNoDup, List.NoDup_filter, NoDup_ListNoDup. exact IH.
Qed.

Lemma trimmed_In (cands : list link_item) (u : string) :
  In u (LinkSpec.trimmed cands)
  <-> PyStr.truthy u = true /\ exists s, In (IStr s) cands /\ u = PyStr.strip s.
Proof.
  induction cands as [| c cands IH].
  - split; [intros [] | intros (_ & s & [] & _)].
  - destruct c as [s |]; cbn [LinkSpec.trimmed].
    + destruct (PyStr.truthy (PyStr.strip s)) eqn:Hs; cbn [In]; rewrite IH.
      * split.
        -- intros [<- | (Hu & t & Hin & ->)]; [eauto 6 | eauto 6].
        -- intros (Hu & t & [Heq | Hin] & ->); [injection Heq as ->; auto | eauto 6].
      * split.
        -- intros (Hu & t & Hin & ->). eauto 6.
        -- intros (Hu & t & [Heq | Hin] & ->); [injection Heq as ->; congruence | eauto 6].
    + cbn [In]. rewrite IH. split.
      * intros (Hu & t & Hin & ->). eauto 6.
      * intros (Hu & t & [Heq | Hin] & ->); [discriminate | eauto 6].
Qed.

Lemma attr_candidates_raised (attrs : list string) (p : page) (e : exn) :
  attr_candidates attrs p = Raised e ->
  e = TypeError /\ exists attr, In attr attrs /\ getattr_links p attr = LOther true.
Proof.
  induction attrs as [| a attrs IH]; [discriminate |].
  cbn [attr_candidates].
  assert (Hrest : attr_candidates attrs p = Raised e ->
                  e = TypeError
                  /\ exists attr, In attr (a :: attrs) /\ getattr_links p attr = LOther true).
  { intros H. destruct (IH H) as [He (attr & Hin & Hv)].
    split; [exact He |]. exists attr. split; [right; exact Hin | exact Hv]. }
  destruct (getattr_links p a) as [| [| i l] | [|]] eqn:Ha; try exact Hrest.
  - destruct (attr_candidates attrs p) as [more | e'];
      [discriminate | intros H; injection H as ->; apply Hrest; reflexivity].
  - intros H. injection H as <-. split; [reflexivity |].
    exists a. split; [left; reflexivity | exact Ha].
Qed.

(** X6.  The harvested links hold no duplicate; they are exactly the string
    candidates, trimmed, that are not empty once trimmed; and each has
    neither leading nor trailing white space.  There are no harvested links
    only when a link-bearing attribute holds a true value that is not
    iterable, on which [list] raises [TypeError]. *)
Theorem page_links_set (decode : list Byte.byte -> string) (p : page) :
  match candidates decode p with
  | Done cands =>
      exists links,
        page_links decode p = Done links
        /\ NoDup links
        /\ (forall u, In u links
                      <-> PyStr.truthy u = true
                          /\ exists s, In (IStr s) cands /\ u = PyStr.strip s)
        /\ (forall u, In u links -> PyStr.strip u = u)
  | Raised e =>
      page_links decode p = Raised e
      /\ e = TypeError
      /\ exists attr, In attr link_attrs /\ getattr_links p attr = LOther true
  end.
Proof.
  unfold page_links.
  destruct (candidates decode p) as [cands | e] eqn:Hc.
  - eexists. split; [reflexivity |].
    rewrite dedup_loop_first_seen, filter_fresh_empty.
    split; [apply first_seen_NoDup |].
    split.
    + intros u. rewrite first_seen_In. apply trimmed_In.
    + intros u. rewrite first_seen_In, trimmed_In.
      intros (_ & s & _ & ->). apply strip_idem.
  - split; [reflexivity |]. unfold candidates in Hc.
    destruct (attr_candidates link_attrs p) as [c | e'] eqn:Ha; [discriminate |].
    injection Hc as <-. exact (attr_candidates_raised _ _ _ Ha).
Qed.

Lemma span_unquoted_spec (s : string) :
  s = fst (span_unquoted s) ++ snd (span_unquoted s)
  /\ unquoted (fst (span_unquoted s))
  /\ match snd (span_unquoted s) with
     | EmptyString => True
     | String q _ => is_quote q = true
     end.
Proof.
  induction s as [| c r (IH1 & IH2 & IH3)]; [repeat split; intros c [] |].
  cbn [span_unquoted]. destruct (is_quote c) eqn:Hc.
  - cbn. repeat split; [intros d [] | exact Hc].
  - destruct (span_unquoted r) as [v rest]. cbn [fst snd] in *.
    split; [rewrite append_cons; f_equal; exact IH1 |].
    split; [| exact IH3].
    intros d [<- | Hd]; [exact Hc | exact (IH2 d Hd)].
Qed.

Lemma drop_app (p r : string) : drop (String.length p) (p ++ r) = r.
Proof. induction p as [| c p IH]; [destruct r; reflexivity | exact IH]. Qed.

Lemma match_attr_sound (s v rest : string) :
  match_attr s = Some (v, rest) ->
  exists name q1 q2,
    s = name ++ String q1 (v ++ String q2 rest)
    /\ (name = "href=" \/ name = "src=")
    /\ is_quote q1 = true /\ is_quote q2 = true
    /\ v <> EmptyString /\ unquoted v.
Proof.
  unfold match_attr.
  assert (H : forall name,
            PyStr.startswith name s = true ->
            match drop (String.length name) s with
            | String q r =>
                if is_quote q then
                  match span_unquoted r with
                  | (String c v0, String _ rest0) => Some (String c v0, rest0)
                  | _ => None
                  end
                else None
            | EmptyString => None
            end = Some (v, rest) ->
            exists q1 q2,
              s = name ++ String q1 (v ++ String q2 rest)
              /\ is_quote q1 = true /\ is_quote q2 = true
              /\ v <> EmptyString /\ unquoted v).
  { intros name Hn. apply startswith_inv in Hn as [r0 ->]. rewrite drop_app.
    destruct r0 as [| q r]; [discriminate |].
    destruct (is_quote q) eqn:Hq; [| discriminate].
    destruct (span_unquoted_spec r) as (Hr & Hu & Hrest).
    destruct (span_unquoted r) as [[| c v0] [| q2 rest0]]; try discriminate.
    cbn [fst snd] in *. intros Heq. injection Heq as <- <-.
    exists q, q2. rewrite <- Hr. repeat split; auto; discriminate. }
  destruct (PyStr.startswith "href=" s) eqn:Hh.
  - intros Hm. destruct (H "href=" Hh Hm) as (q1 & q2 & Hs & Hrest).
    exists "href=", q1, q2. auto.
  - destruct (PyStr.startswith "src=" s) eqn:Hs'; [| discriminate].
    intros Hm. destruct (H "src=" Hs' Hm) as (q1 & q2 & Hs & Hrest).
    exists "src=", q1, q2. auto.
Qed.

Lemma attr_value_in_later (v x s : string) :
  attr_value_in v s -> attr_value_in v (x ++ s).
Proof.
  intros (pre & name & q1 & q2 & post & -> & H).
  exists (x ++ pre), name, q1, q2, post. rewrite append_assoc. auto.
Qed.

Lemma findall_from_sound (n : nat) (s v : string) :
  In v (findall_from n s) ->
  v <> EmptyString /\ unquoted v /\ attr_value_in v s.
Proof.
  revert s. induction n as [| n IH]; intros s; [intros [] |].
  cbn [findall_from]. destruct s as [| c r]; [intros [] |].
  destruct (match_attr (String c r)) as [[v0 rest] |] eqn:Hm.
  - apply match_attr_sound in Hm
      as (name & q1 & q2 & Hs & Hname & Hq1 & Hq2 & Hne & Hu).
    intros [<- | Hin].
    + split; [exact Hne |]. split; [exact Hu |].
      exists EmptyString, name, q1, q2, rest. auto.
    + destruct (IH rest Hin) as (H1 & H2 & H3).
      split; [exact H1 |]. split; [exact H2 |].
      rewrite Hs.
      replace (name ++ String q1 (v0 ++ String q2 rest))
        with ((name ++ String q1 (v0 ++ String q2 EmptyString)) ++ rest).
      * apply attr_value_in_later. exact H3.
      * rewrite append_assoc, append_cons, append_assoc. reflexivity.
  - intros Hin. destruct (IH r Hin) as (H1 & H2 & H3).
    split; [exact H1 |]. split; [exact H2 |].
    apply (attr_value_in_later v (String c EmptyString) r H3).
Qed.

(** X7.  Every value that the pattern scan of [page_links] extracts stands
    in the text between two quotes, which need not be of the same kind,
    right after [href=] or [src=]; it is not empty and holds no quote. *)
Theorem findall_links_sound (html v : string) :
  In v (findall_links html) ->
  v <> EmptyString /\ unquoted v /\ attr_value_in v html.
Proof. apply findall_from_sound. Qed.

Lemma findall_links_sound_witness :
  "/a/b.pdf" <> EmptyString /\ unquoted "/a/b.pdf"
  /\ attr_value_in "/a/b.pdf" "<a href='/a/b.pdf'>b</a>".
Proof.
  apply findall_links_sound. left. reflexivity.
Defined.

(** ** Where artifacts go *)

Lemma length_append (a b : string) :
  String.length (a ++ b) = String.length a + String.length b.
Proof.
  induction a as [| c a IH]; [reflexivity |].
  rewrite append_cons. cbn [String.length]. rewrite IH. reflexivity.
Qed.

Lemma pick_ext_by_ct_length (ct : option string) :
  4 <= String.length (pick_ext_by_ct ct).
Proof.
  pose proof (pick_ext_by_ct_range ct) as H. cbn [In] in H.
  repeat (destruct H as [<- | H]; [cbn; lia |]). destruct H.
Qed.

(** X8.  The sidecar that the navigable branch and the empty-binary outcome
    write for a page never shares its path with the sidecar of a downloaded
    file, whatever the two URLs, the same one included: the names differ in
    length.  HTML bodies, binary files and sidecars live in three
    directories, so no path of one kind is a path of another. *)
Theorem sidecar_paths_apart (u f x y : string) (ctype : option string) :
  path_join OUTPUT_META (safe_filename u ".json")
  <> path_join OUTPUT_META (safe_filename f (pick_ext_by_ct ctype) ++ ".json")
  /\ path_join OUTPUT_HTML x <> path_join OUTPUT_FILES y
  /\ path_join OUTPUT_HTML x <> path_join OUTPUT_META y
  /\ path_join OUTPUT_FILES x <> path_join OUTPUT_META y.
Proof.
  split; [| repeat split; intros H; cbv in H; discriminate H].
  intros H. apply (f_equal String.length) in H.
  unfold path_join, safe_filename in H.
  rewrite !length_append, !url_hash_length in H.
  pose proof (pick_ext_by_ct_length ctype). cbn in H. lia.
Qed.

(** ** The seed stage, continued *)

(** X9.  When the render stage returns no page without raising, and the
    fallback gives none either, the seed ends after the two calls: no page
    is processed and, unlike after an exception of the render stage, nothing
    is appended to the log. *)
Theorem silent_skip_of_empty_render (E : Env) (cfg : Config) (seed : string)
    (st : state) :
  render_attempt E st seed = inr [] ->
  fallback_pages E (push (EvRender seed) st) seed = [] ->
  process_seed E cfg seed st
  = (Done tt, push (EvFallback seed) (push (EvRender seed) st))
  /\ log_lines [EvRender seed; EvFallback seed] = [].
Proof.
  intros Hr Hf. rewrite process_seed_unfold. cbv zeta. rewrite Hr, Hf.
  split; reflexivity.
Qed.

Lemma silent_skip_of_empty_render_witness :
  process_seed (Fixture.with_arun (fun _ _ => inr ResNone) Fixture.offline)
               Fixture.open_policy "https://h/" Fixture.start
  = (Done tt, push (EvFallback "https://h/") (push (EvRender "https://h/") Fixture.start))
  /\ log_lines [EvRender "https://h/"; EvFallback "https://h/"] = [].
Proof.
  apply silent_skip_of_empty_render; reflexivity.
Defined.

Lemma split_slash_length (s : string) : length (split_slash s) = S (count_slash s).
Proof.
  induction s as [| c r IH]; [reflexivity |].
  cbn [split_slash count_slash]. destruct (Ascii.eqb c "/"%char).
  - cbn [length]. rewrite IH. reflexivity.
  - destruct (split_slash r) as [| w ws]; [discriminate IH | exact IH].
Qed.

Lemma split_slash_app (a b : string) :
  count_slash a = 0 -> split_slash (a ++ "/" ++ b) = a :: split_slash b.
Proof.
  induction a as [| c a IH]; [reflexivity |].
  cbn [count_slash]. rewrite append_cons. cbn [split_slash].
  destruct (Ascii.eqb c "/"%char); [discriminate |].
  intros H. rewrite (IH H). reflexivity.
Qed.

Lemma split_slash_last (a : string) : count_slash a = 0 -> split_slash a = [a].
Proof.
  induction a as [| c a IH]; [reflexivity |].
  cbn [count_slash split_slash].
  destruct (Ascii.eqb c "/"%char); [discriminate |].
  intros H. rewrite (IH H). reflexivity.
Qed.

(** X10.  The fallback gives no page exactly when its GET raises or the seed
    holds fewer than two slashes (the [IndexError] of [url.split("/")[2]] is
    swallowed with the rest). *)
Theorem fallback_pages_none (E : Env) (st : state) (seed : string) :
  fallback_pages E st seed = []
  <-> get_text E (clock st) seed = None \/ count_slash seed < 2.
Proof.
  unfold fallback_pages, pseudo_page.
  destruct (get_text E (clock st) seed) as [[[status ctype] text] |].
  - destruct (nth_error (split_slash seed) 2) as [d |] eqn:Hd.
    + assert (Hlt : 2 < length (split_slash seed))
        by (apply nth_error_Some; congruence).
      rewrite split_slash_length in Hlt.
      split; [discriminate | intros [H | H]; [discriminate | lia]].
    + apply nth_error_None in Hd. rewrite split_slash_length in Hd.
      split; [intros _; right; lia | reflexivity].
  - split; [left; reflexivity | reflexivity].
Qed.

(** X11.  The domain of a fallback page is the text between the second and
    the third slash of the seed, or all that follows the second slash when
    there is no third: it is the host only if a path follows the host. *)
Theorem pseudo_page_domain (a b h rest : string) (status : Z)
    (ctype : option string) (text : string) :
  count_slash a = 0 -> count_slash b = 0 -> count_slash h = 0 ->
  (p_domain <$> pseudo_page (a ++ "/" ++ b ++ "/" ++ h) status ctype text) = Some (Some h)
  /\ (p_domain <$> pseudo_page (a ++ "/" ++ b ++ "/" ++ h ++ "/" ++ rest) status ctype text)
     = Some (Some h).
Proof.
  intros Ha Hb Hh. unfold pseudo_page.
  rewrite !(split_slash_app a) by exact Ha.
  rewrite !(split_slash_app b) by exact Hb.
  rewrite (split_slash_app h) by exact Hh.
  rewrite (split_slash_last h) by exact Hh.
  split; reflexivity.
Qed.

Lemma pseudo_page_domain_witness :
  (p_domain <$> pseudo_page ("https:" ++ "/" ++ EmptyString ++ "/" ++ "h?x=1") 200%Z None EmptyString)
  = Some (Some "h?x=1")
  /\ (p_domain <$> pseudo_page ("https:" ++ "/" ++ EmptyString ++ "/" ++ "h?x=1" ++ "/" ++ "p/q")
                               200%Z None EmptyString)
     = Some (Some "h?x=1").
Proof.
  apply pseudo_page_domain; reflexivity.
Defined.

(** X12.  A page that comes from the fallback is navigable as soon as the
    text of the response holds a character that is not white space,
    whatever the Content-Type: the text is its HTML, and its links are those
    of the pattern scan alone.  Only a blank text leaves the decision to the
    Content-Type. *)
Theorem fallback_page_navigable (decode : list Byte.byte -> string)
    (url : string) (status : Z) (ctype : option string) (text : string) (p : page) :
  pseudo_page url status ctype text = Some p ->
  (PyStr.truthy (PyStr.strip text) = true ->
   page_html_text decode p = Some text
   /\ page_is_html decode p = true
   /\ page_links decode p
      = Done (LinkSpec.first_seen (LinkSpec.trimmed (map IStr (findall_links text)))))
  /\ (PyStr.truthy (PyStr.strip text) = false ->
      page_html_text decode p = None
      /\ page_is_html decode p
         = match ctype with
           | Some ct => PyStr.truthy ct && PyStr.contains "html" (PyStr.lower ct)
           | None => false
           end).
Proof.
  unfold pseudo_page.
  destruct (nth_error (split_slash url) 2) as [d |]; [| discriminate].
  intros H. injection H as <-.
  assert (Ht : page_html_text decode
                 (mkPage (Some url) (Some status) ctype None (Some d)
                         [("html", TStr text)] [])
               = if PyStr.truthy (PyStr.strip text) then Some text else None).
  { unfold page_html_text, text_attrs. rewrite first_text_step.
    cbn [getattr_text assoc p_text text_of String.eqb Ascii.eqb Bool.eqb].
    change (("html" =? "html")%string) with true. cbv iota. cbn [text_of].
    destruct (PyStr.truthy (PyStr.strip text)); reflexivity. }
  split; intros Hb; rewrite Hb in Ht.
  - split; [exact Ht |]. split.
    + unfold page_is_html. rewrite Ht. cbn [opt_truthy].
      destruct text; [discriminate Hb | reflexivity].
    + unfold page_links, candidates, scan_candidates. rewrite Ht.
      cbn [attr_candidates link_attrs getattr_links assoc p_links app].
      rewrite dedup_loop_first_seen, filter_fresh_empty.
      destruct text; [discriminate Hb | reflexivity].
  - split; [exact Ht |].
    unfold page_is_html, page_content_type. rewrite Ht. cbn [opt_truthy p_content_type p_mime_type].
    destruct ctype as [[| c ct] |]; reflexivity.
Qed.

Lemma fallback_page_navigable_witness :
  page_html_text string_of_list_byte
    (mkPage (Some "https://h/f.pdf") (Some 200%Z) (Some "application/pdf") None (Some "h")
            [("html", TStr "%PDF-1.4")] [])
  = Some "%PDF-1.4"
  /\ page_is_html string_of_list_byte
       (mkPage (Some "https://h/f.pdf") (Some 200%Z) (Some "application/pdf") None (Some "h")
               [("html", TStr "%PDF-1.4")] []) = true
  /\ page_links string_of_list_byte
       (mkPage (Some "https://h/f.pdf") (Some 200%Z) (Some "application/pdf") None (Some "h")
               [("html", TStr "%PDF-1.4")] [])
     = Done (LinkSpec.first_seen (LinkSpec.trimmed (map IStr (findall_links "%PDF-1.4")))).
Proof.
  apply (proj1 (fallback_page_navigable string_of_list_byte "https://h/f.pdf" 200%Z
                  (Some "application/pdf") "%PDF-1.4" _ eq_refl)).
  reflexivity.
Defined.

(** ** The loop over the file links *)

(** X13.  One file link.  A link that [urljoin] rejects raises out of the
    loop.  A download that raises or brings an empty body leaves the request
    and one [FileError] line, and nothing else.  A body that is not empty is
    saved whatever the status of the response: the file, then its sidecar,
    which records the resolved URL, the status, the path of the file and
    the page it was discovered from; then the file counter moves. *)
Theorem download_link_outcomes (E : Env) (u : string) (dom : option string)
    (raw : string) (st : state) :
  match urljoin E u raw with
  | None => download_link E u dom raw st = (Raised (ValueError raw), st)
  | Some f =>
      let st1 := push (EvPage u (Download f)) st in
      match get_bytes E (clock st) f with
      | Some (b :: body, ctype, status) =>
          artifact_writes_ok E ->
          let name := safe_filename f (pick_ext_by_ct ctype) in
          let path := path_join OUTPUT_FILES name in
          let st2 := push (EvPage u (WriteFile path (b :: body))) st1 in
          let meta :=
            mkPageMeta f (clock st2) (Some status) ctype (Some path) None [] dom
                       (Some ("discovered from " ++ u)) in
          let st3 :=
            push (EvPage u (WriteMeta (path_join OUTPUT_META (name ++ ".json")) meta))
                 st2 in
          download_link E u dom raw st
          = (Done tt, mkState (seen st) (fetched_count st) (S (file_count st))
                              (html_count st) (trace st3))
      | _ =>
          write_ok E (clock st1) LOG_PATH = true ->
          download_link E u dom raw st
          = (Done tt, push (EvPage u (Log (FileError f))) st1)
      end
  end.
Proof.
  destruct (urljoin E u raw) as [f |] eqn:Hj;
    [| unfold download_link; rewrite Hj; reflexivity].
  cbv zeta.
  assert (Hfail : (forall body ctype status,
                     get_bytes E (clock st) f = Some (body, ctype, status) -> body = []) ->
                  write_ok E (clock (push (EvPage u (Download f)) st)) LOG_PATH = true ->
                  download_link E u dom raw st
                  = (Done tt, push (EvPage u (Log (FileError f)))
                                   (push (EvPage u (Download f)) st))).
  { intros Hempty Hlog. unfold download_link. rewrite Hj.
    unfold bind, download_file. cbn [emit].
    destruct (get_bytes E (clock st) f) as [[[body ctype] status] |].
    - rewrite (Hempty _ _ _ eq_refl). cbn [is_nil].
      unfold append_log, write_at. rewrite Hlog. reflexivity.
    - cbn [is_nil]. unfold append_log, write_at. rewrite Hlog. reflexivity. }
  destruct (get_bytes E (clock st) f) as [[[[| b body] ctype] status] |] eqn:Hg.
  - apply Hfail. intros body' c' s' H. injection H as <- _ _. reflexivity.
  - intros Hw. unfold download_link. rewrite Hj.
    unfold bind, download_file. cbn [emit]. rewrite Hg. cbn [is_nil].
    unfold write_bytes, write_meta, get.
    rewrite (write_at_ok E Hw) by apply artifact_path_not_seen.
    rewrite (write_at_ok E Hw) by apply artifact_path_not_seen.
    reflexivity.
  - apply Hfail. discriminate.
Qed.

Lemma download_link_outcomes_witness :
  download_link Fixture.two_pages "https://h/a" (Some "h") "/f.pdf" Fixture.start
  = (Done tt,
     mkState ∅ 0 1 0
       [EvPage "https://h/a" (Download "https://h/f.pdf");
        EvPage "https://h/a"
          (WriteFile "output_raw/files/e212b9ac9509cba9.pdf" [Byte.x25]);
        EvPage "https://h/a"
          (WriteMeta "output_raw/meta/e212b9ac9509cba9.pdf.json"
             (mkPageMeta "https://h/f.pdf" 2 (Some 200%Z) (Some "application/pdf")
                (Some "output_raw/files/e212b9ac9509cba9.pdf") None [] (Some "h")
                (Some "discovered from https://h/a")))]).
Proof.
  pose proof (download_link_outcomes Fixture.two_pages "https://h/a" (Some "h")
                "/f.pdf" Fixture.start) as H.
  vm_compute in H |- *. apply H. intros n path _. reflexivity.
Defined.

(** ** Invariants of a run *)

Section PreservesRules.
Context (I : state -> Prop).

Lemma preserves_ret {A} (a : A) : preserves I (ret a).
Proof. intros st H. exact H. Qed.

Lemma preserves_raise {A} (e : exn) : preserves I (@raise A e).
Proof. intros st H. exact H. Qed.

Lemma preserves_lift {A} (o : outcome A) : preserves I (lift o).
Proof. intros st H. exact H. Qed.

Lemma preserves_get {A} (f : state -> A) : preserves I (get f).
Proof. intros st H. exact H. Qed.

Lemma preserves_bind {A B} (m : M A) (k : A -> M B) :
  preserves I m -> (forall a, preserves I (k a)) -> preserves I (bind m k).
Proof.
  intros Hm Hk st H. unfold bind. specialize (Hm st H).
  destruct (m st) as [[a | e] st1]; cbn [snd] in *; [apply Hk |]; exact Hm.
Qed.

Lemma preserves_for_each {A} (xs : list A) (body : A -> M unit) :
  (forall x, preserves I (body x)) -> preserves I (for_each xs body).
Proof.
  intros Hb. induction xs as [| x xs IH]; cbn [for_each].
  - apply preserves_ret.
  - apply preserves_bind; [apply Hb | intros _; exact IH].
Qed.

Lemma preserves_write_at (E : Env) (path : string) (e : event) :
  (forall st, I st -> I (push e st)) -> preserves I (write_at E path e).
Proof.
  intros He st H. unfold write_at.
  destruct (write_ok E (clock st) path); [apply He |]; exact H.
Qed.

Lemma preserves_download_file (E : Env) (owner f_url : string) :
  (forall st, I st -> I (push (EvPage owner (Download f_url)) st)) ->
  preserves I (download_file E owner f_url).
Proof. intros He st H. apply He. exact H. Qed.

Lemma preserves_persist_seen (E : Env) :
  (forall st, I st -> I (push (EvPersistSeen (seen st)) st)) ->
  preserves I (persist_seen E).
Proof.
  intros He st H. unfold persist_seen.
  destruct (write_ok E (clock st) SEEN_PATH); [apply He |]; exact H.
Qed.

End PreservesRules.

Section StableRun.
Context (E : Env) (cfg : Config) (I : state -> Prop).
Hypothesis HI : stable I.

Lemma stable_plain (e : event) : plain e -> forall st, I st -> I (push e st).
Proof using HI. intros He st. apply (proj1 HI). exact He. Qed.

Lemma stable_incr_file : preserves I incr_file.
Proof using HI. intros st H. apply (proj2 (proj2 (proj2 HI))). exact H. Qed.

Lemma stable_incr_html : preserves I incr_html.
Proof using HI. intros st H. apply (proj2 (proj2 (proj2 HI))). exact H. Qed.

Ltac stable_step :=
  lazymatch goal with
  | |- preserves _ (bind _ _) => apply preserves_bind; [| intros ?]
  | |- preserves _ (ret _) => apply preserves_ret
  | |- preserves _ (raise _) => apply preserves_raise
  | |- preserves _ (get _) => apply preserves_get
  | |- preserves _ (lift _) => apply preserves_lift
  | |- preserves _ incr_file => apply stable_incr_file
  | |- preserves _ incr_html => apply stable_incr_html
  | |- preserves _ (for_each _ _) => apply preserves_for_each; intros ?
  | |- preserves _ (write_text _ _ _ _) =>
      apply preserves_write_at; apply stable_plain; exact Logic.I
  | |- preserves _ (write_bytes _ _ _ _) =>
      apply preserves_write_at; apply stable_plain; exact Logic.I
  | |- preserves _ (write_meta _ _ _ _) =>
      apply preserves_write_at; apply stable_plain; exact Logic.I
  | |- preserves _ (append_log _ _ _) =>
      apply preserves_write_at; apply stable_plain; exact Logic.I
  | |- preserves _ (download_file _ _ _) =>
      apply preserves_download_file; apply stable_plain; exact Logic.I
  | |- preserves _ (persist_seen _) =>
      apply preserves_persist_seen; exact (proj1 (proj2 HI))
  | |- preserves _ (match ?x with _ => _ end) => destruct x
  end.

Lemma stable_classify (u : string) (pg : page) :
  preserves I (classify_and_persist E cfg u pg).
Proof using HI.
  unfold classify_and_persist, html_branch, direct_branch, fetch_direct, save_direct,
    log_and_checkpoint, download_link.
  repeat stable_step.
Qed.

Lemma stable_process_page (pg : page) : preserves I (process_page E cfg pg).
Proof using HI.
  intros st H. rewrite process_page_unfold.
  destruct (p_url pg) as [u |]; [| exact H].
  destruct (PyStr.truthy u); cbn [negb]; [| exact H].
  destruct (bool_decide_reflect (u ∈ seen st)) as [Hin | Hnew]; [exact H |].
  destruct (accepts E cfg u) as [[|] | e]; [| exact H | exact H].
  apply stable_classify.
  assert (H1 : I (mkState ({[u]} ∪ seen st) (fetched_count st) (file_count st)
                          (html_count st) (trace st ++ [EvSeenAdd u])))
    by (apply (proj1 (proj2 (proj2 HI))); assumption).
  exact (proj2 (proj2 (proj2 HI)) _ (S (fetched_count st)) (file_count st)
               (html_count st) H1).
Qed.

(** A stable property that holds when [main] enters the crawl holds when it
    leaves, however it leaves. *)
Lemma stable_main (seeds : list string) (seen0 : gset string) :
  I (mkState seen0 0 0 0 []) -> I (snd (main E cfg seeds seen0)).
Proof using HI.
  intros H0. unfold main, bind.
  assert (Hc : I (snd (crawl E cfg seeds (mkState seen0 0 0 0 [])))).
  { apply (crawl_invariant E cfg I); [| | | | exact H0].
    - intros seed. apply stable_plain. exact Logic.I.
    - intros seed msg. apply stable_plain. exact Logic.I.
    - intros seed. apply stable_plain. exact Logic.I.
    - intros pg. apply stable_process_page. }
  destruct (crawl E cfg seeds _) as [[[] | e] st1]; cbn [snd] in *; [| exact Hc].
  apply (preserves_persist_seen I E (proj1 (proj2 HI))). exact Hc.
Qed.

End StableRun.

Lemma insertions_app (e1 e2 : list event) :
  insertions (e1 ++ e2) = (insertions e1 ++ insertions e2)%list.
Proof.
  induction e1 as [| e e1 IH]; [reflexivity |].
  destruct e; cbn [insertions app]; try exact IH. f_equal. exact IH.
Qed.

Lemma insertions_plain (e : event) (tr : list event) :
  (forall u, e <> EvSeenAdd u) -> insertions (tr ++ [e])%list = insertions tr.
Proof.
  intros He. rewrite insertions_app.
  destruct e; cbn [insertions]; try apply app_nil_r. destruct (He url eq_refl).
Qed.

Lemma plain_not_insertion (e : event) : plain e -> forall u, e <> EvSeenAdd u.
Proof. intros He u ->. exact He. Qed.

Lemma frontier_grows_stable (seen0 : gset string) : stable (frontier_grows seen0).
Proof.
  unfold stable, frontier_grows. split; [| split; [| split]].
  - intros e st He H. cbn [push seen trace].
    rewrite (insertions_plain e _ (plain_not_insertion e He)). exact H.
  - intros st H. cbn [push seen trace].
    rewrite insertions_plain by discriminate. exact H.
  - intros u st (Hs & Hnd & Hnew) Hu. cbn [seen trace].
    rewrite insertions_app. cbn [insertions]. split; [| split].
    + rewrite list_to_set_app_L, Hs. cbn [list_to_set].
      apply set_eq. intros x.
      rewrite !elem_of_union, elem_of_singleton, elem_of_empty. tauto.
    + apply NoDup_app. split; [exact Hnd |]. split; [| apply NoDup_singleton].
      intros x Hx Hx'. apply list_elem_of_In in Hx'. destruct Hx' as [<- | []].
      apply Hu. rewrite Hs. apply elem_of_union. right.
      apply elem_of_list_to_set. exact Hx.
    + intros v Hv. apply in_app_iff in Hv as [Hv | [<- | []]]; [exact (Hnew v Hv) |].
      intros Hin. apply Hu. rewrite Hs. apply elem_of_union. left. exact Hin.
  - intros st f c h H. exact H.
Qed.

(** X14.  During a run no URL is inserted twice in the frontier and none
    that the loaded frontier holds; the frontier at the end is the loaded
    one plus the URLs inserted, so it has grown by their number.  This
    holds however the run ends. *)
Theorem frontier_growth (E : Env) (cfg : Config) (seeds : list string)
    (seen0 : gset string) :
  seen (snd (main E cfg seeds seen0))
  = seen0 ∪ list_to_set (insertions (trace (snd (main E cfg seeds seen0))))
  /\ NoDup (insertions (trace (snd (main E cfg seeds seen0))))
  /\ (forall u, In u (insertions (trace (snd (main E cfg seeds seen0)))) -> u ∉ seen0)
  /\ size (seen (snd (main E cfg seeds seen0)))
     = size seen0 + length (insertions (trace (snd (main E cfg seeds seen0)))).
Proof.
  assert (H : frontier_grows seen0 (snd (main E cfg seeds seen0))).
  { apply stable_main; [apply frontier_grows_stable |].
    split; [| split]; cbn.
    - rewrite union_empty_r_L. reflexivity.
    - constructor.
    - intros u []. }
  destruct H as (Hs & Hnd & Hnew). split; [exact Hs |]. split; [exact Hnd |].
  split; [exact Hnew |].
  rewrite Hs, size_union, size_list_to_set by
    first [exact Hnd
          | intros x Hx Hx'; apply elem_of_list_to_set, list_elem_of_In in Hx';
            exact (Hnew x Hx' Hx)].
  reflexivity.
Qed.

Lemma take_push (i : nat) (e : event) (tr : list event) :
  i <= length tr -> take i (tr ++ [e])%list = take i tr.
Proof. intros H. rewrite take_app_le by exact H. reflexivity. Qed.

Lemma lookup_push (i : nat) (e e' : event) (tr : list event) :
  (tr ++ [e])%list !! i = Some e' ->
  (i < length tr /\ tr !! i = Some e') \/ (i = length tr /\ e' = e).
Proof.
  intros H. apply lookup_app_Some in H as [H | [Hi H]].
  - left. split; [exact (lookup_lt_Some _ _ _ H) | exact H].
  - right. destruct (i - length tr) as [| k] eqn:Hk; [| destruct k; discriminate H].
    injection H as <-. split; [lia | reflexivity].
Qed.

Lemma checkpoints_exact_stable (seen0 : gset string) : stable (checkpoints_exact seen0).
Proof.
  unfold stable, checkpoints_exact. split; [| split; [| split]].
  - intros e st He (Hs & Hck). cbn [push seen trace].
    rewrite (insertions_plain e _ (plain_not_insertion e He)).
    split; [exact Hs |]. intros i s Hi.
    apply lookup_push in Hi as [[Hlt Hi] | [_ <-]]; [| destruct He].
    rewrite take_push by lia. exact (Hck i s Hi).
  - intros st (Hs & Hck). cbn [push seen trace].
    rewrite insertions_plain by discriminate.
    split; [exact Hs |]. intros i s Hi.
    apply lookup_push in Hi as [[Hlt Hi] | [-> Heq]].
    + rewrite take_push by lia. exact (Hck i s Hi).
    + injection Heq as ->. rewrite take_app_length. exact Hs.
  - intros u st (Hs & Hck) Hu. cbn [seen trace].
    rewrite insertions_app. cbn [insertions]. split.
    + rewrite list_to_set_app_L, Hs. cbn [list_to_set].
      apply set_eq. intros x.
      rewrite !elem_of_union, elem_of_singleton, elem_of_empty. tauto.
    + intros i s Hi.
      apply lookup_push in Hi as [[Hlt Hi] | [_ Heq]]; [| discriminate Heq].
      rewrite take_push by lia. exact (Hck i s Hi).
  - intros st f c h H. exact H.
Qed.

Lemma insertions_take_subseteq (i : nat) (tr : list event) :
  (list_to_set (insertions (take i tr)) : gset string)
  ⊆ list_to_set (insertions tr).
Proof.
  replace (insertions tr) with (insertions (take i tr ++ skipn i tr)%list)
    by (rewrite take_drop; reflexivity).
  rewrite insertions_app, list_to_set_app_L.
  apply union_subseteq_l.
Qed.

(** X15.  Every write of the frontier file, the checkpoints and the final
    one, holds exactly the loaded frontier and the URLs inserted before it:
    it never loses a URL of the loaded frontier and never runs ahead of the
    frontier in memory. *)
Theorem checkpoints_hold_frontier (E : Env) (cfg : Config) (seeds : list string)
    (seen0 : gset string) (i : nat) (s : gset string) :
  trace (snd (main E cfg seeds seen0)) !! i = Some (EvPersistSeen s) ->
  s = seen0 ∪ list_to_set (insertions (take i (trace (snd (main E cfg seeds seen0)))))
  /\ seen0 ⊆ s
  /\ s ⊆ seen (snd (main E cfg seeds seen0)).
Proof.
  intros Hi.
  assert (H : checkpoints_exact seen0 (snd (main E cfg seeds seen0))).
  { apply stable_main; [apply checkpoints_exact_stable |].
    split; cbn.
    - rewrite union_empty_r_L. reflexivity.
    - intros j t Hj. discriminate Hj. }
  destruct H as (Hs & Hck). specialize (Hck i s Hi).
  split; [exact Hck |]. split.
  - rewrite Hck. apply union_subseteq_l.
  - rewrite Hck, Hs. apply union_mono_l. apply insertions_take_subseteq.
Qed.

Lemma checkpoints_hold_frontier_witness :
  seen (snd (main Fixture.two_pages Fixture.open_policy ["https://h/"] ∅))
  = ∅ ∪ list_to_set
          (insertions
             (take 15 (trace (snd (main Fixture.two_pages Fixture.open_policy
                                     ["https://h/"] ∅)))))
  /\ ∅ ⊆ seen (snd (main Fixture.two_pages Fixture.open_policy ["https://h/"] ∅))
  /\ seen (snd (main Fixture.two_pages Fixture.open_policy ["https://h/"] ∅))
     ⊆ seen (snd (main Fixture.two_pages Fixture.open_policy ["https://h/"] ∅)).
Proof.
  apply (checkpoints_hold_frontier Fixture.two_pages Fixture.open_policy
           ["https://h/"] ∅ 15).
  vm_compute. reflexivity.
Defined.

(** ** The counters *)

Lemma html_writes_app (e1 e2 : list event) :
  html_writes (e1 ++ e2) = html_writes e1 + html_writes e2.
Proof.
  induction e1 as [| e e1 IH]; [reflexivity |].
  destruct e as [| | | | u [] |]; cbn [html_writes app]; try exact IH.
  rewrite IH. reflexivity.
Qed.

Lemma file_sidecars_app (e1 e2 : list event) :
  file_sidecars (e1 ++ e2) = file_sidecars e1 + file_sidecars e2.
Proof.
  induction e1 as [| e e1 IH]; [reflexivity |].
  destruct e as [| | | | u [] |]; cbn [file_sidecars app]; try exact IH.
  destruct (m_file_path meta); [rewrite IH; reflexivity | exact IH].
Qed.

Lemma counters_uncounted (e : event) (st : state) :
  uncounted e -> counters_agree st -> counters_agree (push e st).
Proof.
  unfold counters_agree. intros He (Hf & Hh & Hc). cbn [push fetched_count html_count file_count trace].
  rewrite insertions_app, html_writes_app, file_sidecars_app, length_app.
  destruct e as [| | | | u [] |]; cbn in He |- *; try contradiction;
    try rewrite He; cbn; repeat split; lia.
Qed.

Section Counters.
Context (E : Env) (cfg : Config).

Lemma counters_write (path : string) (e : event) :
  uncounted e -> preserves counters_agree (write_at E path e).
Proof. intros He. apply preserves_write_at. intros st. apply counters_uncounted. exact He. Qed.

(** The HTML body and its counter move together. *)
Lemma counters_html_write {A} (u path text : string) (x : A) :
  preserves counters_agree
    (bind (write_text E u path text) (fun _ => bind incr_html (fun _ => ret x))).
Proof.
  intros st (Hf & Hh & Hc). unfold bind, write_text, write_at.
  destruct (write_ok E (clock st) path); [| repeat split; assumption].
  unfold counters_agree. cbn.
  rewrite insertions_app, html_writes_app, file_sidecars_app, length_app. cbn.
  repeat split; lia.
Qed.

(** The sidecar of a saved file and the file counter move together. *)
Lemma counters_file_sidecar (u path : string) (m : PageMeta) :
  m_file_path m <> None ->
  preserves counters_agree (bind (write_meta E u path m) (fun _ => incr_file)).
Proof.
  intros Hm st (Hf & Hh & Hc). unfold bind, write_meta, write_at.
  destruct (write_ok E (clock st) path); [| repeat split; assumption].
  unfold counters_agree. cbn.
  rewrite insertions_app, html_writes_app, file_sidecars_app, length_app. cbn.
  destruct (m_file_path m); [| contradiction]. repeat split; lia.
Qed.

Ltac counters_step :=
  lazymatch goal with
  | |- preserves _ (bind (write_text _ _ _ _) _) => apply counters_html_write
  | |- preserves _ (bind (write_meta _ _ _ _) (fun _ => incr_file)) =>
      apply counters_file_sidecar; discriminate
  | |- preserves _ (bind _ _) => apply preserves_bind; [| intros ?]
  | |- preserves _ (ret _) => apply preserves_ret
  | |- preserves _ (raise _) => apply preserves_raise
  | |- preserves _ (get _) => apply preserves_get
  | |- preserves _ (lift _) => apply preserves_lift
  | |- preserves _ (for_each _ _) => apply preserves_for_each; intros ?
  | |- preserves _ (write_bytes _ _ _ _) => apply counters_write; exact I
  | |- preserves _ (write_meta _ _ _ _) => apply counters_write; reflexivity
  | |- preserves _ (append_log _ _ _) => apply counters_write; exact I
  | |- preserves _ (download_file _ _ _) =>
      apply preserves_download_file; intros ?; apply counters_uncounted; exact I
  | |- preserves _ (persist_seen _) =>
      apply preserves_persist_seen; intros ?; apply counters_uncounted; exact I
  | |- preserves _ (match ?x with _ => _ end) => destruct x
  end.

Lemma counters_classify (u : string) (pg : page) :
  preserves counters_agree (classify_and_persist E cfg u pg).
Proof.
  unfold classify_and_persist, html_branch, direct_branch, fetch_direct, save_direct,
    log_and_checkpoint, download_link.
  repeat counters_step.
Qed.

Lemma counters_process_page (pg : page) :
  preserves counters_agree (process_page E cfg pg).
Proof.
  intros st H. rewrite process_page_unfold.
  destruct (p_url pg) as [u |]; [| exact H].
  destruct (PyStr.truthy u); cbn [negb]; [| exact H].
  destruct (bool_decide (u ∈ seen st)); [exact H |].
  destruct (accepts E cfg u) as [[|] | e]; [| exact H | exact H].
  apply counters_classify. destruct H as (Hf & Hh & Hc).
  unfold counters_agree, accept. cbn.
  rewrite insertions_app, html_writes_app, file_sidecars_app, length_app. cbn.
  repeat split; lia.
Qed.

End Counters.

(** X16.  However the run ends, the three counters that [main] prints agree
    with what was done: the pages fetched are the insertions in the
    frontier, the HTML saved are the HTML bodies written, and the files
    saved are the sidecars written for a saved file (a file whose sidecar
    could not be written is not counted). *)
Theorem counters_match_effects (E : Env) (cfg : Config) (seeds : list string)
    (seen0 : gset string) :
  fetched_count (snd (main E cfg seeds seen0))
  = length (insertions (trace (snd (main E cfg seeds seen0))))
  /\ html_count (snd (main E cfg seeds seen0))
     = html_writes (trace (snd (main E cfg seeds seen0)))
  /\ file_count (snd (main E cfg seeds seen0))
     = file_sidecars (trace (snd (main E cfg seeds seen0))).
Proof.
  apply (main_invariant E cfg counters_agree).
  - intros seed st. apply counters_uncounted. exact I.
  - intros seed msg st. apply counters_uncounted. exact I.
  - intros seed st. apply counters_uncounted. exact I.
  - intros s st. apply counters_uncounted. exact I.
  - intros pg. apply counters_process_page.
  - repeat split.
Qed.

(** ** The checkpoints of the frontier *)

Lemma on_schedule_push (e : event) (st : state) :
  (forall u, e <> EvSeenAdd u) ->
  (forall s, e = EvPersistSeen s ->
     0 < fetched_count st /\ fetched_count st mod 100 = 0) ->
  on_schedule st -> on_schedule (push e st).
Proof.
  intros He Hp (Hf & Hck). unfold on_schedule. cbn [push fetched_count trace].
  rewrite (insertions_plain e _ He). split; [exact Hf |].
  intros i s Hi. apply lookup_push in Hi as [[Hlt Hi] | [-> Heq]].
  - rewrite take_push by lia. exact (Hck i s Hi).
  - rewrite take_app_length, <- Hf. apply (Hp s). symmetry. exact Heq.
Qed.

Lemma on_schedule_plain (e : event) (st : state) :
  plain e -> on_schedule st -> on_schedule (push e st).
Proof.
  intros He. apply on_schedule_push.
  - apply plain_not_insertion. exact He.
  - intros s ->. destruct He.
Qed.

Lemma on_schedule_accept (u : string) (st : state) :
  on_schedule st -> on_schedule (accept u st).
Proof.
  intros (Hf & Hck). unfold on_schedule, accept. cbn [fetched_count trace].
  rewrite insertions_app, length_app. cbn [insertions length]. split; [lia |].
  intros i s Hi. apply lookup_push in Hi as [[Hlt Hi] | [_ Heq]]; [| discriminate Heq].
  rewrite take_push by lia. exact (Hck i s Hi).
Qed.

Section Schedule.
Context (E : Env) (cfg : Config).

Lemma counted_plain (e : event) (st : state) :
  plain e -> counted st -> counted (push e st).
Proof. intros He [H Hpos]. split; [apply on_schedule_plain; assumption | exact Hpos]. Qed.

Lemma counted_incr_file : preserves counted incr_file.
Proof. intros st H. exact H. Qed.

Lemma counted_incr_html : preserves counted incr_html.
Proof. intros st H. exact H. Qed.

Lemma counted_log_and_checkpoint (u : string) (pg : page) :
  preserves counted (log_and_checkpoint E u pg).
Proof.
  unfold log_and_checkpoint. apply preserves_bind.
  - apply preserves_write_at. intros st. apply counted_plain. exact I.
  - intros _ st [H Hpos]. unfold bind, get.
    destruct (Nat.eqb_spec (fetched_count st mod 100) 0) as [Hmod | _];
      [| split; assumption].
    unfold persist_seen. destruct (write_ok E (clock st) SEEN_PATH);
      [| split; assumption].
    split; [| exact Hpos]. apply on_schedule_push; [discriminate | | exact H].
    intros _ _. split; assumption.
Qed.

Ltac counted_step :=
  lazymatch goal with
  | |- preserves _ (log_and_checkpoint _ _ _) => apply counted_log_and_checkpoint
  | |- preserves _ (bind _ _) => apply preserves_bind; [| intros ?]
  | |- preserves _ (ret _) => apply preserves_ret
  | |- preserves _ (raise _) => apply preserves_raise
  | |- preserves _ (get _) => apply preserves_get
  | |- preserves _ (lift _) => apply preserves_lift
  | |- preserves _ incr_file => apply counted_incr_file
  | |- preserves _ incr_html => apply counted_incr_html
  | |- preserves _ (for_each _ _) => apply preserves_for_each; intros ?
  | |- preserves _ (write_text _ _ _ _) =>
      apply preserves_write_at; intros ?; apply counted_plain; exact I
  | |- preserves _ (write_bytes _ _ _ _) =>
      apply preserves_write_at; intros ?; apply counted_plain; exact I
  | |- preserves _ (write_meta _ _ _ _) =>
      apply preserves_write_at; intros ?; apply counted_plain; exact I
  | |- preserves _ (append_log _ _ _) =>
      apply preserves_write_at; intros ?; apply counted_plain; exact I
  | |- preserves _ (download_file _ _ _) =>
      apply preserves_download_file; intros ?; apply counted_plain; exact I
  | |- preserves _ (match ?x with _ => _ end) => destruct x
  end.

Lemma counted_classify (u : string) (pg : page) :
  preserves counted (classify_and_persist E cfg u pg).
Proof.
  unfold classify_and_persist, html_branch, direct_branch, fetch_direct, save_direct,
    download_link.
  repeat counted_step.
Qed.

Lemma on_schedule_process_page (pg : page) :
  preserves on_schedule (process_page E cfg pg).
Proof.
  intros st H. rewrite process_page_unfold.
  destruct (p_url pg) as [u |]; [| exact H].
  destruct (PyStr.truthy u); cbn [negb]; [| exact H].
  destruct (bool_decide (u ∈ seen st)); [exact H |].
  destruct (accepts E cfg u) as [[|] | e]; [| exact H | exact H].
  apply counted_classify. split; [apply on_schedule_accept; exact H |].
  cbn. lia.
Qed.

Lemma on_schedule_crawl (seeds : list string) (seen0 : gset string) :
  on_schedule (snd (crawl E cfg seeds (mkState seen0 0 0 0 []))).
Proof.
  apply (crawl_invariant E cfg on_schedule).
  - intros seed st. apply on_schedule_plain. exact I.
  - intros seed msg st. apply on_schedule_plain. exact I.
  - intros seed st. apply on_schedule_plain. exact I.
  - intros pg. apply on_schedule_process_page.
  - split; [reflexivity |]. intros i s Hi. discriminate Hi.
Qed.

End Schedule.

(** X17.  The frontier file is written during the crawl only when the
    number of URLs inserted in this run has just reached a positive
    multiple of one hundred: every write of it that is not the last effect
    of a run that ends normally comes after that many insertions.  A run
    that an exception ends before its hundredth accepted page has therefore
    written no frontier at all. *)
Theorem checkpoint_schedule (E : Env) (cfg : Config) (seeds : list string)
    (seen0 : gset string) (i : nat) (s : gset string) :
  trace (snd (main E cfg seeds seen0)) !! i = Some (EvPersistSeen s) ->
  S i < length (trace (snd (main E cfg seeds seen0)))
  \/ (exists e, fst (main E cfg seeds seen0) = Raised e) ->
  0 < length (insertions (take i (trace (snd (main E cfg seeds seen0)))))
  /\ length (insertions (take i (trace (snd (main E cfg seeds seen0))))) mod 100 = 0.
Proof.
  pose proof (on_schedule_crawl E cfg seeds seen0) as [_ Hck].
  unfold main, bind.
  destruct (crawl E cfg seeds _) as [[[] | e] st1]; cbn [fst snd] in *;
    [| intros Hi _; exact (Hck i s Hi)].
  unfold persist_seen. destruct (write_ok E (clock st1) SEEN_PATH);
    [| intros Hi _; exact (Hck i s Hi)].
  cbn [emit fst snd push trace]. rewrite length_app. cbn [length].
  intros Hi [Hlt | [e He]]; [| discriminate He].
  apply lookup_push in Hi as [[_ Hi] | [-> _]]; [| lia].
  rewrite take_push by lia. exact (Hck i s Hi).
Qed.

Lemma checkpoint_schedule_witness :
  0 < length (insertions
                (take 301 (trace (snd (main (numbered_site 100) Fixture.open_policy
                                         ["https://h/"] ∅)))))
  /\ length (insertions
               (take 301 (trace (snd (main (numbered_site 100) Fixture.open_policy
                                        ["https://h/"] ∅))))) mod 100 = 0.
Proof.
  apply (checkpoint_schedule (numbered_site 100) Fixture.open_policy ["https://h/"] ∅ 301
           (list_to_set (map numbered_url (seq 0 100)))).
  - vm_compute. reflexivity.
  - left. vm_compute. lia.
Defined.

Lemma checkpoints_summary : summary checkpoints.
Proof.
  split; [reflexivity |]. intros e1 e2.
  induction e1 as [| e e1 IH]; [reflexivity |].
  destruct e; cbn [checkpoints app]; try exact IH. f_equal. exact IH.
Qed.

Lemma fetched_lines_summary : summary fetched_lines.
Proof.
  split; [reflexivity |]. intros e1 e2.
  induction e1 as [| e e1 IH]; [reflexivity |].
  destruct e as [| | | | u [| | | | []] |]; cbn [fetched_lines app]; try exact IH.
  f_equal. exact IH.
Qed.

Lemma fetched_lines_quiet (u : string) (a : io) :
  (forall url status, a <> Log (Fetched url status)) -> fetched_lines [EvPage u a] = [].
Proof.
  intros Ha. destruct a as [| | | | []]; try reflexivity. destruct (Ha url status eq_refl).
Qed.

(** Steps that contribute nothing to a summary that skips the effects of
    pages other than the status line. *)
Ltac quiet_step Hh Hq :=
  first
    [ apply yields_seq_silent; [exact Hh | | intros ?]
    | apply yields_write_at;
        [ assumption
        | first [exact log_path_not_seen | apply artifact_path_not_seen]
        | apply Hq; intros; discriminate ]
    | apply yields_get; intros; exact (proj1 Hh)
    | apply yields_ret; exact (proj1 Hh)
    | apply yields_incr_file; exact (proj1 Hh)
    | apply yields_incr_html; exact (proj1 Hh)
    | apply yields_download_file; intros; apply Hq; intros; discriminate ].

Section QuietBranches.
Context (E : Env) (cfg : Config) {X : Type} (h : list event -> list X).
Hypothesis Hwrites : artifact_writes_ok E.
Hypothesis Hh : summary h.
Hypothesis Hq :
  forall u a, (forall url status, a <> Log (Fetched url status)) -> h [EvPage u a] = [].

Lemma download_link_quiet (u : string) (dom : option string) (raw : string) :
  urljoin E u raw <> None ->
  yields (fun _ evs => h evs = []) (download_link E u dom raw).
Proof using Hwrites Hh Hq.
  intros Hjoin. unfold download_link.
  destruct (urljoin E u raw) as [f |]; [| destruct (Hjoin eq_refl)].
  quiet_step Hh Hq; [quiet_step Hh Hq |].
  destruct a as [[content ctype] status].
  destruct (is_nil content); repeat quiet_step Hh Hq.
Qed.

Lemma html_branch_quiet (u : string) (pg : page) :
  links_followable E cfg u pg ->
  yields (fun _ evs => h evs = []) (html_branch E cfg u pg).
Proof using Hwrites Hh Hq.
  intros (links & Hpl & Hjoin). unfold html_branch. rewrite Hpl.
  quiet_step Hh Hq; [destruct (PyStr.truthy _); repeat quiet_step Hh Hq |].
  apply yields_lift_bind.
  quiet_step Hh Hq; [quiet_step Hh Hq |].
  quiet_step Hh Hq; [quiet_step Hh Hq |].
  apply (yields_weaken (fun _ evs => h evs
                          = flat_map (fun _ => []) (List.filter
                              (fun l => looks_like_file l (file_exts cfg))
                              links))).
  - apply yields_for_each; [exact (proj1 Hh) | exact (proj2 Hh) |].
    intros raw Hraw. apply file_links_In in Hraw as [Hin Hfile].
    apply download_link_quiet. exact (Hjoin raw Hin Hfile).
  - intros _ evs ->. apply flat_map_nil.
Qed.

End QuietBranches.

(** X18.  When every write succeeds and the links of the page can be
    followed (its link-bearing attributes are iterable and [urljoin]
    accepts each of its file links), an accepted navigable page appends its
    status line to the log and rewrites the frontier file exactly when it
    is the hundredth, two-hundredth, ... page accepted in this run, and
    what it writes is the frontier with its own URL already in it. *)
Theorem checkpoint_on_hundredth (E : Env) (cfg : Config) (pg : page) (u : string)
    (st : state) :
  artifact_writes_ok E ->
  (forall n, write_ok E n SEEN_PATH = true) ->
  links_followable E cfg u pg ->
  p_url pg = Some u -> PyStr.truthy u = true -> u ∉ seen st ->
  accepts E cfg u = Done true ->
  page_is_html (decode_utf8 E) pg = true ->
  exists st' evs,
    process_page E cfg pg st = (Done tt, st')
    /\ trace st' = (trace st ++ EvSeenAdd u :: evs)%list
    /\ checkpoints evs
       = (if Nat.eqb (S (fetched_count st) mod 100) 0 then [{[u]} ∪ seen st] else [])
    /\ fetched_lines evs = [u].
Proof.
  intros Hwrites Hfrontier Hlinks Hu Ht Hnew Hacc Hhtml.
  rewrite (process_page_accepted E cfg pg u st Hu Ht Hnew Hacc).
  unfold classify_and_persist. rewrite Hhtml. unfold bind at 1.
  destruct (html_branch_quiet E cfg checkpoints Hwrites checkpoints_summary
              (fun _ _ _ => eq_refl) u pg Hlinks (accept u st))
    as ([] & st1' & evs & Hrun & Htr & Hseen & Hcount & Hck).
  destruct (html_branch_quiet E cfg fetched_lines Hwrites fetched_lines_summary
              fetched_lines_quiet u pg Hlinks (accept u st))
    as ([] & st2 & evs2 & Hrun2 & Htr2 & _ & _ & Hfl).
  rewrite Hrun in Hrun2. injection Hrun2 as <-. rewrite Htr in Htr2.
  apply app_inv_head in Htr2. subst evs2.
  rewrite Hrun. unfold log_and_checkpoint, append_log, bind.
  rewrite (write_at_ok E Hwrites) by exact log_path_not_seen.
  unfold get. cbn [push fetched_count]. rewrite Hcount. cbn [accept fetched_count].
  destruct (Nat.eqb (S (fetched_count st) mod 100) 0).
  - unfold persist_seen. rewrite Hfrontier. unfold emit.
    eexists _, (evs ++ [_; _])%list. split; [reflexivity |].
    split; [cbn [push trace]; rewrite Htr; cbn [accept trace];
            rewrite <- !app_assoc; reflexivity |].
    rewrite (proj2 checkpoints_summary), (proj2 fetched_lines_summary), Hck, Hfl.
    cbn [checkpoints fetched_lines push seen app]. rewrite Hseen.
    split; reflexivity.
  - eexists _, (evs ++ [_])%list. split; [reflexivity |].
    split; [cbn [push trace]; rewrite Htr; cbn [accept trace];
            rewrite <- !app_assoc; reflexivity |].
    rewrite (proj2 checkpoints_summary), (proj2 fetched_lines_summary), Hck, Hfl.
    split; reflexivity.
Qed.

Lemma checkpoint_on_hundredth_witness :
  exists st' evs,
    process_page Fixture.offline Fixture.open_policy (Fixture.html_page "https://h/a" EmptyString)
                 (mkState ∅ 99 0 0 []) = (Done tt, st')
    /\ trace st' = ([] ++ EvSeenAdd "https://h/a" :: evs)%list
    /\ checkpoints evs = [{["https://h/a"]} ∪ ∅]
    /\ fetched_lines evs = ["https://h/a"].
Proof.
  apply (checkpoint_on_hundredth Fixture.offline Fixture.open_policy
           (Fixture.html_page "https://h/a" EmptyString) "https://h/a" (mkState ∅ 99 0 0 [])).
  - exact offline_writes_ok.
  - reflexivity.
  - exists []. split; [reflexivity |]. intros raw Hraw. destruct Hraw.
  - reflexivity.
  - reflexivity.
  - apply not_elem_of_empty.
  - reflexivity.
  - reflexivity.
Defined.

(** X19.  A direct file that comes without a body and whose download brings
    nothing is counted as a fetched page, but its iteration ends early: no
    status line is appended to the attempt log and the frontier file is not
    rewritten, not even when the page is the hundredth of the run. *)
Theorem empty_binary_ends_iteration (E : Env) (cfg : Config) (pg : page) (u : string)
    (st : state) :
  artifact_writes_ok E ->
  p_url pg = Some u -> PyStr.truthy u = true -> u ∉ seen st ->
  accepts E cfg u = Done true ->
  page_is_html (decode_utf8 E) pg = false ->
  text_val_truthy (getattr_text pg "content") = false ->
  (forall body ctype status,
     get_bytes E (clock (accept u st)) u = Some (body, ctype, status) -> body = []) ->
  exists st' evs,
    process_page E cfg pg st = (Done tt, st')
    /\ trace st' = (trace st ++ EvSeenAdd u :: evs)%list
    /\ fetched_count st' = S (fetched_count st)
    /\ file_count st' = file_count st
    /\ fetched_lines evs = []
    /\ checkpoints evs = [].
Proof.
  intros Hwrites Hu Ht Hnew Hacc Hhtml Hcontent Hempty.
  rewrite (process_page_accepted E cfg pg u st Hu Ht Hnew Hacc).
  unfold classify_and_persist, direct_branch. rewrite Hhtml. cbv zeta.
  rewrite Hcontent. unfold bind at 1.
  destruct (fetch_direct_empty E Hwrites u pg (accept u st) Hempty) as (m & -> & _).
  eexists _, [_; _; _]. split; [reflexivity |].
  split; [cbn; rewrite <- !app_assoc; reflexivity |].
  repeat split.
Qed.

Lemma empty_binary_ends_iteration_witness :
  exists st' evs,
    process_page Fixture.offline Fixture.open_policy (Fixture.bare_page "https://h/f.bin")
                 (mkState ∅ 99 0 0 []) = (Done tt, st')
    /\ trace st' = ([] ++ EvSeenAdd "https://h/f.bin" :: evs)%list
    /\ fetched_count st' = 100
    /\ file_count st' = 0
    /\ fetched_lines evs = []
    /\ checkpoints evs = [].
Proof.
  apply (empty_binary_ends_iteration Fixture.offline Fixture.open_policy
           (Fixture.bare_page "https://h/f.bin") "https://h/f.bin" (mkState ∅ 99 0 0 [])).
  - exact offline_writes_ok.
  - reflexivity.
  - reflexivity.
  - apply not_elem_of_empty.
  - reflexivity.
  - reflexivity.
  - reflexivity.
  - intros body ctype status H. discriminate H.
Defined.

(** ** The sidecars and the files they name *)

Lemma fs_after_app (e1 e2 : list event) (fs : gmap string content) :
  fs_after (e1 ++ e2) fs = fs_after e2 (fs_after e1 fs).
Proof.
  revert fs. induction e1 as [| e e1 IH]; intros fs; [reflexivity |].
  destruct e as [| | | | u [] |]; cbn [fs_after app]; apply IH.
Qed.

Lemma dirs_apart (p : string) :
  (PyStr.startswith "output_raw/files/" p = true ->
   PyStr.startswith "output_raw/html/" p = false
   /\ PyStr.startswith "output_raw/meta/" p = false)
  /\ (PyStr.startswith "output_raw/html/" p = true ->
      PyStr.startswith "output_raw/meta/" p = false).
Proof.
  split; intros H; apply startswith_inv in H as [r ->]; repeat split; reflexivity.
Qed.

Lemma resolve_file (fs : gmap string content) (p : string) (body : list Byte.byte) :
  PyStr.startswith "output_raw/files/" p = true ->
  sidecars_resolve fs -> sidecars_resolve (fs_write p (Bytes body) fs).
Proof.
  intros Hp H path m Hl. unfold fs_write in *.
  apply lookup_insert_Some in Hl as [[_ Hl] | [Hne Hl]]; [discriminate Hl |].
  destruct (H path m Hl) as [Hf Hh]. split.
  - intros q Hq. destruct (Hf q Hq) as [Hpre [b Hb]]. split; [exact Hpre |].
    destruct (decide (p = q)) as [<- | Hpq].
    + exists body. apply lookup_insert_Some. left. split; reflexivity.
    + exists b. apply lookup_insert_Some. right. split; assumption.
  - intros q Hq. destruct (Hh q Hq) as [Hpre [t Ht]]. split; [exact Hpre |].
    exists t. apply lookup_insert_Some. right. split; [| exact Ht].
    intros <-. destruct (proj1 (dirs_apart p) Hp) as [Hx _]. congruence.
Qed.

Lemma resolve_html (fs : gmap string content) (p text : string) :
  PyStr.startswith "output_raw/html/" p = true ->
  sidecars_resolve fs -> sidecars_resolve (fs_write p (Text text) fs).
Proof.
  intros Hp H path m Hl. unfold fs_write in *.
  apply lookup_insert_Some in Hl as [[_ Hl] | [Hne Hl]]; [discriminate Hl |].
  destruct (H path m Hl) as [Hf Hh]. split.
  - intros q Hq. destruct (Hf q Hq) as [Hpre [b Hb]]. split; [exact Hpre |].
    exists b. apply lookup_insert_Some. right. split; [| exact Hb].
    intros <-. destruct (proj1 (dirs_apart p) Hpre) as [Hx _]. congruence.
  - intros q Hq. destruct (Hh q Hq) as [Hpre [t Ht]]. split; [exact Hpre |].
    destruct (decide (p = q)) as [<- | Hpq].
    + exists text. apply lookup_insert_Some. left. split; reflexivity.
    + exists t. apply lookup_insert_Some. right. split; assumption.
Qed.

Lemma resolve_meta (fs : gmap string content) (path : string) (m : PageMeta) :
  PyStr.startswith "output_raw/meta/" path = true ->
  (forall p, m_file_path m = Some p ->
     PyStr.startswith "output_raw/files/" p = true
     /\ exists body, fs !! p = Some (Bytes body)) ->
  (forall p, m_html_path m = Some p ->
     PyStr.startswith "output_raw/html/" p = true
     /\ exists text, fs !! p = Some (Text text)) ->
  sidecars_resolve fs -> sidecars_resolve (fs_write path (Json m) fs).
Proof.
  intros Hpath Hmf Hmh H path' m' Hl. unfold fs_write in *.
  assert (Hkeep : forall q c,
            PyStr.startswith "output_raw/meta/" q = false ->
            fs !! q = Some c -> <[path := Json m]> fs !! q = Some c).
  { intros q c Hq Hc. apply lookup_insert_Some. right. split; [| exact Hc].
    intros <-. congruence. }
  assert (Hfm : forall q, PyStr.startswith "output_raw/files/" q = true ->
                          PyStr.startswith "output_raw/meta/" q = false)
    by (intros q Hq; apply (proj1 (dirs_apart q) Hq)).
  assert (Hhm : forall q, PyStr.startswith "output_raw/html/" q = true ->
                          PyStr.startswith "output_raw/meta/" q = false)
    by (intros q Hq; apply (proj2 (dirs_apart q) Hq)).
  assert (Hfrom : forall m0,
            (forall p, m_file_path m0 = Some p ->
               PyStr.startswith "output_raw/files/" p = true
               /\ exists body, fs !! p = Some (Bytes body)) ->
            (forall p, m_html_path m0 = Some p ->
               PyStr.startswith "output_raw/html/" p = true
               /\ exists text, fs !! p = Some (Text text)) ->
            (forall p, m_file_path m0 = Some p ->
               PyStr.startswith "output_raw/files/" p = true
               /\ exists body, <[path := Json m]> fs !! p = Some (Bytes body))
            /\ (forall p, m_html_path m0 = Some p ->
               PyStr.startswith "output_raw/html/" p = true
               /\ exists text, <[path := Json m]> fs !! p = Some (Text text))).
  { intros m0 H1 H2. split; intros q Hq.
    - destruct (H1 q Hq) as [Hpre [b Hb]]. split; [exact Hpre |].
      exists b. apply Hkeep; [apply Hfm |]; assumption.
    - destruct (H2 q Hq) as [Hpre [t Ht]]. split; [exact Hpre |].
      exists t. apply Hkeep; [apply Hhm |]; assumption. }
  apply lookup_insert_Some in Hl as [[_ Hl] | [Hne Hl]].
  - injection Hl as <-. apply Hfrom; assumption.
  - destruct (H path' m' Hl) as [Hf Hh]. apply Hfrom; assumption.
Qed.

Section Integrity.
Context (E : Env) (cfg : Config) (fs0 : gmap string content).

Lemma tree_push (e : event) (st : state) :
  tree fs0 (push e st) = fs_after [e] (tree fs0 st).
Proof. unfold tree. cbn [push trace]. apply fs_after_app. Qed.

Lemma kept_other (e : event) (st : state) :
  off_tree e -> kept fs0 st -> kept fs0 (push e st).
Proof.
  intros He H. unfold kept. rewrite tree_push.
  destruct e as [| | | | u [] |]; try exact H; destruct He.
Qed.

Lemma kept_bare_meta (u name : string) (m : PageMeta) (st : state) :
  m_file_path m = None -> m_html_path m = None ->
  kept fs0 st -> kept fs0 (push (EvPage u (WriteMeta (path_join OUTPUT_META name) m)) st).
Proof.
  intros Hf Hh H. unfold kept. rewrite tree_push. cbn [fs_after].
  apply resolve_meta; [reflexivity | | | exact H]; intros p Hp; congruence.
Qed.

(** A file and the sidecar that names it. *)
Lemma kept_file_sidecar (u name name' : string) (body : list Byte.byte)
    (mk : nat -> PageMeta) :
  (forall now, m_file_path (mk now) = Some (path_join OUTPUT_FILES name)
               /\ m_html_path (mk now) = None) ->
  preserves (kept fs0)
    (bind (write_bytes E u (path_join OUTPUT_FILES name) body)
       (fun _ => bind (get clock)
          (fun now => bind (write_meta E u (path_join OUTPUT_META name') (mk now))
             (fun _ => incr_file)))).
Proof.
  intros Hmk st H. unfold bind, write_bytes, write_meta, write_at, get.
  destruct (write_ok E (clock st) _); [| exact H]. cbn [emit].
  assert (H1 : kept fs0 (push (EvPage u (WriteFile (path_join OUTPUT_FILES name) body)) st)).
  { unfold kept. rewrite tree_push. cbn [fs_after].
    apply resolve_file; [reflexivity | exact H]. }
  destruct (write_ok E _ _); [| exact H1]. cbn [emit incr_file snd].
  change (kept fs0 (push (EvPage u (WriteMeta (path_join OUTPUT_META name')
                                  (mk (clock (push (EvPage u (WriteFile (path_join OUTPUT_FILES name) body)) st)))))
                  (push (EvPage u (WriteFile (path_join OUTPUT_FILES name) body)) st))).
  unfold kept. rewrite tree_push. cbn [fs_after].
  destruct (Hmk (clock (push (EvPage u (WriteFile (path_join OUTPUT_FILES name) body)) st)))
    as [Hf Hh].
  apply resolve_meta; [reflexivity | | | exact H1].
  - intros p Hp. rewrite Hf in Hp. injection Hp as <-. split; [reflexivity |].
    exists body. rewrite tree_push. cbn [fs_after]. unfold fs_write.
    apply lookup_insert_Some. left. split; reflexivity.
  - intros p Hp. congruence.
Qed.

Ltac kept_step :=
  lazymatch goal with
  | |- preserves _ (bind (write_bytes _ _ _ _) _) =>
      apply kept_file_sidecar; intros ?; split; reflexivity
  | |- preserves _ (bind _ _) => apply preserves_bind; [| intros ?]
  | |- preserves _ (ret _) => apply preserves_ret
  | |- preserves _ (raise _) => apply preserves_raise
  | |- preserves _ (get _) => apply preserves_get
  | |- preserves _ (lift _) => apply preserves_lift
  | |- preserves _ (for_each _ _) => apply preserves_for_each; intros ?
  | |- preserves _ (write_meta _ _ _ _) =>
      apply preserves_write_at; intros ?; apply kept_bare_meta; reflexivity
  | |- preserves _ (append_log _ _ _) =>
      apply preserves_write_at; intros ?; apply kept_other; exact I
  | |- preserves _ (download_file _ _ _) =>
      apply preserves_download_file; intros ?; apply kept_other; exact I
  | |- preserves _ (persist_seen _) =>
      apply preserves_persist_seen; intros ?; apply kept_other; exact I
  | |- preserves _ (match ?x with _ => _ end) => destruct x
  end.

Lemma kept_download_link (u : string) (dom : option string) (raw : string) :
  preserves (kept fs0) (download_link E u dom raw).
Proof. unfold download_link. repeat kept_step. Qed.

Lemma kept_log_and_checkpoint (u : string) (pg : page) :
  preserves (kept fs0) (log_and_checkpoint E u pg).
Proof. unfold log_and_checkpoint. repeat kept_step. Qed.

Lemma kept_direct_branch (u : string) (pg : page) :
  preserves (kept fs0) (direct_branch E u pg).
Proof. unfold direct_branch, fetch_direct, save_direct. repeat kept_step. Qed.

(** The HTML body, when there is one, and the sidecar that names it. *)
Lemma kept_html_branch (u : string) (pg : page) :
  preserves (kept fs0) (html_branch E cfg u pg).
Proof.
  intros st H. unfold html_branch.
  assert (Hrest : forall (html_path : option string) (st1 : state),
            kept fs0 st1 ->
            (forall p, html_path = Some p ->
               PyStr.startswith "output_raw/html/" p = true
               /\ exists text, tree fs0 st1 !! p = Some (Text text)) ->
            kept fs0 (snd ((bind (lift (page_links (decode_utf8 E) pg))
              (fun out_links =>
                 bind (get clock)
                   (fun now =>
                      bind (write_meta E u
                              (path_join OUTPUT_META (safe_filename u ".json"))
                              (mkPageMeta u now (p_status pg) (page_content_type pg) None
                                 html_path out_links (p_domain pg) None))
                        (fun _ => for_each
                           (List.filter (fun l => looks_like_file l (file_exts cfg))
                                        out_links)
                           (download_link E u (p_domain pg)))))) st1))).
  { intros html_path st1 H1 Hp. unfold bind at 1, lift.
    destruct (page_links (decode_utf8 E) pg) as [links | e]; [| exact H1].
    unfold bind at 1, get. unfold bind at 1.
    unfold write_meta, write_at.
    match goal with |- context [write_ok E ?n ?q] => destruct (write_ok E n q) end;
      [| exact H1].
    cbn [emit]. apply preserves_for_each; [intros raw; apply kept_download_link |].
    unfold kept. rewrite tree_push. cbn [fs_after].
    apply resolve_meta; [reflexivity | intros p Hq; discriminate Hq | exact Hp | exact H1]. }
  cbv zeta.
  match goal with
  | |- context [if PyStr.truthy ?t then _ else ret None] => set (html_text := t)
  end.
  destruct (PyStr.truthy html_text).
  - cbv zeta. unfold bind at 1. unfold bind at 1. unfold write_text, write_at.
    match goal with |- context [write_ok E ?n ?q] => destruct (write_ok E n q) end;
      [| exact H].
    cbn [emit]. unfold bind at 1. cbn [incr_html ret].
    apply Hrest.
    + unfold kept, tree. cbn [trace push].
      rewrite fs_after_app. cbn [fs_after].
      apply resolve_html; [reflexivity | exact H].
    + intros p Hp. injection Hp as <-. split; [reflexivity |].
      exists html_text. unfold tree. cbn [trace push].
      rewrite fs_after_app. cbn [fs_after]. unfold fs_write.
      apply lookup_insert_Some. left. split; reflexivity.
  - unfold bind at 1. cbn [ret]. apply Hrest; [exact H |].
    intros p Hp. discriminate Hp.
Qed.

Lemma kept_process_page (pg : page) : preserves (kept fs0) (process_page E cfg pg).
Proof.
  intros st H. rewrite process_page_unfold.
  destruct (p_url pg) as [u |]; [| exact H].
  destruct (PyStr.truthy u); cbn [negb]; [| exact H].
  destruct (bool_decide (u ∈ seen st)); [exact H |].
  destruct (accepts E cfg u) as [[|] | e]; [| exact H | exact H].
  assert (H1 : kept fs0 (accept u st)).
  { unfold kept, tree, accept. cbn [trace]. rewrite fs_after_app. exact H. }
  revert H1. generalize (accept u st). clear st H. intros st H.
  unfold classify_and_persist. destruct (page_is_html _ _).
  - apply preserves_bind; [apply kept_html_branch | | exact H].
    intros _. apply kept_log_and_checkpoint.
  - apply preserves_bind; [apply kept_direct_branch | | exact H].
    intros [|]; [apply kept_log_and_checkpoint | apply preserves_ret].
Qed.

Lemma kept_main (seeds : list string) (seen0 : gset string) :
  sidecars_resolve fs0 ->
  sidecars_resolve (fs_after (trace (snd (main E cfg seeds seen0))) fs0).
Proof.
  intros H0.
  apply (main_invariant E cfg (kept fs0)).
  - intros seed st. apply kept_other. exact I.
  - intros seed msg st. apply kept_other. exact I.
  - intros seed st. apply kept_other. exact I.
  - intros s st. apply kept_other. exact I.
  - intros pg. apply kept_process_page.
  - exact H0.
Qed.

End Integrity.

(** X20.  The output directories stay consistent over a run, however it
    ends: if every sidecar of the tree that names a saved file or a saved
    HTML body names one that the tree holds, then so does every sidecar of
    the tree that the run leaves. *)
Theorem sidecars_name_saved_files (E : Env) (cfg : Config) (seeds : list string)
    (seen0 : gset string) (fs0 : gmap string content) :
  sidecars_resolve fs0 ->
  forall path m,
    fs_after (trace (snd (main E cfg seeds seen0))) fs0 !! path = Some (Json m) ->
    (forall p, m_file_path m = Some p ->
       exists body,
         fs_after (trace (snd (main E cfg seeds seen0))) fs0 !! p = Some (Bytes body))
    /\ (forall p, m_html_path m = Some p ->
       exists text,
         fs_after (trace (snd (main E cfg seeds seen0))) fs0 !! p = Some (Text text)).
Proof.
  intros H0 path m Hl.
  destruct (kept_main E cfg fs0 seeds seen0 H0 path m Hl) as [Hf Hh].
  split; intros p Hp; [apply (Hf p Hp) | apply (Hh p Hp)].
Qed.

Lemma sidecars_name_saved_files_witness :
  (forall p,
     m_file_path
       (mkPageMeta "https://h/f.pdf" 13 (Some 200%Z) (Some "application/pdf")
          (Some "output_raw/files/e212b9ac9509cba9.pdf") None [] (Some "h")
          (Some "discovered from https://h/b")) = Some p ->
     exists body,
       fs_after (trace (snd (main Fixture.two_pages Fixture.open_policy ["https://h/"] ∅)))
                ∅ !! p = Some (Bytes body))
  /\ (forall p,
        m_html_path
          (mkPageMeta "https://h/f.pdf" 13 (Some 200%Z) (Some "application/pdf")
             (Some "output_raw/files/e212b9ac9509cba9.pdf") None [] (Some "h")
             (Some "discovered from https://h/b")) = Some p ->
        exists text,
          fs_after (trace (snd (main Fixture.two_pages Fixture.open_policy
                                  ["https://h/"] ∅)))
                   ∅ !! p = Some (Text text)).
Proof.
  apply (sidecars_name_saved_files Fixture.two_pages Fixture.open_policy ["https://h/"] ∅ ∅)
    with (path := "output_raw/meta/e212b9ac9509cba9.pdf.json").
  - intros path m H. rewrite lookup_empty in H. discriminate H.
  - vm_compute. reflexivity.
Defined.

(** ** The run configuration *)

Lemma lookup_put_first (params : gset string) (aliases : list string) (v : pyval)
    (kv : gmap string pyval) (k : string) :
  put_first params aliases v kv !! k
  = if bool_decide (first_supported params aliases = Some k) then Some v else kv !! k.
Proof.
  unfold first_supported.
  induction aliases as [| a rest IH]; cbn [put_first List.find].
  - rewrite bool_decide_eq_false_2 by discriminate. reflexivity.
  - destruct (bool_decide (a ∈ params)); [| exact IH].
    destruct (decide (a = k)) as [-> | Hne].
    + rewrite bool_decide_eq_true_2 by reflexivity. apply lookup_insert_Some.
      left. split; reflexivity.
    + rewrite bool_decide_eq_false_2 by congruence.
      destruct (kv !! k) as [w |] eqn:Hk.
      * apply lookup_insert_Some. right. split; assumption.
      * apply lookup_insert_None. split; assumption.
Qed.

Lemma first_supported_In (params : gset string) (aliases : list string) (k : string) :
  first_supported params aliases = Some k -> In k aliases /\ k ∈ params.
Proof.
  intros H. apply List.find_some in H as [Hin Hk]. split; [exact Hin |].
  apply bool_decide_eq_true_1 in Hk. exact Hk.
Qed.

(** A key that a step does not name passes through it. *)
Lemma put_first_other (params : gset string) (aliases : list string) (v : pyval)
    (kv : gmap string pyval) (k : string) :
  existsb (String.eqb k) aliases = false ->
  put_first params aliases v kv !! k = kv !! k.
Proof.
  intros Hk. rewrite lookup_put_first.
  destruct (bool_decide_reflect (first_supported params aliases = Some k)) as [H | _];
    [| reflexivity].
  apply first_supported_In in H as [Hin _].
  assert (Hex : existsb (String.eqb k) aliases = true)
    by (apply existsb_exists; exists k; split; [exact Hin | apply String.eqb_refl]).
  congruence.
Qed.

(** A key set by a step was found in the signature, or was there before. *)
Lemma put_first_Some (params : gset string) (aliases : list string) (v w : pyval)
    (kv : gmap string pyval) (k : string) :
  put_first params aliases v kv !! k = Some w ->
  (k ∈ params /\ In k aliases /\ w = v) \/ kv !! k = Some w.
Proof.
  rewrite lookup_put_first.
  destruct (bool_decide_reflect (first_supported params aliases = Some k)) as [H | _];
    [| right; assumption].
  intros Hw. injection Hw as <-. apply first_supported_In in H as [Hin Hk]. left. auto.
Qed.

(** X21.  [make_run_config] passes to [CrawlerRunConfig] only keywords
    that its signature has; of the alternative names of the page limit, the
    depth, the concurrency and the timeout it passes at most one each, the
    first that the signature has; and [cache_mode], when passed, is
    [CacheMode.BYPASS] whatever the configuration says. *)
Theorem make_run_config_keywords (params : gset string) (crawler_cfg : gmap string pyval)
    (allowed : list string) :
  (forall k v, make_run_config params crawler_cfg allowed !! k = Some v -> k ∈ params)
  /\ (forall g,
        In g [["max_pages"; "max_visits"; "max_requests"];
              ["max_depth"; "depth"];
              ["concurrency"; "max_concurrency"; "concurrent_tasks"];
              ["timeout"; "timeout_ms"; "request_timeout"]] ->
        forall k, In k g ->
          is_Some (make_run_config params crawler_cfg allowed !! k)
          <-> first_supported params g = Some k)
  /\ (forall v, make_run_config params crawler_cfg allowed !! "cache_mode" = Some v ->
        v = VCacheBypass).
Proof.
  split; [| split].
  - intros k v H. unfold make_run_config in H. cbv zeta in H.
    repeat (apply put_first_Some in H as [[Hk _] | H]; [exact Hk |]).
    rewrite lookup_empty in H. discriminate H.
  - intros g Hg k Hk. unfold make_run_config. cbv zeta.
    cbn [In] in Hg.
    destruct Hg as [<- | [<- | [<- | [<- | []]]]]; cbn [In] in Hk;
      repeat (destruct Hk as [<- | Hk]); try destruct Hk;
      rewrite !put_first_other by reflexivity;
      rewrite lookup_put_first;
      rewrite ?put_first_other by reflexivity;
      rewrite ?lookup_empty;
      match goal with
      | |- context [bool_decide (first_supported params ?g0 = Some ?k0)] =>
          destruct (bool_decide_reflect (first_supported params g0 = Some k0)) as [H | H];
          [split; [intros _; exact H | intros _; eexists; reflexivity]
          | split; [intros [x Hx]; discriminate Hx | intros H'; destruct (H H')]]
      end.
  - intros v H. unfold make_run_config in H. cbv zeta in H.
    rewrite !put_first_other in H by reflexivity.
    apply put_first_Some in H as [(_ & _ & ->) | H]; [reflexivity |].
    rewrite !put_first_other in H by reflexivity.
    rewrite lookup_empty in H. discriminate H.
Qed.

(** ** Seeds from the sitemaps *)





Section SitemapFacts.
Context (E : Env) (sitemap_get : nat -> string -> option (Z * option string * string))
        (findall_loc : string -> list string) (allowed : list string).

(** The filter of the sitemap URLs is the domain rule of the crawl. *)
Lemma ok_allowed_by_domain (u : string) : ok E allowed u = allowed_by_domain E u allowed.
Proof. reflexivity. Qed.




End SitemapFacts.


(** X23.  Without allowed domains the sitemap expansion adds nothing,
    whatever the sitemaps hold: it gives back the seeds without their
    duplicates, or the exception of a sitemap entry that cannot be
    parsed. *)
Theorem sitemap_expansion_needs_domains (E : Env)
    (sitemap_get : nat -> string -> option (Z * option string * string))
    (findall_loc : string -> list string) (seeds : list string) :
  match expand_seeds_via_sitemap E sitemap_get findall_loc [] seeds with
  | Done merged => merged = dict_fromkeys seeds
  | Raised e =>
      exists u, e = ValueError u /\ urlparse_netloc E u = None
                /\ In u (scan_roots sitemap_get findall_loc 0 seeds)
  end.
Proof.
  unfold expand_seeds_via_sitemap. cbv zeta.
  generalize (scan_roots sitemap_get findall_loc 0 seeds). intros extra.
  assert (H : match keep_ok E [] extra with
              | Done kept => kept = []
              | Raised e => exists u, e = ValueError u /\ urlparse_netloc E u = None
                                      /\ In u extra
              end).
  { induction extra as [| x rest IH]; cbn [keep_ok]; [reflexivity |].
    unfold ok at 1. destruct (urlparse_netloc E x) as [h |] eqn:Hx.
    - cbn [existsb]. destruct (keep_ok E [] rest) as [l | e].
      + exact IH.
      + destruct IH as (u & He & Hu & Hin). exists u. split; [exact He |].
        split; [exact Hu | right; exact Hin].
    - exists x. split; [reflexivity |]. split; [exact Hx | left; reflexivity]. }
  destruct (keep_ok E [] extra) as [kept | e]; [| exact H].
  subst kept. rewrite app_nil_r. reflexivity.
Qed.

(** A run of the expansion: a repeated seed, one sitemap with three
    entries, of which one is on another host and one is the seed itself. *)
Example sitemap_expansion_run :
  expand_seeds_via_sitemap Fixture.offline one_sitemap two_locs ["uit.edu.vn"]
    ["https://uit.edu.vn/"; "https://uit.edu.vn/"]
  = Done ["https://uit.edu.vn/"; "https://www.uit.edu.vn/a"].
Proof. vm_compute. reflexivity. Qed.
